(** * EI-Found: the client-side handlers of the community feed

    A shallow embedding of the event handlers of the React client
    (src/pages/Dashboard.tsx, src/pages/CommentsPage.tsx,
    src/contexts/AuthContext.tsx, src/pages/LoginPage.tsx,
    src/components/ChangePasswordForm.tsx, which also holds the TweetComposer
    component, and src/unnamed/part_000, the reset-password page) and the
    properties of the optimistic
    like toggle, the realtime patch handlers, the signup allowlist gate and
    the form validations.

    Every handler is an asynchronous JavaScript function that updates React
    state, awaits calls on the hosted backend and shows toasts.  A handler is
    embedded as a program of type [Prog St A]: a tree of state updates
    ([setX(prev => ...)]), observable effects, awaited requests and a final
    value or a thrown error.  [run] executes such a program against a backend
    that answers each request, from a given component state, with no other
    handler interleaved, and returns the final state, the trace of effects
    and the result. *)

From Stdlib Require Import ZArith NArith Ascii String List Lia.
From stdpp Require Import base list strings.

Local Open Scope string_scope.
Local Open Scope Z_scope.

(** ** JavaScript strings

    A JavaScript string is a sequence of UTF-16 code units; [.length] counts
    code units and [===] compares the sequences.  Text typed by the user
    (passwords, e-mail addresses, post content) is modelled as such a
    sequence.  Identifiers (uuid), timestamps and the literal messages of the
    source are only ever compared or passed along, and are Rocq strings. *)

Definition JsString := list N.

(** The code units of an ASCII literal. *)
Definition js (s : string) : JsString :=
  List.map N_of_ascii (list_ascii_of_string s).

(** [s.length] *)
Definition js_length (s : JsString) : Z := Z.of_nat (length s).

(** WhiteSpace and LineTerminator code points of ECMAScript, the ones
    [String.prototype.trim] strips; all of them are single code units. *)
Definition is_white_space (c : N) : bool :=
  ((c =? 9) || (c =? 10) || (c =? 11) || (c =? 12) || (c =? 13) || (c =? 32)
   || (c =? 160) || (c =? 5760) || ((8192 <=? c) && (c <=? 8202))
   || (c =? 8232) || (c =? 8233) || (c =? 8239) || (c =? 8287)
   || (c =? 12288) || (c =? 65279))%N.

Fixpoint trimStart (s : JsString) : JsString :=
  match s with
  | [] => []
  | c :: rest => if is_white_space c then trimStart rest else s
  end.

Definition trimEnd (s : JsString) : JsString := rev (trimStart (rev s)).

(** [s.trim()] *)
Definition trim (s : JsString) : JsString := trimEnd (trimStart s).

(** [!s] for a string: only the empty string is falsy. *)
Definition js_not (s : JsString) : bool :=
  match s with [] => true | _ :: _ => false end.

(** ** Errors, responses, toasts *)

(** A thrown or returned error value.  [instanceof_Error] is the outcome of
    the [error instanceof Error] test of the catch blocks. *)
Record Err := { instanceof_Error : bool; message : string }.

(** [new Error(msg)] *)
Definition new_Error (msg : string) : Err :=
  {| instanceof_Error := true; message := msg |}.

(** The [{ data, error }] object every backend call resolves to.  The
    client library's response type is a union: a call either succeeds, with
    its data and [error: null], or fails, with [data: null] and the error. *)
Inductive Response (A : Type) :=
| Success (d : A)
| Failure (e : Err).
Arguments Success {A} d.
Arguments Failure {A} e.

(** The [data] field: [null] on failure. *)
Definition data {A} (r : Response A) : option A :=
  match r with Success d => Some d | Failure _ => None end.

(** The [error] field: [null] on success. *)
Definition error {A} (r : Response A) : option Err :=
  match r with Success _ => None | Failure e => Some e end.

Inductive ToastVariant := Default | Destructive.

(** The argument of [toast({ title, description, variant })]. *)
Record Toast := { title : string; description : string; variant : ToastVariant }.

(** ** Rows of the backend tables (supabase/migrations) *)

(** The columns of [profiles] the feed selects:
    [select('user_id, display_name, avatar_url')]. *)
Module ProfileRow.
Record t := {
  user_id : string;
  display_name : option string;
  avatar_url : option string }.
End ProfileRow.

(** A row of [tweets] as a realtime payload carries it ([payload.new]).
    [likes_count] and [comments_count] are INTEGER NOT NULL columns: in that
    range JavaScript's number arithmetic is exact, so they are integers. *)
Module TweetRow.
Record t := {
  id : string;
  user_id : string;
  content : JsString;
  likes_count : Z;
  comments_count : Z;
  created_at : string;
  updated_at : string }.
End TweetRow.

(** [select('id, user_id, content, created_at')] on [comments]. *)
Module CommentRow.
Record t := {
  id : string;
  user_id : string;
  content : JsString;
  created_at : string }.
End CommentRow.

(** ** View-model types (the TypeScript interfaces of the pages) *)

(** [profiles: { display_name, avatar_url } | null] of a tweet. *)
Module Author.
Record t := {
  display_name : option string;
  avatar_url : option string }.
End Author.

(** [interface Tweet], the same in Dashboard.tsx and CommentsPage.tsx.
    [user_liked?: boolean] is optional, hence an option. *)
Module Tweet.
Record t := {
  id : string;
  user_id : string;
  content : JsString;
  likes_count : Z;
  comments_count : Z;
  created_at : string;
  profiles : option Author.t;
  user_liked : option bool }.
End Tweet.

(** [interface Comment] of CommentsPage.tsx; the handlers store the selected
    profile row as it is under [profiles]. *)
Module Comment.
Record t := {
  id : string;
  user_id : string;
  content : JsString;
  created_at : string;
  profiles : option ProfileRow.t }.
End Comment.

(** The signed-in user of [useAuth()]; the handlers read [user.id] only. *)
Module User.
Record t := { id : string; name : string; email : string }.
End User.

(** ** Requests to the backend and observable effects *)

Inductive Request :=
| Rpc_is_email_allowed (email_to_check : JsString)
    (* supabase.rpc('is_email_allowed', { email_to_check }) *)
| Auth_signUp (email password full_name : JsString)
    (* supabase.auth.signUp({ email, password, options }) *)
| Auth_updateUser (password : JsString)
    (* supabase.auth.updateUser({ password }) *)
| Tweets_insert (user_id : string) (content : JsString)
    (* supabase.from('tweets').insert({ user_id, content }) *)
| Likes_insert (tweet_id user_id : string)
    (* supabase.from('likes').insert({ tweet_id, user_id }) *)
| Likes_delete (tweet_id user_id : string)
    (* supabase.from('likes').delete().eq('tweet_id', _).eq('user_id', _) *)
| Profiles_select_single (user_id : string)
    (* supabase.from('profiles').select(..).eq('user_id', _).single() *)
| Comments_select_single (id : string).
    (* supabase.from('comments').select(..).eq('id', _).single() *)

(** The type of [data] in a successful response to each request; the
    handlers never read the data of a write or of an auth call. *)
Definition Reply (r : Request) : Type :=
  match r with
  | Rpc_is_email_allowed _ => bool
  | Profiles_select_single _ => ProfileRow.t
  | Comments_select_single _ => CommentRow.t
  | _ => unit
  end.

(** What [setTimeout] defers. *)
Inductive Deferred := FetchTweets | ScrollToEnd.

Inductive Event :=
| ECall (r : Request)                    (* a request sent to the backend *)
| EToast (t : Toast)                     (* toast({...}) *)
| EConsoleLog (label : string)           (* console.log(label, _) *)
| EConsoleError (label : string)         (* console.error(label, _) *)
| ESetTimeout (what : Deferred) (ms : Z) (* setTimeout(_, ms) *)
| EPreventDefault                        (* e.preventDefault() *)
| ENavigate (path : string)              (* navigate(path) *)
| EDispatch (name : string)              (* window.dispatchEvent(new CustomEvent(name)) *)
| EOnOpenChange (open : bool).           (* the onOpenChange prop *)

Definition is_call (e : Event) : bool :=
  match e with ECall _ => true | _ => false end.

(** ** Handler programs *)

Inductive Prog (St A : Type) : Type :=
| Ret (a : A)                                         (* return *)
| Throw (e : Err)                                     (* throw e *)
| Update (f : St -> St) (k : Prog St A)               (* setState(prev => f prev) *)
| Emit (e : Event) (k : Prog St A)                    (* a synchronous effect *)
| Await (r : Request) (k : Response (Reply r) -> Prog St A).  (* await *)
Arguments Ret {St A} a.
Arguments Throw {St A} e.
Arguments Update {St A} f k.
Arguments Emit {St A} e k.
Arguments Await {St A} r k.

Fixpoint bind {St A B} (p : Prog St A) (f : A -> Prog St B) : Prog St B :=
  match p with
  | Ret a => f a
  | Throw e => Throw e
  | Update g k => Update g (bind k f)
  | Emit e k => Emit e (bind k f)
  | Await r k => Await r (fun x => bind (k x) f)
  end.

(** [try { body } catch (error) { handler error }] *)
Fixpoint try_catch {St A} (body : Prog St A) (handler : Err -> Prog St A)
  : Prog St A :=
  match body with
  | Ret a => Ret a
  | Throw e => handler e
  | Update g k => Update g (try_catch k handler)
  | Emit e k => Emit e (try_catch k handler)
  | Await r k => Await r (fun x => try_catch (k x) handler)
  end.

(** [try { body } finally { fin }] *)
Fixpoint finally {St A} (body : Prog St A) (fin : Prog St unit) : Prog St A :=
  match body with
  | Ret a => bind fin (fun _ => Ret a)
  | Throw e => bind fin (fun _ => Throw e)
  | Update g k => Update g (finally k fin)
  | Emit e k => Emit e (finally k fin)
  | Await r k => Await r (fun x => finally (k x) fin)
  end.

Declare Scope prog_scope.
Delimit Scope prog_scope with prog.
Bind Scope prog_scope with Prog.
Notation "x <- p ;; k" := (bind p (fun x => k))
  (at level 100, p at next level, right associativity) : prog_scope.
Notation "x <~ r ;; k" := (Await r (fun x => k))
  (at level 100, r at next level, right associativity) : prog_scope.
Notation "'setState' f ;; k" := (Update f k)
  (at level 100, f at next level, right associativity) : prog_scope.
Notation "'emit' e ;; k" := (Emit e k)
  (at level 100, e at next level, right associativity) : prog_scope.
Notation "'return_'" := (Ret tt) : prog_scope.

(** The backend answers every request. *)
Definition Backend := forall r : Request, Response (Reply r).

Record Outcome (St A : Type) := {
  final : St;              (* the component state when the handler is done *)
  trace : list Event;      (* its effects, in order *)
  result : A + Err }.      (* the value returned, or the error thrown *)
Arguments final {St A} _.
Arguments trace {St A} _.
Arguments result {St A} _.

Definition logged {St A} (e : Event) (o : Outcome St A) : Outcome St A :=
  {| final := final o; trace := e :: trace o; result := result o |}.

Fixpoint run {St A} (backend : Backend) (p : Prog St A) (s : St)
  : Outcome St A :=
  match p with
  | Ret a => {| final := s; trace := []; result := inl a |}
  | Throw e => {| final := s; trace := []; result := inr e |}
  | Update f k => run backend k (f s)
  | Emit e k => logged e (run backend k s)
  | Await r k => logged (ECall r) (run backend (k (backend r)) s)
  end.

(** The requests a run sent, in order. *)
Definition calls {St A} (o : Outcome St A) : list Event :=
  List.filter is_call (trace o).

Local Open Scope prog_scope.

(** [{ ...tweet, likes_count: likes, user_liked: liked }] *)
Definition spread_like (tweet : Tweet.t) (likes : Z) (liked : bool) : Tweet.t :=
  {| Tweet.id := Tweet.id tweet;
     Tweet.user_id := Tweet.user_id tweet;
     Tweet.content := Tweet.content tweet;
     Tweet.likes_count := likes;
     Tweet.comments_count := Tweet.comments_count tweet;
     Tweet.created_at := Tweet.created_at tweet;
     Tweet.profiles := Tweet.profiles tweet;
     Tweet.user_liked := Some liked |}.

(** [{ ...tweet, likes_count: likes, comments_count: comments }] *)
Definition spread_counts (tweet : Tweet.t) (likes comments : Z) : Tweet.t :=
  {| Tweet.id := Tweet.id tweet;
     Tweet.user_id := Tweet.user_id tweet;
     Tweet.content := Tweet.content tweet;
     Tweet.likes_count := likes;
     Tweet.comments_count := comments;
     Tweet.created_at := Tweet.created_at tweet;
     Tweet.profiles := Tweet.profiles tweet;
     Tweet.user_liked := Tweet.user_liked tweet |}.

(** [{ ...prev, comments_count: comments }] *)
Definition spread_comments (tweet : Tweet.t) (comments : Z) : Tweet.t :=
  {| Tweet.id := Tweet.id tweet;
     Tweet.user_id := Tweet.user_id tweet;
     Tweet.content := Tweet.content tweet;
     Tweet.likes_count := Tweet.likes_count tweet;
     Tweet.comments_count := comments;
     Tweet.created_at := Tweet.created_at tweet;
     Tweet.profiles := Tweet.profiles tweet;
     Tweet.user_liked := Tweet.user_liked tweet |}.

Definition destructive (t d : string) : Toast :=
  {| title := t; description := d; variant := Destructive |}.

Definition plain (t d : string) : Toast :=
  {| title := t; description := d; variant := Default |}.

(** ** src/pages/Dashboard.tsx *)

Module Dashboard.

(** The state variables the handlers below write: [tweets] and [newTweet]
    (the others are the search term, the sidebar list and display flags). *)
Record State := { tweets : list Tweet.t; newTweet : JsString }.

(** [setTweets(prev => f prev)] *)
Definition setTweets (f : list Tweet.t -> list Tweet.t) (s : State) : State :=
  {| tweets := f (tweets s); newTweet := newTweet s |}.

(** [setNewTweet(v)] *)
Definition setNewTweet (v : JsString) (s : State) : State :=
  {| tweets := tweets s; newTweet := v |}.

(** The tweet the INSERT handler builds from [payload.new] and the profile
    response (lines 221-233). *)
Definition newTweetWithProfile (payload_new : TweetRow.t)
    (profileData : option ProfileRow.t) : Tweet.t :=
  {| Tweet.id := TweetRow.id payload_new;
     Tweet.user_id := TweetRow.user_id payload_new;
     Tweet.content := TweetRow.content payload_new;
     Tweet.likes_count := TweetRow.likes_count payload_new;
     Tweet.comments_count := TweetRow.comments_count payload_new;
     Tweet.created_at := TweetRow.created_at payload_new;
     Tweet.profiles :=
       match profileData with
       | Some p => Some {| Author.display_name := ProfileRow.display_name p;
                           Author.avatar_url := ProfileRow.avatar_url p |}
       | None => None
       end;
     Tweet.user_liked := Some false |}.

(** The INSERT handler of the [tweets-changes] channel (lines 207-236). *)
Definition onTweetInsert (payload_new : TweetRow.t) : Prog State unit :=
  emit EConsoleLog "New tweet received:" ;;
  resp <~ Profiles_select_single (TweetRow.user_id payload_new) ;;
  _ <- match error resp with
       | Some _ => emit EConsoleError "Error fetching profile for new tweet:" ;;
                   return_
       | None => return_
       end ;;
  setState setTweets (fun prev =>
             newTweetWithProfile payload_new (data resp) :: prev) ;;
  return_.

(** The UPDATE handler (lines 245-252). *)
Definition onTweetUpdate (payload_new : TweetRow.t) : Prog State unit :=
  emit EConsoleLog "Tweet updated:" ;;
  setState setTweets (fun prev =>
    (fun tweet =>
       if bool_decide (Tweet.id tweet = TweetRow.id payload_new)
       then spread_counts tweet (TweetRow.likes_count payload_new)
                                (TweetRow.comments_count payload_new)
       else tweet) <$> prev) ;;
  return_.

(** The DELETE handler (lines 261-264); [payload.old.id] is its argument. *)
Definition onTweetDelete (payload_old_id : string) : Prog State unit :=
  emit EConsoleLog "Tweet deleted:" ;;
  setState setTweets (fun prev =>
    List.filter (fun tweet => negb (bool_decide (Tweet.id tweet = payload_old_id)))
                prev) ;;
  return_.

(** [handleSendTweet] (lines 291-319), the submit handler of the inline
    composer.  [view] is the state of the render the handler closes over. *)
Definition handleSendTweet (user : option User.t) (view : State)
  : Prog State unit :=
  emit EPreventDefault ;;
  match user with
  | None => return_
  | Some u =>
    if js_not (trim (newTweet view)) || (280 <? js_length (newTweet view))
    then return_
    else
      resp <~ Tweets_insert (User.id u) (trim (newTweet view)) ;;
      match error resp with
      | Some _ =>
          emit EToast (destructive "Error" "Failed to send tweet") ;;
          return_
      | None =>
          setState setNewTweet [] ;;
          emit EToast (plain "Success" "Tweet posted successfully!") ;;
          emit ESetTimeout FetchTweets 500 ;;
          return_
      end
  end.

(** [disabled={!newTweet.trim() || isOverLimit}] of the inline composer's
    submit button, with [isOverLimit = 280 - newTweet.length < 0]. *)
Definition submitDisabled (view : State) : bool :=
  js_not (trim (newTweet view)) || (280 - js_length (newTweet view) <? 0).

(** [handleLike] (lines 321-386).  [view] is the state of the render the
    handler closes over: [tweets.find] reads it, while the [setTweets]
    updaters receive the state current when they run. *)
Definition handleLike (user : option User.t) (view : State)
    (tweetId : string) (isLiked : bool) : Prog State unit :=
  match user with
  | None => return_
  | Some u =>
    match List.find (fun t => bool_decide (Tweet.id t = tweetId)) (tweets view) with
    | None => return_
    | Some currentTweet =>
      let newLikesCount :=
        if isLiked then Tweet.likes_count currentTweet - 1
        else Tweet.likes_count currentTweet + 1 in
      setState setTweets (fun prev =>
        (fun tweet =>
           if bool_decide (Tweet.id tweet = tweetId)
           then spread_like tweet newLikesCount (negb isLiked)
           else tweet) <$> prev) ;;
      if isLiked then
        resp <~ Likes_delete tweetId (User.id u) ;;
        match error resp with
        | Some _ =>
            emit EConsoleError "Error unliking tweet:" ;;
            setState setTweets (fun prev =>
              (fun tweet =>
                 if bool_decide (Tweet.id tweet = tweetId)
                 then spread_like tweet (Tweet.likes_count currentTweet) true
                 else tweet) <$> prev) ;;
            emit EToast (destructive "Error" "Failed to unlike tweet") ;;
            return_
        | None => return_
        end
      else
        resp <~ Likes_insert tweetId (User.id u) ;;
        match error resp with
        | Some _ =>
            emit EConsoleError "Error liking tweet:" ;;
            setState setTweets (fun prev =>
              (fun tweet =>
                 if bool_decide (Tweet.id tweet = tweetId)
                 then spread_like tweet (Tweet.likes_count currentTweet) false
                 else tweet) <$> prev) ;;
            emit EToast (destructive "Error" "Failed to like tweet") ;;
            return_
        | None => return_
        end
    end
  end.

End Dashboard.

(** ** src/pages/CommentsPage.tsx *)

Module CommentsPage.

(** The state variables the handlers below write: the displayed [tweet]
    ([null] until it is loaded) and the [comments] of its thread. *)
Record State := { tweet : option Tweet.t; comments : list Comment.t }.

(** [setTweet(prev => f prev)] *)
Definition setTweet (f : option Tweet.t -> option Tweet.t) (s : State) : State :=
  {| tweet := f (tweet s); comments := comments s |}.

(** [setComments(prev => f prev)] *)
Definition setComments (f : list Comment.t -> list Comment.t) (s : State) : State :=
  {| tweet := tweet s; comments := f (comments s) |}.

(** [{ ...newCommentData, profiles: profile || null }] (lines 196-199). *)
Definition commentWithProfile (newCommentData : CommentRow.t)
    (profile : option ProfileRow.t) : Comment.t :=
  {| Comment.id := CommentRow.id newCommentData;
     Comment.user_id := CommentRow.user_id newCommentData;
     Comment.content := CommentRow.content newCommentData;
     Comment.created_at := CommentRow.created_at newCommentData;
     Comment.profiles := profile |}.

(** The INSERT handler of the comments channel (lines 180-211);
    [payload.new.id] is its argument. *)
Definition onCommentInsert (payload_new_id : string) : Prog State unit :=
  emit EConsoleLog "New comment received:" ;;
  resp <~ Comments_select_single payload_new_id ;;
  match data resp with
  | Some newCommentData =>
      presp <~ Profiles_select_single (CommentRow.user_id newCommentData) ;;
      setState setComments (fun prev =>
                 (prev ++ [commentWithProfile newCommentData (data presp)])%list) ;;
      setState setTweet (fun prev =>
                 match prev with
                 | Some prev => Some (spread_comments prev (Tweet.comments_count prev + 1))
                 | None => None
                 end) ;;
      emit ESetTimeout ScrollToEnd 100 ;;
      return_
  | None => return_
  end.

(** The UPDATE handler for the displayed tweet (lines 221-229); the channel
    filters on [id=eq.tweetId], the handler does not look at the id. *)
Definition onTweetUpdate (payload_new : TweetRow.t) : Prog State unit :=
  emit EConsoleLog "Tweet updated:" ;;
  setState setTweet (fun prev =>
             match prev with
             | Some prev => Some (spread_counts prev (TweetRow.likes_count payload_new)
                                                     (TweetRow.comments_count payload_new))
             | None => None
             end) ;;
  return_.

(** [handleLike] (lines 271-328); [view] is the render the handler closes
    over. *)
Definition handleLike (user : option User.t) (view : State) (isLiked : bool)
  : Prog State unit :=
  match user, tweet view with
  | Some u, Some tweet =>
      let newLikesCount :=
        if isLiked then Tweet.likes_count tweet - 1
        else Tweet.likes_count tweet + 1 in
      setState setTweet (fun prev =>
                 match prev with
                 | Some prev => Some (spread_like prev newLikesCount (negb isLiked))
                 | None => None
                 end) ;;
      if isLiked then
        resp <~ Likes_delete (Tweet.id tweet) (User.id u) ;;
        match error resp with
        | Some _ =>
            emit EConsoleError "Error unliking tweet:" ;;
            setState setTweet (fun prev =>
                       match prev with
                       | Some prev => Some (spread_like prev (Tweet.likes_count tweet) true)
                       | None => None
                       end) ;;
            emit EToast (destructive "Error" "Failed to unlike tweet") ;;
            return_
        | None => return_
        end
      else
        resp <~ Likes_insert (Tweet.id tweet) (User.id u) ;;
        match error resp with
        | Some _ =>
            emit EConsoleError "Error liking tweet:" ;;
            setState setTweet (fun prev =>
                       match prev with
                       | Some prev => Some (spread_like prev (Tweet.likes_count tweet) false)
                       | None => None
                       end) ;;
            emit EToast (destructive "Error" "Failed to like tweet") ;;
            return_
        | None => return_
        end
  | _, _ => return_
  end.

End CommentsPage.

(** ** src/contexts/AuthContext.tsx *)

Module AuthContext.

(** [!isAllowed] for the [boolean | null] data of the allowlist call. *)
Definition not_allowed (isAllowed : option bool) : bool :=
  match isAllowed with Some true => false | _ => true end.

(** [signup] (lines 123-151).  It writes no state of its own, so it runs in
    the state of whichever component awaits it.  The [emailRedirectTo] option
    of the sign-up call, the page's origin, is left out of the request. *)
Definition signup {St} (email password name : JsString) : Prog St unit :=
  resp <~ Rpc_is_email_allowed email ;;
  match error resp with
  | Some _ =>
      emit EConsoleError "Allowlist check error:" ;;
      Throw (new_Error "Unable to verify email authorization. Please try again.")
  | None =>
      if not_allowed (data resp)
      then Throw (new_Error
        "This email is not authorized for registration. Please contact an administrator.")
      else
        resp' <~ Auth_signUp email password name ;;
        match error resp' with
        | Some e => Throw e
        | None => return_
        end
  end.

End AuthContext.

(** [error instanceof Error ? error.message : fallback] *)
Definition message_or (e : Err) (fallback : string) : string :=
  if instanceof_Error e then message e else fallback.

(** ** src/pages/LoginPage.tsx *)

Module LoginPage.

Record FormData := {
  email : JsString;
  password : JsString;
  name : JsString;
  confirmPassword : JsString }.

(** [formData] and [isLoading]; the three display toggles of the page are
    not written by [handleSignup]. *)
Record State := { formData : FormData; isLoading : bool }.

Definition setIsLoading (b : bool) (s : State) : State :=
  {| formData := formData s; isLoading := b |}.

Definition setFormData (f : FormData) (s : State) : State :=
  {| formData := f; isLoading := isLoading s |}.

(** [handleSignup] (lines 48-90). *)
Definition handleSignup (view : State) : Prog State unit :=
  emit EPreventDefault ;;
  if bool_decide (password (formData view) ≠ confirmPassword (formData view))
  then
    emit EToast (destructive "Passwords don't match"
                             "Please make sure your passwords match.") ;;
    return_
  else if js_length (password (formData view)) <? 6
  then
    emit EToast (destructive "Password too short"
                             "Password must be at least 6 characters long.") ;;
    return_
  else
    setState setIsLoading true ;;
    finally
      (try_catch
         (_ <- AuthContext.signup (email (formData view)) (password (formData view))
                                  (name (formData view)) ;;
          emit EToast (plain "Account created successfully!"
                             "Welcome to EI Found. You can now sign in.") ;;
          setState setFormData {| email := []; password := []; name := [];
                                  confirmPassword := [] |} ;;
          return_)
         (fun error =>
            emit EConsoleError "Signup error:" ;;
            emit EToast (destructive "Signup failed"
                           (message_or error
                              "Failed to create account. Please try again.")) ;;
            return_))
      (setState setIsLoading false ;; return_).

End LoginPage.

(** ** ChangePasswordForm (src/components/ChangePasswordForm.tsx, lines 10-117) *)

Module ChangePasswordForm.

Record FormData := {
  currentPassword : JsString;
  newPassword : JsString;
  confirmPassword : JsString }.

Record State := { isLoading : bool; formData : FormData }.

Definition setIsLoading (b : bool) (s : State) : State :=
  {| isLoading := b; formData := formData s |}.

Definition setFormData (f : FormData) (s : State) : State :=
  {| isLoading := isLoading s; formData := f |}.

(** [handleChangePassword] (lines 18-69). *)
Definition handleChangePassword (view : State) : Prog State unit :=
  emit EPreventDefault ;;
  if bool_decide (newPassword (formData view) ≠ confirmPassword (formData view))
  then
    emit EToast (destructive "Passwords don't match"
                             "Please make sure your new passwords match.") ;;
    return_
  else if js_length (newPassword (formData view)) <? 6
  then
    emit EToast (destructive "Password too short"
                             "Password must be at least 6 characters long.") ;;
    return_
  else
    setState setIsLoading true ;;
    finally
      (try_catch
         (resp <~ Auth_updateUser (newPassword (formData view)) ;;
          match error resp with
          | Some e => Throw e
          | None =>
              emit EToast (plain "Password changed"
                                 "Your password has been successfully updated.") ;;
              setState setFormData {| currentPassword := []; newPassword := [];
                                      confirmPassword := [] |} ;;
              return_
          end)
         (fun error =>
            emit EConsoleError "Password change error:" ;;
            emit EToast (destructive "Change failed"
                           (message_or error
                              "Failed to change password. Please try again.")) ;;
            return_))
      (setState setIsLoading false ;; return_).

End ChangePasswordForm.

(** ** ResetPasswordPage (src/unnamed/part_000) *)

Module ResetPasswordPage.

Record FormData := { password : JsString; confirmPassword : JsString }.

Record State := { isLoading : bool; formData : FormData }.

Definition setIsLoading (b : bool) (s : State) : State :=
  {| isLoading := b; formData := formData s |}.

(** [handleResetPassword] (lines 36-82). *)
Definition handleResetPassword (view : State) : Prog State unit :=
  emit EPreventDefault ;;
  if bool_decide (password (formData view) ≠ confirmPassword (formData view))
  then
    emit EToast (destructive "Passwords don't match"
                             "Please make sure your passwords match.") ;;
    return_
  else if js_length (password (formData view)) <? 6
  then
    emit EToast (destructive "Password too short"
                             "Password must be at least 6 characters long.") ;;
    return_
  else
    setState setIsLoading true ;;
    finally
      (try_catch
         (resp <~ Auth_updateUser (password (formData view)) ;;
          match error resp with
          | Some e => Throw e
          | None =>
              emit EToast (plain "Password updated"
                                 "Your password has been successfully updated.") ;;
              emit ENavigate "/dashboard" ;;
              return_
          end)
         (fun error =>
            emit EConsoleError "Password update error:" ;;
            emit EToast (destructive "Update failed"
                           (message_or error
                              "Failed to update password. Please try again.")) ;;
            return_))
      (setState setIsLoading false ;; return_).

End ResetPasswordPage.

(** ** TweetComposer (src/components/ChangePasswordForm.tsx, lines 297-380) *)

Module TweetComposer.

Record State := { content : JsString; isSubmitting : bool }.

Definition setContent (v : JsString) (s : State) : State :=
  {| content := v; isSubmitting := isSubmitting s |}.

Definition setIsSubmitting (b : bool) (s : State) : State :=
  {| content := content s; isSubmitting := b |}.

(** [handleSubmit] (lines 302-333), the [onSubmit] handler of the dialog's
    form. *)
Definition handleSubmit (user : option User.t) (view : State) : Prog State unit :=
  emit EPreventDefault ;;
  match user with
  | None => return_
  | Some u =>
    if js_not (trim (content view)) || isSubmitting view
    then return_
    else
      setState setIsSubmitting true ;;
      resp <~ Tweets_insert (User.id u) (trim (content view)) ;;
      _ <- match error resp with
           | Some _ =>
               emit EToast (destructive "Error" "Failed to post tweet") ;;
               return_
           | None =>
               setState setContent [] ;;
               emit EOnOpenChange false ;;
               emit EToast (plain "Success" "Tweet posted successfully!") ;;
               emit EDispatch "tweetPosted" ;;
               return_
           end ;;
      setState setIsSubmitting false ;;
      return_
  end.

(** [isOverLimit] (lines 335-336): [280 - content.length < 0]. *)
Definition isOverLimit (view : State) : bool :=
  280 - js_length (content view) <? 0.

(** [disabled={!content.trim() || isOverLimit || isSubmitting}] of the
    dialog's submit button (line 368). *)
Definition submitDisabled (view : State) : bool :=
  js_not (trim (content view)) || isOverLimit view || isSubmitting view.

End TweetComposer.

(** ** Running handlers one after another *)

(** The component state once a handler has run to its end. *)
Definition after {St A} (backend : Backend) (p : Prog St A) (s : St) : St :=
  final (run backend p s).

(** Notifications delivered in order, the handler of each one finishing
    before the next notification arrives. *)
Definition deliver {St N} (backend : Backend) (handler : N -> Prog St unit)
    (s : St) (notifications : list N) : St :=
  foldl (fun s n => after backend (handler n) s) s notifications.

(** The tweet the dashboard prepends for an INSERT notification: the payload
    with the author the backend returns for it. *)
Definition pushed_tweet (backend : Backend) (payload_new : TweetRow.t) : Tweet.t :=
  Dashboard.newTweetWithProfile payload_new
    (data (backend (Profiles_select_single (TweetRow.user_id payload_new)))).

(** The comment the thread page appends for an INSERT notification, if the
    backend returns the comment row. *)
Definition fetched_comment (backend : Backend) (payload_new_id : string)
  : option Comment.t :=
  match data (backend (Comments_select_single payload_new_id)) with
  | Some row =>
      Some (CommentsPage.commentWithProfile row
              (data (backend (Profiles_select_single (CommentRow.user_id row)))))
  | None => None
  end.

(** How many entries of a feed carry a given id. *)
Definition occurrences (tweetId : string) (l : list Tweet.t) : nat :=
  length (List.filter (fun t => bool_decide (Tweet.id t = tweetId)) l).

(** Like, then unlike, then like the same tweet from the dashboard, each
    handler closing over the state the previous one left. *)
Definition like_unlike_like (backend : Backend) (user : option User.t)
    (tweetId : string) (s0 : Dashboard.State) : Dashboard.State :=
  let s1 := after backend (Dashboard.handleLike user s0 tweetId false) s0 in
  let s2 := after backend (Dashboard.handleLike user s1 tweetId true) s1 in
  after backend (Dashboard.handleLike user s2 tweetId false) s2.

(** ** Backends and sample data for the examples *)

(** Every write and auth call succeeds, the allowlist answers [allowed], and
    the two single-row selects find no row. *)
Definition backend_ok (allowed : bool) : Backend :=
  fun r =>
    match r as r0 return Response (Reply r0) with
    | Rpc_is_email_allowed _ => Success allowed
    | Auth_signUp _ _ _ => Success tt
    | Auth_updateUser _ => Success tt
    | Tweets_insert _ _ => Success tt
    | Likes_insert _ _ => Success tt
    | Likes_delete _ _ => Success tt
    | Profiles_select_single _ => Failure (new_Error "PGRST116")
    | Comments_select_single _ => Failure (new_Error "PGRST116")
    end.

(** Every request fails. *)
Definition backend_down : Backend :=
  fun r => Failure (new_Error "Failed to fetch").

Definition sample_comment : CommentRow.t :=
  {| CommentRow.id := "c1"; CommentRow.user_id := "u2";
     CommentRow.content := js "nice"; CommentRow.created_at := "2025-07-16T12:20:00Z" |}.

(** The comment row is found, its author's profile is not. *)
Definition backend_comment : Backend :=
  fun r =>
    match r as r0 return Response (Reply r0) with
    | Comments_select_single _ => Success sample_comment
    | r0 => backend_down r0
    end.

Definition alice : User.t :=
  {| User.id := "u1"; User.name := "Alice"; User.email := "alice@example.com" |}.

Definition sample_tweet (liked : bool) : Tweet.t :=
  {| Tweet.id := "p1"; Tweet.user_id := "u2"; Tweet.content := js "hello";
     Tweet.likes_count := 5; Tweet.comments_count := 2;
     Tweet.created_at := "2025-07-16T12:14:51Z";
     Tweet.profiles := Some {| Author.display_name := Some "Bob";
                               Author.avatar_url := None |};
     Tweet.user_liked := Some liked |}.

Definition other_tweet : Tweet.t :=
  {| Tweet.id := "p0"; Tweet.user_id := "u1"; Tweet.content := js "first";
     Tweet.likes_count := 1; Tweet.comments_count := 0;
     Tweet.created_at := "2025-07-16T12:00:00Z";
     Tweet.profiles := None; Tweet.user_liked := Some false |}.

Definition sample_feed (liked : bool) : Dashboard.State :=
  {| Dashboard.tweets := [sample_tweet liked; other_tweet];
     Dashboard.newTweet := [] |}.

Definition sample_thread (liked : bool) : CommentsPage.State :=
  {| CommentsPage.tweet := Some (sample_tweet liked); CommentsPage.comments := [] |}.

Definition sample_row (i : string) (likes comments : Z) : TweetRow.t :=
  {| TweetRow.id := i; TweetRow.user_id := "u2"; TweetRow.content := js "hello";
     TweetRow.likes_count := likes; TweetRow.comments_count := comments;
     TweetRow.created_at := "2025-07-16T12:14:51Z";
     TweetRow.updated_at := "2025-07-16T12:15:00Z" |}.

(** A signup form with a five-character password typed twice. *)
Definition short_signup : LoginPage.State :=
  {| LoginPage.formData :=
       {| LoginPage.email := js "alice@example.com"; LoginPage.password := js "abcde";
          LoginPage.name := js "Alice"; LoginPage.confirmPassword := js "abcde" |};
     LoginPage.isLoading := false |}.

(** A change-password form whose two entries differ. *)
Definition mismatched_change : ChangePasswordForm.State :=
  {| ChangePasswordForm.isLoading := false;
     ChangePasswordForm.formData :=
       {| ChangePasswordForm.currentPassword := [];
          ChangePasswordForm.newPassword := js "secret12";
          ChangePasswordForm.confirmPassword := js "secret21" |} |}.

(** A reset-password form with an empty password typed twice. *)
Definition empty_reset : ResetPasswordPage.State :=
  {| ResetPasswordPage.isLoading := false;
     ResetPasswordPage.formData :=
       {| ResetPasswordPage.password := []; ResetPasswordPage.confirmPassword := [] |} |}.


(** The function every [prev.map(tweet => tweet.id === tweetId ? f tweet : tweet)]
    of the source maps over the list; the proofs reason about it under this
    name. *)
Definition patch (tweetId : string) (f : Tweet.t -> Tweet.t) (tweet : Tweet.t) : Tweet.t :=
  if bool_decide (Tweet.id tweet = tweetId) then f tweet else tweet.

(** The request [handleLike] sends: the like row is deleted when the tweet is
    liked and inserted when it is not. *)
Definition like_write (isLiked : bool) (tweetId user_id : string) : Request :=
  if isLiked then Likes_delete tweetId user_id else Likes_insert tweetId user_id.

(** ** Sequences of feed events *)

(** What can happen to the dashboard's feed: the three notifications of the
    [tweets-changes] channel and a like toggle. *)
Inductive FeedAction :=
| Inserted (payload_new : TweetRow.t)
| Updated (payload_new : TweetRow.t)
| Deleted (payload_old_id : string)
| Toggled (tweetId : string) (isLiked : bool).

(** One event handled to its end, the handler closing over the state it
    finds. *)
Definition feed_step (backend : Backend) (user : option User.t)
    (s : Dashboard.State) (a : FeedAction) : Dashboard.State :=
  match a with
  | Inserted p => after backend (Dashboard.onTweetInsert p) s
  | Updated p => after backend (Dashboard.onTweetUpdate p) s
  | Deleted i => after backend (Dashboard.onTweetDelete i) s
  | Toggled i b => after backend (Dashboard.handleLike user s i b) s
  end.

(** Every post of the feed carries a like flag. *)
Definition flags_known (l : list Tweet.t) : Prop :=
  Forall (fun t => is_Some (Tweet.user_liked t)) l.

(** ** Navbar (src/components/ChangePasswordForm.tsx, lines 129-278) *)

Module Navbar.

(** What the theme code reads and writes: the [isDark] state, whether
    [document.documentElement] carries the class [dark], and the [theme]
    item of [localStorage] ([null] when absent). *)
Record Env := { isDark : bool; darkClass : bool; theme : option string }.

(** [!theme] for the [string | null] a [getItem] returns. *)
Definition no_theme (theme : option string) : bool :=
  match theme with
  | None => true
  | Some t => bool_decide (t = "")
  end.

(** The effect run on mount (lines 135-147); [systemPrefersDark] is what
    [window.matchMedia('(prefers-color-scheme: dark)').matches] returns. *)
Definition onMount (systemPrefersDark : bool) (env : Env) : Env :=
  if bool_decide (theme env = Some "dark") || (no_theme (theme env) && systemPrefersDark)
  then {| isDark := true; darkClass := true; theme := theme env |}
  else {| isDark := false; darkClass := false; theme := theme env |}.

(** [toggleTheme] (lines 149-160). *)
Definition toggleTheme (env : Env) : Env :=
  let newTheme := negb (isDark env) in
  if newTheme
  then {| isDark := newTheme; darkClass := true; theme := Some "dark" |}
  else {| isDark := newTheme; darkClass := false; theme := Some "light" |}.

(** [n] clicks on the theme button. *)
Definition toggles (n : nat) (env : Env) : Env := Nat.iter n toggleTheme env.

End Navbar.

(** ** AdminPage (src/unnamed/part_003) *)

Module AdminPage.

(** [INITIAL_ALLOWLIST] (lines 13-18). *)
Definition INITIAL_ALLOWLIST : list JsString :=
  [js "admin@example.com"; js "user1@example.com"; js "user2@example.com";
   js "test@example.com"].

Record State := { allowlist : list JsString; newEmail : JsString }.

(** A toast of this page; its description embeds the e-mail address. *)
Record Notice := { title : string; description : JsString; variant : ToastVariant }.

Inductive Action :=
| AddEmail (typed : JsString)     (* the form is submitted, its input holding [typed] *)
| RemoveEmail (email : JsString). (* the bin next to an address is clicked *)

Section WithLowerCase.

(** [String.prototype.toLowerCase]. *)
Variable toLowerCase : JsString -> JsString.

(** [handleAddEmail] (lines 38-59), [e.preventDefault()] aside; [view] is the
    render the handler closes over, [s] the state its updaters receive.  It
    returns the state and the toast shown, if any. *)
Definition handleAddEmail (view s : State) : State * option Notice :=
  if js_not (trim (newEmail view)) then (s, None)
  else
    let email := toLowerCase (trim (newEmail view)) in
    if bool_decide (email ∈ allowlist view)
    then (s, Some {| title := "Email already exists";
                     description := js "This email is already in the allowlist.";
                     variant := Destructive |})
    else ({| allowlist := (allowlist s ++ [email])%list; newEmail := [] |},
          Some {| title := "Email added";
                  description := (email ++ js " has been added to the allowlist.")%list;
                  variant := Default |}).

(** [handleRemoveEmail] (lines 61-67). *)
Definition handleRemoveEmail (email : JsString) (s : State) : State * option Notice :=
  ({| allowlist := List.filter (fun e => bool_decide (e <> email)) (allowlist s);
      newEmail := newEmail s |},
   Some {| title := "Email removed";
           description := (email ++ js " has been removed from the allowlist.")%list;
           variant := Default |}).

(** One action of the administrator, handled in the state it finds. *)
Definition step (s : State) (a : Action) : State :=
  match a with
  | AddEmail typed =>
      let view := {| allowlist := allowlist s; newEmail := typed |} in
      fst (handleAddEmail view view)
  | RemoveEmail email => fst (handleRemoveEmail email s)
  end.

End WithLowerCase.

End AdminPage.

(** ** Handlers with further requests

    The handlers below send requests the ones above do not: deleting a
    tweet, inserting a comment, signing in, asking for a reset e-mail and the
    selects of the initial load.  They are programs of the same shape over
    the wider type of requests. *)

(** A row of [profiles] with all its columns ([select('*')]). *)
Module FullProfile.
Record t := {
  user_id : string;
  display_name : option JsString;
  avatar_url : option JsString;
  bio : option JsString;
  about : option JsString;
  program : option JsString;
  section : option JsString;
  batch : option JsString;
  hobby : option JsString;
  website : option JsString;
  instagram : option JsString;
  linkedin : option JsString;
  twitter : option JsString;
  is_admin : bool }.
End FullProfile.

Inductive Query :=
| Known (r : Request)
    (* one of the requests above *)
| Tweets_delete (id user_id : string)
    (* supabase.from('tweets').delete().eq('id', _).eq('user_id', _) *)
| Tweets_select_all
    (* supabase.from('tweets').select('*').order('created_at', { ascending: false }) *)
| Profiles_select_in (user_ids : list string)
    (* supabase.from('profiles').select(..).in('user_id', _) *)
| Profiles_select_maybeSingle (user_id : string)
    (* supabase.from('profiles').select('*').eq('user_id', _).maybeSingle() *)
| Likes_select_by_user (user_id : string)
    (* supabase.from('likes').select('tweet_id').eq('user_id', _) *)
| Comments_insert (user_id tweet_id : string) (content : JsString)
    (* supabase.from('comments').insert({ user_id, tweet_id, content }) *)
| Auth_signInWithPassword (email password : JsString)
    (* supabase.auth.signInWithPassword({ email, password }) *)
| Auth_resetPasswordForEmail (email : JsString).
    (* supabase.auth.resetPasswordForEmail(email, { redirectTo }) *)

(** The type of [data] in a successful response; [maybeSingle] succeeds with
    [null] when no row matches, and a select of likes returns their
    [tweet_id]s. *)
Definition Answer (q : Query) : Type :=
  match q with
  | Known r => Reply r
  | Tweets_select_all => list TweetRow.t
  | Profiles_select_in _ => list ProfileRow.t
  | Profiles_select_maybeSingle _ => option FullProfile.t
  | Likes_select_by_user _ => list string
  | _ => unit
  end.

(** What a handler does that can be observed. *)
Inductive Step :=
| Sent (q : Query)                             (* a request *)
| Did (e : Event)                              (* one of the effects above *)
| Deferred_call (callback : string) (ms : Z)   (* setTimeout(callback, ms) *)
| SetShowForgotPassword (shown : bool).        (* the view switch of the login page *)

Module Flow.

Inductive t (St A : Type) : Type :=
| Ret (a : A)
| Throw (e : Err)
| Update (f : St -> St) (k : t St A)
| Emit (e : Step) (k : t St A)
| Await (q : Query) (k : Response (Answer q) -> t St A).
Arguments Ret {St A} a.
Arguments Throw {St A} e.
Arguments Update {St A} f k.
Arguments Emit {St A} e k.
Arguments Await {St A} q k.

Fixpoint bind {St A B} (p : t St A) (f : A -> t St B) : t St B :=
  match p with
  | Ret a => f a
  | Throw e => Throw e
  | Update g k => Update g (bind k f)
  | Emit e k => Emit e (bind k f)
  | Await q k => Await q (fun x => bind (k x) f)
  end.

Fixpoint try_catch {St A} (body : t St A) (handler : Err -> t St A) : t St A :=
  match body with
  | Ret a => Ret a
  | Throw e => handler e
  | Update g k => Update g (try_catch k handler)
  | Emit e k => Emit e (try_catch k handler)
  | Await q k => Await q (fun x => try_catch (k x) handler)
  end.

Fixpoint finally {St A} (body : t St A) (fin : t St unit) : t St A :=
  match body with
  | Ret a => bind fin (fun _ => Ret a)
  | Throw e => bind fin (fun _ => Throw e)
  | Update g k => Update g (finally k fin)
  | Emit e k => Emit e (finally k fin)
  | Await q k => Await q (fun x => finally (k x) fin)
  end.

(** The backend, for every request. *)
Definition Service := forall q : Query, Response (Answer q).

Record Outcome (St A : Type) := {
  final : St;
  trace : list Step;
  result : A + Err }.
Arguments final {St A} _.
Arguments trace {St A} _.
Arguments result {St A} _.

Definition logged {St A} (e : Step) (o : Outcome St A) : Outcome St A :=
  {| final := final o; trace := e :: trace o; result := result o |}.

Fixpoint run {St A} (service : Service) (p : t St A) (s : St) : Outcome St A :=
  match p with
  | Ret a => {| final := s; trace := []; result := inl a |}
  | Throw e => {| final := s; trace := []; result := inr e |}
  | Update f k => run service k (f s)
  | Emit e k => logged e (run service k s)
  | Await q k => logged (Sent q) (run service (k (service q)) s)
  end.

Definition is_sent (e : Step) : bool :=
  match e with Sent _ => true | _ => false end.

(** The requests a run sent, in order. *)
Definition sent {St A} (o : Outcome St A) : list Step :=
  List.filter is_sent (trace o).

End Flow.

Declare Scope flow_scope.
Delimit Scope flow_scope with flow.
Notation "x <- p ;; k" := (Flow.bind p (fun x => k))
  (at level 100, p at next level, right associativity) : flow_scope.
Notation "x <~ q ;; k" := (Flow.Await q (fun x => k))
  (at level 100, q at next level, right associativity) : flow_scope.
Notation "'setState' f ;; k" := (Flow.Update f k)
  (at level 100, f at next level, right associativity) : flow_scope.
Notation "'emit' e ;; k" := (Flow.Emit e k)
  (at level 100, e at next level, right associativity) : flow_scope.
Notation "'return_'" := (Flow.Ret tt) : flow_scope.

(** A service that fails every request, and one that succeeds with empty
    data. *)
Definition service_down : Flow.Service :=
  fun q => Failure (new_Error "Failed to fetch").

Definition service_ok : Flow.Service :=
  fun q =>
    match q as q0 return Response (Answer q0) with
    | Known r => backend_ok true r
    | Tweets_delete _ _ => Success tt
    | Tweets_select_all => Success []
    | Profiles_select_in _ => Success []
    | Profiles_select_maybeSingle _ => Success None
    | Likes_select_by_user _ => Success []
    | Comments_insert _ _ _ => Success tt
    | Auth_signInWithPassword _ _ => Success tt
    | Auth_resetPasswordForEmail _ => Success tt
    end.

(** ** Dashboard.tsx: the initial load, deleting a tweet, the members list *)

Module DashboardMore.

(** [handleDeleteTweet] (lines 388-411). *)
Definition handleDeleteTweet (user : option User.t) (tweetId : string)
  : Flow.t Dashboard.State unit :=
  match user with
  | None => Flow.Ret tt
  | Some u =>
    (resp <~ Tweets_delete tweetId (User.id u) ;;
     match error resp with
     | Some _ =>
         emit Did (EToast (destructive "Error" "Failed to delete tweet")) ;;
         return_
     | None =>
         emit Did (EToast (plain "Success" "Tweet deleted successfully")) ;;
         setState Dashboard.setTweets
           (List.filter (fun tweet => negb (bool_decide (Tweet.id tweet = tweetId)))) ;;
         return_
     end)%flow
  end.

(** The state [fetchTweets] writes: the feed and two display flags. *)
Record State := { page : Dashboard.State; tweetsLoading : bool; fastLoad : bool }.

(** [setTweets(v)] *)
Definition setTweets (v : list Tweet.t) (s : State) : State :=
  {| page := Dashboard.setTweets (fun _ => v) (page s);
     tweetsLoading := tweetsLoading s; fastLoad := fastLoad s |}.

Definition setTweetsLoading (b : bool) (s : State) : State :=
  {| page := page s; tweetsLoading := b; fastLoad := fastLoad s |}.

Definition setFastLoad (b : bool) (s : State) : State :=
  {| page := page s; tweetsLoading := tweetsLoading s; fastLoad := b |}.

(** [[...new Set(xs)]]: the distinct elements, in order of first occurrence. *)
Definition distinct (xs : list string) : list string :=
  foldl (fun seen x => if bool_decide (x ∈ seen) then seen else (seen ++ [x])%list) [] xs.

(** [profilesMap.get(user_id)] once [profilesMap] is filled (lines 143-146):
    [forEach] sets each row under its [user_id], a later row replacing an
    earlier one, so the map holds under a key the last of the rows with that
    [user_id]. *)
Definition profilesMap_get (profilesData : option (list ProfileRow.t))
    (user_id : string) : option ProfileRow.t :=
  List.find (fun profile => bool_decide (ProfileRow.user_id profile = user_id))
            (rev (default [] profilesData)).

(** [tweetsWithProfiles] (lines 148-155); each argument is the [data] of a
    response, [null] when the request failed. *)
Definition tweetsWithProfiles (tweetsData : option (list TweetRow.t))
    (profilesData : option (list ProfileRow.t)) (userLikes : option (list string))
  : list Tweet.t :=
  let likedTweetIds := default [] userLikes in
  (fun tweet =>
     {| Tweet.id := TweetRow.id tweet;
        Tweet.user_id := TweetRow.user_id tweet;
        Tweet.content := TweetRow.content tweet;
        Tweet.likes_count := TweetRow.likes_count tweet;
        Tweet.comments_count := TweetRow.comments_count tweet;
        Tweet.created_at := TweetRow.created_at tweet;
        Tweet.profiles :=
          match profilesMap_get profilesData (TweetRow.user_id tweet) with
          | Some p => Some {| Author.display_name := ProfileRow.display_name p;
                              Author.avatar_url := ProfileRow.avatar_url p |}
          | None => None
          end;
        Tweet.user_liked := Some (bool_decide (TweetRow.id tweet ∈ likedTweetIds)) |})
  <$> default [] tweetsData.

(** [fetchTweets] (lines 100-167); [startTime] and [endTime] are the two
    readings of [Date.now()]. *)
Definition fetchTweets (user : option User.t) (startTime endTime : Z)
  : Flow.t State unit :=
  match user with
  | None => Flow.Ret tt
  | Some u =>
    Flow.try_catch
      (tweets <~ Tweets_select_all ;;
       match error tweets with
       | Some _ =>
           emit Did (EConsoleError "Error fetching tweets:") ;;
           setState setTweetsLoading false ;;
           return_
       | None =>
           let userIds := distinct (TweetRow.user_id <$> default [] (data tweets)) in
           profiles <~ Profiles_select_in userIds ;;
           likes <~ Likes_select_by_user (User.id u) ;;
           _ <- match error profiles with
                | Some _ => emit Did (EConsoleError "Error fetching profiles:") ;; return_
                | None => return_
                end ;;
           _ <- match error likes with
                | Some _ => emit Did (EConsoleError "Error fetching user likes:") ;; return_
                | None => return_
                end ;;
           setState setTweets (tweetsWithProfiles (data tweets) (data profiles) (data likes)) ;;
           setState setFastLoad (endTime - startTime <? 200) ;;
           setState setTweetsLoading false ;;
           return_
       end)%flow
      (fun error =>
         (emit Did (EConsoleError "Error fetching tweets:") ;;
          setState setTweetsLoading false ;;
          return_)%flow)
  end.

End DashboardMore.

(** ** CommentsPage.tsx: sending a comment *)

Module CommentsPageMore.

(** The state [handleSendComment] writes: the text of the comment box. *)
Record State := { newComment : JsString }.

(** [handleSendComment] (lines 238-269); [tweetId] is the route parameter,
    absent when the route has none. *)
Definition handleSendComment (user : option User.t) (tweetId : option string)
    (view : State) : Flow.t State unit :=
  (emit Did EPreventDefault ;;
   match user, tweetId with
   | Some u, Some tweetId =>
     if js_not (trim (newComment view)) || bool_decide (tweetId = "")
     then return_
     else
       resp <~ Comments_insert (User.id u) tweetId (newComment view) ;;
       match error resp with
       | Some _ =>
           emit Did (EConsoleError "Error sending comment:") ;;
           emit Did (EToast (destructive "Error" "Failed to send comment")) ;;
           return_
       | None =>
           setState (fun _ => {| newComment := [] |}) ;;
           emit Did (EToast (plain "Success" "Comment posted successfully!")) ;;
           emit Deferred_call "fetchTweetAndComments" 500 ;;
           return_
       end
   | _, _ => return_
   end)%flow.

End CommentsPageMore.

(** ** AuthContext.tsx: the signed-in user *)

(** [interface User] of AuthContext.tsx with all its fields; an optional
    field is [None] when [undefined]. *)
Module AuthUser.
Record t := {
  id : string;
  name : JsString;
  email : JsString;
  avatar : option JsString;
  bio : option JsString;
  isAdmin : bool;
  program : option JsString;
  section : option JsString;
  batch : option JsString;
  hobby : option JsString;
  website : option JsString;
  instagram : option JsString;
  linkedin : option JsString;
  twitter : option JsString;
  about : option JsString }.
End AuthUser.

(** The fields of the auth library's user the mapping reads. *)
Module SupabaseUser.
Record t := { id : string; email : option JsString }.
End SupabaseUser.

Module AuthContextMore.

(** [x || undefined] for a [string | null | undefined]: the empty string is
    falsy. *)
Definition or_undefined (x : option JsString) : option JsString :=
  match x with
  | Some (c :: rest) => Some (c :: rest)
  | _ => None
  end.

(** [s.split('@')[0]]: the text before the first [@]. *)
Fixpoint before_at (s : JsString) : JsString :=
  match s with
  | [] => []
  | c :: rest => if (c =? 64)%N then [] else c :: before_at rest
  end.

(** The object [mapSupabaseUserToUser] returns (lines 65-81), [profile] being
    the row it fetched or [null]. *)
Definition toUser (supabaseUser : SupabaseUser.t) (profile : option FullProfile.t)
  : AuthUser.t :=
  let field (get : FullProfile.t -> option JsString) :=
    or_undefined (profile ≫= get) in
  {| AuthUser.id := SupabaseUser.id supabaseUser;
     AuthUser.name :=
       match field FullProfile.display_name with
       | Some n => n
       | None =>
           match or_undefined (before_at <$> SupabaseUser.email supabaseUser) with
           | Some n => n
           | None => js "User"
           end
       end;
     AuthUser.email := default [] (or_undefined (SupabaseUser.email supabaseUser));
     AuthUser.avatar := field FullProfile.avatar_url;
     AuthUser.bio := field FullProfile.bio;
     AuthUser.isAdmin := match profile with
                         | Some p => FullProfile.is_admin p
                         | None => false
                         end;
     AuthUser.program := field FullProfile.program;
     AuthUser.section := field FullProfile.section;
     AuthUser.batch := field FullProfile.batch;
     AuthUser.hobby := field FullProfile.hobby;
     AuthUser.website := field FullProfile.website;
     AuthUser.instagram := field FullProfile.instagram;
     AuthUser.linkedin := field FullProfile.linkedin;
     AuthUser.twitter := field FullProfile.twitter;
     AuthUser.about := field FullProfile.about |}.

(** [mapSupabaseUserToUser] (lines 57-82): the profile is fetched with
    [maybeSingle] and only its [data] is read, so a failed fetch counts as no
    profile. *)
Definition mapSupabaseUserToUser {St} (supabaseUser : SupabaseUser.t)
  : Flow.t St AuthUser.t :=
  (resp <~ Profiles_select_maybeSingle (SupabaseUser.id supabaseUser) ;;
   Flow.Ret (toUser supabaseUser (mjoin (data resp))))%flow.

(** [login] (lines 114-121). *)
Definition login {St} (email password : JsString) : Flow.t St unit :=
  (resp <~ Auth_signInWithPassword email password ;;
   match error resp with
   | Some e => Flow.Throw e
   | None => return_
   end)%flow.

End AuthContextMore.

(** ** LoginPage.tsx: signing in and asking for a reset e-mail *)

Module LoginPageMore.

(** [handleLogin] (lines 26-46). *)
Definition handleLogin (view : LoginPage.State) : Flow.t LoginPage.State unit :=
  (emit Did EPreventDefault ;;
   setState LoginPage.setIsLoading true ;;
   Flow.finally
     (Flow.try_catch
        (_ <- AuthContextMore.login (LoginPage.email (LoginPage.formData view))
                                    (LoginPage.password (LoginPage.formData view)) ;;
         emit Did (EToast (plain "Welcome back!" "You've successfully logged in.")) ;;
         return_)
        (fun error =>
           emit Did (EConsoleError "Login error:") ;;
           emit Did (EToast (destructive "Login failed"
                      (message_or error
                         "Invalid credentials. Please check your email and password."))) ;;
           return_))
     (setState LoginPage.setIsLoading false ;; return_))%flow.

(** [handleForgotPassword] (lines 92-128).  It writes [isLoading] and switches
    the reset view off with [setShowForgotPassword(false)], which is recorded
    as an effect. *)
Definition handleForgotPassword (view : LoginPage.State)
  : Flow.t LoginPage.State unit :=
  (emit Did EPreventDefault ;;
   if js_not (LoginPage.email (LoginPage.formData view))
   then
     emit Did (EToast (destructive "Email required" "Please enter your email address.")) ;;
     return_
   else
     setState LoginPage.setIsLoading true ;;
     Flow.finally
       (Flow.try_catch
          (resp <~ Auth_resetPasswordForEmail (LoginPage.email (LoginPage.formData view)) ;;
           match error resp with
           | Some e => Flow.Throw e
           | None =>
               emit Did (EToast (plain "Reset email sent"
                                       "Check your email for password reset instructions.")) ;;
               emit SetShowForgotPassword false ;;
               return_
           end)
          (fun error =>
             emit Did (EConsoleError "Password reset error:") ;;
             emit Did (EToast (destructive "Reset failed"
                        (message_or error
                           "Failed to send reset email. Please try again."))) ;;
             return_))
       (setState LoginPage.setIsLoading false ;; return_))%flow.

End LoginPageMore.

(** ** App.tsx: the route guard *)

Module App.

(** What [ProtectedRoute] renders. *)
Inductive Rendered :=
| Spinner
| Navigate (to : string) (replace : bool)
| Children.

(** [!s] for an optional string field. *)
Definition missing (s : option JsString) : bool :=
  match s with
  | Some (_ :: _) => false
  | _ => true
  end.

(** [ProtectedRoute] (lines 21-45); [pathname] is [window.location.pathname]. *)
Definition ProtectedRoute (user : option AuthUser.t) (loading : bool)
    (pathname : string) : Rendered :=
  if loading then Spinner
  else
    match user with
    | None => Navigate "/login" false
    | Some user =>
        let isProfileIncomplete :=
          missing (AuthUser.program user) || missing (AuthUser.section user)
          || missing (AuthUser.batch user) in
        let isOnProfileSetup := bool_decide (pathname = "/profile-setup") in
        if isProfileIncomplete && negb isOnProfileSetup
        then Navigate "/profile-setup" true
        else Children
    end.

End App.

(** A service whose feed holds two tweets of the same author. *)
Definition service_two_tweets : Flow.Service :=
  fun q =>
    match q as q0 return Response (Answer q0) with
    | Tweets_select_all => Success [sample_row "p2" 1 0; sample_row "p1" 5 2]
    | q0 => service_ok q0
    end.

(** ** Dashboard.tsx: the members list of the sidebar *)

(** [interface Profile] of Dashboard.tsx. *)
Module Member.
Record t := {
  id : string;
  user_id : string;
  display_name : option JsString;
  avatar_url : option JsString;
  bio : option JsString;
  is_admin : bool;
  email : JsString }.
End Member.

Module Members.

(** [s.startsWith(sub)] *)
Fixpoint startsWith (s sub : JsString) : bool :=
  match sub, s with
  | [], _ => true
  | c :: sub', d :: s' => (c =? d)%N && startsWith s' sub'
  | _ :: _, [] => false
  end.

(** [s.includes(sub)]: [sub] occurs in [s] at some position. *)
Fixpoint includes (s sub : JsString) : bool :=
  startsWith s sub
  || match s with
     | [] => false
     | _ :: s' => includes s' sub
     end.

(** [otherProfiles] (lines 437-441): the profiles of other users that have a
    display name and a user id. *)
Definition otherProfiles (user : option User.t) (profiles : list Member.t)
  : list Member.t :=
  List.filter
    (fun p =>
       negb (bool_decide (Some (Member.user_id p) = User.id <$> user))
       && negb (App.missing (Member.display_name p))
       && negb (bool_decide (Member.user_id p = "")))
    profiles.

Section WithLowerCase.

(** [String.prototype.toLowerCase]. *)
Variable toLowerCase : JsString -> JsString.

(** [x?.toLowerCase().includes(term)] for a nullable string. *)
Definition matches (x : option JsString) (term : JsString) : bool :=
  match x with
  | Some s => includes (toLowerCase s) term
  | None => false
  end.

(** [filteredUsers] (lines 443-447). *)
Definition filteredUsers (user : option User.t) (profiles : list Member.t)
    (searchTerm : JsString) : list Member.t :=
  List.filter
    (fun p =>
       matches (Member.display_name p) (toLowerCase searchTerm)
       || matches (Some (Member.email p)) (toLowerCase searchTerm)
       || matches (Member.bio p) (toLowerCase searchTerm))
    (otherProfiles user profiles).

End WithLowerCase.

End Members.

(** ** App.tsx: remembering the last route *)

Module Routes.



End Routes.

(** Two members: the signed-in user and one other. *)
Definition sample_members : list Member.t :=
  [{| Member.id := "m1"; Member.user_id := "u1"; Member.display_name := Some (js "Alice");
      Member.avatar_url := None; Member.bio := None; Member.is_admin := false;
      Member.email := js "alice@example.com" |};
   {| Member.id := "m2"; Member.user_id := "u2"; Member.display_name := Some (js "Bob");
      Member.avatar_url := None; Member.bio := Some (js "hi"); Member.is_admin := false;
      Member.email := js "bob@example.com" |}].


(** * Properties *)

(** ** The interpreter *)

(** Sequencing: a bound program runs its continuation from the state, and
    after the effects, of its first part, unless that part throws. *)
Lemma run_bind {St A B} backend (p : Prog St A) (f : A -> Prog St B) (s : St) :
  run backend (bind p f) s
  = match result (run backend p s) with
    | inl a =>
        {| final := final (run backend (f a) (final (run backend p s)));
           trace := (trace (run backend p s)
                     ++ trace (run backend (f a) (final (run backend p s))))%list;
           result := result (run backend (f a) (final (run backend p s))) |}
    | inr e =>
        {| final := final (run backend p s);
           trace := trace (run backend p s);
           result := inr e |}
    end.
Proof.
  revert s. induction p as [a|e|g k IH|ev k IH|r k IH]; intros s; cbn.
  - destruct (run backend (f a) s); reflexivity.
  - reflexivity.
  - apply IH.
  - rewrite IH. destruct (result (run backend k s)); reflexivity.
  - rewrite IH. destruct (result (run backend (k (backend r)) s)); reflexivity.
Qed.

(** A handler that is caught never rejects with the error of its body. *)
Lemma run_try_catch_returns {St A} backend (body : Prog St A) handler (s : St) :
  (forall e s', exists a, result (run backend (handler e) s') = inl a) ->
  exists a, result (run backend (try_catch body handler) s) = inl a.
Proof.
  intros Hhandler. revert s.
  induction body as [a|e|g k IH|ev k IH|r k IH]; intros s; cbn; eauto.
Qed.

(** ** Bookkeeping lemmas *)

Lemma spread_like_snapshot tweet flag :
  Tweet.user_liked tweet = Some flag ->
  spread_like tweet (Tweet.likes_count tweet) flag = tweet.
Proof. destruct tweet; simpl; intros ->; reflexivity. Qed.

Lemma patch_hit tweetId f tweet :
  Tweet.id tweet = tweetId -> patch tweetId f tweet = f tweet.
Proof. intros H. unfold patch. rewrite bool_decide_eq_true_2; auto. Qed.

Lemma patch_miss tweetId f tweet :
  Tweet.id tweet <> tweetId -> patch tweetId f tweet = tweet.
Proof. intros H. unfold patch. rewrite bool_decide_eq_false_2; auto. Qed.

Lemma patch_patch tweetId f g tweet :
  (forall t, Tweet.id (f t) = Tweet.id t) ->
  patch tweetId g (patch tweetId f tweet) = patch tweetId (fun t => g (f t)) tweet.
Proof.
  intros Hid. unfold patch.
  destruct (bool_decide (Tweet.id tweet = tweetId)) eqn:E.
  - apply bool_decide_eq_true_1 in E.
    rewrite bool_decide_eq_true_2; [reflexivity | rewrite Hid; exact E].
  - rewrite E. reflexivity.
Qed.

Lemma find_by_id_In tweetId (l : list Tweet.t) ct :
  List.find (fun t => bool_decide (Tweet.id t = tweetId)) l = Some ct ->
  In ct l /\ Tweet.id ct = tweetId.
Proof.
  intros H. apply find_some in H as [Hin Hid].
  split; [exact Hin | apply bool_decide_eq_true_1 in Hid; exact Hid].
Qed.

Lemma find_by_id_absent tweetId (l : list Tweet.t) :
  (forall t, In t l -> Tweet.id t <> tweetId) ->
  List.find (fun t => bool_decide (Tweet.id t = tweetId)) l = None.
Proof.
  induction l as [|t l IH]; intros H; simpl; [reflexivity|].
  rewrite bool_decide_eq_false_2 by (apply H; left; reflexivity).
  apply IH. intros t' Ht'. apply H. right; exact Ht'.
Qed.

(** [find] commutes with a patch that keeps ids. *)
Lemma find_by_id_fmap tweetId f (l : list Tweet.t) :
  (forall t, Tweet.id (f t) = Tweet.id t) ->
  List.find (fun t => bool_decide (Tweet.id t = tweetId)) (f <$> l)
  = f <$> List.find (fun t => bool_decide (Tweet.id t = tweetId)) l.
Proof.
  intros Hid. induction l as [|t l IH]; simpl; [reflexivity|].
  rewrite Hid. destruct (bool_decide (Tweet.id t = tweetId)); [reflexivity | exact IH].
Qed.

(** With unique ids, the tweet [find] returns is the only one with its id. *)
Lemma unique_id_is_found tweetId (l : list Tweet.t) ct t :
  NoDup (Tweet.id <$> l) ->
  List.find (fun t => bool_decide (Tweet.id t = tweetId)) l = Some ct ->
  In t l -> Tweet.id t = tweetId -> t = ct.
Proof.
  induction l as [|a l IH]; simpl; intros Hnd Hfind Hin Hid; [contradiction|].
  apply NoDup_cons in Hnd as [Hnotin Hnd].
  destruct (bool_decide (Tweet.id a = tweetId)) eqn:E.
  - injection Hfind as <-. apply bool_decide_eq_true_1 in E.
    destruct Hin as [->|Hin]; [reflexivity|].
    exfalso. apply Hnotin. apply list_elem_of_fmap. exists t. split.
    + congruence.
    + apply list_elem_of_In. exact Hin.
  - apply bool_decide_eq_false_1 in E.
    destruct Hin as [->|Hin]; [contradiction|]. eauto.
Qed.

Lemma fmap_fixed {A} (f : A -> A) (l : list A) :
  (forall x, In x l -> f x = x) -> f <$> l = l.
Proof.
  induction l as [|a l IH]; intros H; simpl; [reflexivity|].
  rewrite H by (left; reflexivity). f_equal. apply IH. intros x Hx. apply H. right; exact Hx.
Qed.

(** ** The optimistic like toggle *)

(** The optimistic update followed by the rollback is one patch of the
    state: two maps over the list fuse, and so do two patches on one id. *)
Ltac merge_patches tweetId :=
  unfold Dashboard.setTweets; cbn; f_equal;
  rewrite <- list_fmap_compose; apply list_fmap_ext; intros ? ? _; cbn;
  apply (patch_patch tweetId (fun t => spread_like t _ _) (fun t => spread_like t _ _));
  reflexivity.

(** What [Dashboard.handleLike] leaves in [tweets] when the tweet is found:
    the optimistic values if the write succeeded, the snapshot's counter and
    the [isLiked] argument if it failed. *)
Lemma dashboard_handleLike_after backend u view tweetId isLiked ct s :
  List.find (fun t => bool_decide (Tweet.id t = tweetId)) (Dashboard.tweets view) = Some ct ->
  after backend (Dashboard.handleLike (Some u) view tweetId isLiked) s
  = Dashboard.setTweets (fun prev =>
      patch tweetId (fun t =>
        match error (backend (like_write isLiked tweetId (User.id u))) with
        | Some _ => spread_like t (Tweet.likes_count ct) isLiked
        | None => spread_like t (if isLiked then Tweet.likes_count ct - 1
                                 else Tweet.likes_count ct + 1) (negb isLiked)
        end) <$> prev) s.
Proof.
  intros Hfind. unfold after, Dashboard.handleLike. rewrite Hfind.
  destruct isLiked; cbn [like_write]; cbn.
  - destruct (backend (Likes_delete tweetId (User.id u))) as [d|e]; cbn;
      [reflexivity | merge_patches tweetId].
  - destruct (backend (Likes_insert tweetId (User.id u))) as [d|e]; cbn;
      [reflexivity | merge_patches tweetId].
Qed.

Lemma comments_handleLike_after backend u thread tweet isLiked :
  CommentsPage.tweet thread = Some tweet ->
  after backend (CommentsPage.handleLike (Some u) thread isLiked) thread
  = CommentsPage.setTweet (fun _ =>
      Some match error (backend (like_write isLiked (Tweet.id tweet) (User.id u))) with
           | Some _ => spread_like tweet (Tweet.likes_count tweet) isLiked
           | None => spread_like tweet (if isLiked then Tweet.likes_count tweet - 1
                                        else Tweet.likes_count tweet + 1) (negb isLiked)
           end) thread.
Proof.
  intros Htweet. unfold after, CommentsPage.handleLike. rewrite Htweet.
  destruct isLiked; cbn [like_write]; cbn.
  - destruct (backend (Likes_delete (Tweet.id tweet) (User.id u))) as [d|e]; cbn;
      unfold CommentsPage.setTweet; cbn; rewrite Htweet; reflexivity.
  - destruct (backend (Likes_insert (Tweet.id tweet) (User.id u))) as [d|e]; cbn;
      unfold CommentsPage.setTweet; cbn; rewrite Htweet; reflexivity.
Qed.

(** The example of the specification: a post with 5 likes, not liked.  The
    like succeeds: the post shows 6 likes and is liked. *)
Example like_succeeds_example :
  run (backend_ok true) (Dashboard.handleLike (Some alice) (sample_feed false) "p1" false)
      (sample_feed false)
  = {| final := {| Dashboard.tweets := [spread_like (sample_tweet false) 6 true; other_tweet];
                   Dashboard.newTweet := [] |};
       trace := [ECall (Likes_insert "p1" "u1")];
       result := inl tt |}.
Proof. reflexivity. Qed.

(** The insert fails: the post is back at 5 likes, not liked, one request
    was sent and an error toast is shown. *)
Example like_fails_example :
  run backend_down (Dashboard.handleLike (Some alice) (sample_feed false) "p1" false)
      (sample_feed false)
  = {| final := sample_feed false;
       trace := [ECall (Likes_insert "p1" "u1");
                 EConsoleError "Error liking tweet:";
                 EToast (destructive "Error" "Failed to like tweet")];
       result := inl tt |}.
Proof. reflexivity. Qed.

(** C1.  A like or unlike toggle whose remote write fails leaves the post as
    it was before the toggle.  The toggle is invoked with the post's current
    flag ([isLiked = flag]: a like on a post that is not liked, an unlike on
    one that is).  On the dashboard, every entry holding the snapshot
    [currentTweet] holds it again after the rollback, every post with another
    id is untouched, and with unique ids the whole state is the one before
    the toggle; on the thread page the whole state is the one before. *)
Theorem like_toggle_rollback_restores_snapshot
    (backend : Backend) (u : User.t)
    (view : Dashboard.State) (tweetId : string) (currentTweet : Tweet.t) (flag : bool)
    (thread : CommentsPage.State) (tweet : Tweet.t) (flag' : bool) :
  List.find (fun t => bool_decide (Tweet.id t = tweetId)) (Dashboard.tweets view)
    = Some currentTweet ->
  Tweet.user_liked currentTweet = Some flag ->
  error (backend (like_write flag tweetId (User.id u))) <> None ->
  CommentsPage.tweet thread = Some tweet ->
  Tweet.user_liked tweet = Some flag' ->
  error (backend (like_write flag' (Tweet.id tweet) (User.id u))) <> None ->
  let o := run backend (Dashboard.handleLike (Some u) view tweetId flag) view in
  let o' := run backend (CommentsPage.handleLike (Some u) thread flag') thread in
  (forall i, Dashboard.tweets view !! i = Some currentTweet ->
             Dashboard.tweets (final o) !! i = Some currentTweet)
  /\ (forall i t, Dashboard.tweets view !! i = Some t -> Tweet.id t <> tweetId ->
                  Dashboard.tweets (final o) !! i = Some t)
  /\ Dashboard.newTweet (final o) = Dashboard.newTweet view
  /\ (NoDup (Tweet.id <$> Dashboard.tweets view) -> final o = view)
  /\ final o' = thread.
Proof.
  intros Hfind Hflag Hfail Htweet Hflag' Hfail' o o'.
  assert (Ho : final o
               = Dashboard.setTweets (fun prev =>
                   patch tweetId (fun t => spread_like t (Tweet.likes_count currentTweet) flag)
                   <$> prev) view).
  { subst o. fold (after backend (Dashboard.handleLike (Some u) view tweetId flag) view).
    rewrite (dashboard_handleLike_after _ _ _ _ _ _ _ Hfind).
    destruct (error (backend (like_write flag tweetId (User.id u)))); [reflexivity | congruence]. }
  destruct (find_by_id_In _ _ _ Hfind) as [Hin Hid].
  assert (Hct : patch tweetId (fun t => spread_like t (Tweet.likes_count currentTweet) flag)
                      currentTweet = currentTweet).
  { rewrite patch_hit by exact Hid. apply spread_like_snapshot, Hflag. }
  repeat split.
  - intros i Hi. rewrite Ho. cbn. rewrite list_lookup_fmap, Hi. cbn. f_equal. exact Hct.
  - intros i t Hi Hne. rewrite Ho. cbn. rewrite list_lookup_fmap, Hi. cbn. f_equal.
    apply patch_miss, Hne.
  - rewrite Ho. reflexivity.
  - intros Hnd. rewrite Ho. destruct view as [tws nt]. unfold Dashboard.setTweets. cbn in *.
    f_equal. apply fmap_fixed. intros t Ht.
    destruct (decide (Tweet.id t = tweetId)) as [Heq|Hne].
    + rewrite (unique_id_is_found _ _ _ _ Hnd Hfind Ht Heq). exact Hct.
    + apply patch_miss, Hne.
  - subst o'. fold (after backend (CommentsPage.handleLike (Some u) thread flag') thread).
    rewrite (comments_handleLike_after _ _ _ _ _ Htweet).
    destruct (error (backend (like_write flag' (Tweet.id tweet) (User.id u)))); [|congruence].
    rewrite spread_like_snapshot by exact Hflag'.
    destruct thread as [tw cs]. unfold CommentsPage.setTweet. cbn in *. congruence.
Qed.

(** A failed like on the sample feed and a failed unlike on the sample
    thread, the backend being down. *)
Lemma like_toggle_rollback_witness :
  final (run backend_down (Dashboard.handleLike (Some alice) (sample_feed false) "p1" false)
             (sample_feed false)) = sample_feed false
  /\ final (run backend_down (CommentsPage.handleLike (Some alice) (sample_thread true) true)
                (sample_thread true)) = sample_thread true.
Proof.
  destruct (like_toggle_rollback_restores_snapshot backend_down alice
              (sample_feed false) "p1" (sample_tweet false) false
              (sample_thread true) (sample_tweet true) true)
    as (_ & _ & _ & Hfeed & Hthread);
    [reflexivity | reflexivity | discriminate | reflexivity | reflexivity | discriminate |].
  split; [apply Hfeed | exact Hthread].
  apply (bool_decide_unpack _). vm_compute. exact I.
Defined.

(** C10.  [Dashboard.handleLike] called with a tweet id that is not in the
    local [tweets] list does nothing: whatever the backend, the signed-in
    user and the direction of the toggle, the state is left as it is, no
    request is sent, nothing else is emitted, and the handler returns. *)
Theorem handleLike_unknown_tweet_is_noop
    (backend : Backend) (user : option User.t) (view s : Dashboard.State)
    (tweetId : string) (isLiked : bool) :
  (forall t, In t (Dashboard.tweets view) -> Tweet.id t <> tweetId) ->
  run backend (Dashboard.handleLike user view tweetId isLiked) s
  = {| final := s; trace := []; result := inl tt |}.
Proof.
  intros Habsent. unfold Dashboard.handleLike.
  destruct user as [u|]; [|reflexivity].
  rewrite (find_by_id_absent _ _ Habsent). reflexivity.
Qed.

(** Liking the unknown id "p9" on the sample feed. *)
Lemma handleLike_unknown_tweet_witness :
  run backend_down (Dashboard.handleLike (Some alice) (sample_feed false) "p9" false)
      (sample_feed false)
  = {| final := sample_feed false; trace := []; result := inl tt |}.
Proof.
  apply (handleLike_unknown_tweet_is_noop backend_down (Some alice)
           (sample_feed false) (sample_feed false) "p9" false).
  intros t [<-|[<-|[]]]; discriminate.
Defined.

(** ** Like, unlike, like *)

(** The three toggles, none of them failing, leave every entry with the
    toggled id liked, with the first such entry's counter plus one. *)
Lemma like_unlike_like_after backend u tweetId s0 ct :
  List.find (fun t => bool_decide (Tweet.id t = tweetId)) (Dashboard.tweets s0) = Some ct ->
  error (backend (Likes_insert tweetId (User.id u))) = None ->
  error (backend (Likes_delete tweetId (User.id u))) = None ->
  like_unlike_like backend (Some u) tweetId s0
  = Dashboard.setTweets (fun prev =>
      patch tweetId (fun t => spread_like t (Tweet.likes_count ct + 1) true) <$> prev) s0.
Proof.
  intros Hfind Hins Hdel. unfold like_unlike_like. cbv zeta.
  rewrite (dashboard_handleLike_after backend u s0 tweetId false ct s0 Hfind).
  cbn [like_write negb]. rewrite Hins.
  remember (Dashboard.setTweets _ s0) as s1 eqn:Hs1.
  assert (Hfind1 : List.find (fun t => bool_decide (Tweet.id t = tweetId)) (Dashboard.tweets s1)
                   = Some (spread_like ct (Tweet.likes_count ct + 1) true)).
  { rewrite Hs1. cbn. rewrite find_by_id_fmap.
    - rewrite Hfind. cbn. f_equal. apply patch_hit. apply (find_by_id_In _ _ _ Hfind).
    - intros t. unfold patch. destruct (bool_decide _); reflexivity. }
  rewrite (dashboard_handleLike_after backend u s1 tweetId true _ s1 Hfind1).
  cbn [like_write negb]. rewrite Hdel.
  remember (Dashboard.setTweets _ s1) as s2 eqn:Hs2.
  assert (Hfind2 : List.find (fun t => bool_decide (Tweet.id t = tweetId)) (Dashboard.tweets s2)
                   = Some (spread_like ct (Tweet.likes_count ct + 1 - 1) false)).
  { rewrite Hs2. cbn. rewrite find_by_id_fmap.
    - rewrite Hfind1. cbn. f_equal. apply patch_hit. apply (find_by_id_In _ _ _ Hfind). 
    - intros t. unfold patch. destruct (bool_decide _); reflexivity. }
  rewrite (dashboard_handleLike_after backend u s2 tweetId false _ s2 Hfind2).
  cbn [like_write negb]. rewrite Hins.
  rewrite Hs2, Hs1. destruct s0 as [tws nt]. unfold Dashboard.setTweets. cbn. f_equal.
  rewrite <- !list_fmap_compose. apply list_fmap_ext. intros i t _. cbn.
  unfold patch. destruct (bool_decide (Tweet.id t = tweetId)) eqn:E; cbn; rewrite ?E; cbn;
    rewrite ?E; [|reflexivity].
  unfold spread_like; cbn. f_equal. lia.
Qed.

(** C3 (amended).  Like, unlike, like on a post of the feed, with no failed
    write and nothing interleaved: whatever the post's initial flag, every
    entry holding the snapshot [currentTweet] ends with its counter increased
    by exactly one and its flag set to liked, all its other fields as they
    were, and posts with another id are untouched.  The flag is thereby
    flipped when the post was initially not liked. *)
Theorem like_unlike_like_nets_one_like
    (backend : Backend) (u : User.t) (tweetId : string)
    (s0 : Dashboard.State) (currentTweet : Tweet.t) :
  List.find (fun t => bool_decide (Tweet.id t = tweetId)) (Dashboard.tweets s0)
    = Some currentTweet ->
  error (backend (Likes_insert tweetId (User.id u))) = None ->
  error (backend (Likes_delete tweetId (User.id u))) = None ->
  let s3 := like_unlike_like backend (Some u) tweetId s0 in
  (forall i, Dashboard.tweets s0 !! i = Some currentTweet ->
     Dashboard.tweets s3 !! i
     = Some {| Tweet.id := Tweet.id currentTweet;
               Tweet.user_id := Tweet.user_id currentTweet;
               Tweet.content := Tweet.content currentTweet;
               Tweet.likes_count := Tweet.likes_count currentTweet + 1;
               Tweet.comments_count := Tweet.comments_count currentTweet;
               Tweet.created_at := Tweet.created_at currentTweet;
               Tweet.profiles := Tweet.profiles currentTweet;
               Tweet.user_liked := Some true |})
  /\ (forall i t, Dashboard.tweets s0 !! i = Some t -> Tweet.id t <> tweetId ->
        Dashboard.tweets s3 !! i = Some t)
  /\ Dashboard.newTweet s3 = Dashboard.newTweet s0
  /\ (Tweet.user_liked currentTweet = Some false ->
      forall i, Dashboard.tweets s0 !! i = Some currentTweet ->
        Tweet.user_liked <$> Dashboard.tweets s3 !! i
        = Some (negb <$> Tweet.user_liked currentTweet)).
Proof.
  intros Hfind Hins Hdel s3.
  assert (Hs3 : s3 = Dashboard.setTweets (fun prev =>
            patch tweetId (fun t => spread_like t (Tweet.likes_count currentTweet + 1) true)
            <$> prev) s0)
    by (apply like_unlike_like_after; assumption).
  destruct (find_by_id_In _ _ _ Hfind) as [_ Hid].
  assert (Hhit : forall i, Dashboard.tweets s0 !! i = Some currentTweet ->
            Dashboard.tweets s3 !! i
            = Some (spread_like currentTweet (Tweet.likes_count currentTweet + 1) true)).
  { intros i Hi. rewrite Hs3. cbn. rewrite list_lookup_fmap, Hi. cbn.
    f_equal. apply patch_hit, Hid. }
  repeat split.
  - exact Hhit.
  - intros i t Hi Hne. rewrite Hs3. cbn. rewrite list_lookup_fmap, Hi. cbn.
    f_equal. apply patch_miss, Hne.
  - rewrite Hs3. reflexivity.
  - intros Hflag i Hi. rewrite (Hhit i Hi), Hflag. reflexivity.
Qed.

(** Three toggles on the sample feed, the sample post being not liked at
    first: it ends liked with 6 likes. *)
Lemma like_unlike_like_witness :
  Dashboard.tweets
    (like_unlike_like (backend_ok true) (Some alice) "p1" (sample_feed false)) !! 0%nat
  = Some (spread_like (sample_tweet false) 6 true).
Proof.
  destruct (like_unlike_like_nets_one_like (backend_ok true) alice "p1"
              (sample_feed false) (sample_tweet false))
    as (Hhit & _); [reflexivity | reflexivity | reflexivity |].
  exact (Hhit 0%nat eq_refl).
Defined.

(** C3 as stated fails on a post that is already liked: after like, unlike,
    like the sample post, liked with 5 likes at first, has 6 likes and is
    still liked.  Its counter is up by one, but its flag is the initial flag,
    not the flipped one. *)
Lemma like_unlike_like_liked_post_not_flipped :
  exists t3,
    Dashboard.tweets
      (like_unlike_like (backend_ok true) (Some alice) "p1" (sample_feed true)) !! 0%nat
    = Some t3
    /\ Tweet.likes_count t3 = Tweet.likes_count (sample_tweet true) + 1
    /\ Tweet.user_liked t3 = Tweet.user_liked (sample_tweet true)
    /\ Tweet.user_liked t3 <> negb <$> Tweet.user_liked (sample_tweet true).
Proof.
  exists (spread_like (sample_tweet true) 6 true).
  split; [reflexivity|]. split; [reflexivity|]. split; [reflexivity|]. discriminate.
Qed.

(** ** Realtime patches of the feed *)

Lemma dashboard_onTweetUpdate_after backend payload s :
  after backend (Dashboard.onTweetUpdate payload) s
  = Dashboard.setTweets (fun prev =>
      patch (TweetRow.id payload)
            (fun t => spread_counts t (TweetRow.likes_count payload)
                                      (TweetRow.comments_count payload)) <$> prev) s.
Proof. reflexivity. Qed.

(** C2.  An UPDATE notification for a post of the feed carrying likes_count
    M and comments_count K: the post at every position holding that id has
    likes_count M and comments_count K afterwards and its id, user_id,
    content, created_at, profiles and user_liked as before; posts with
    another id, the length of the feed and the composer text are unchanged.
    The same holds for the tweet displayed on the thread page. *)
Theorem update_notification_replaces_only_counters
    (backend : Backend) (payload : TweetRow.t)
    (s : Dashboard.State) (i : nat) (t : Tweet.t)
    (thread : CommentsPage.State) (tweet : Tweet.t) :
  Dashboard.tweets s !! i = Some t ->
  Tweet.id t = TweetRow.id payload ->
  CommentsPage.tweet thread = Some tweet ->
  Tweet.id tweet = TweetRow.id payload ->
  let s' := final (run backend (Dashboard.onTweetUpdate payload) s) in
  let thread' := final (run backend (CommentsPage.onTweetUpdate payload) thread) in
  Dashboard.tweets s' !! i
  = Some {| Tweet.id := Tweet.id t;
            Tweet.user_id := Tweet.user_id t;
            Tweet.content := Tweet.content t;
            Tweet.likes_count := TweetRow.likes_count payload;
            Tweet.comments_count := TweetRow.comments_count payload;
            Tweet.created_at := Tweet.created_at t;
            Tweet.profiles := Tweet.profiles t;
            Tweet.user_liked := Tweet.user_liked t |}
  /\ (forall j t', Dashboard.tweets s !! j = Some t' ->
        Tweet.id t' <> TweetRow.id payload -> Dashboard.tweets s' !! j = Some t')
  /\ length (Dashboard.tweets s') = length (Dashboard.tweets s)
  /\ Dashboard.newTweet s' = Dashboard.newTweet s
  /\ CommentsPage.tweet thread'
     = Some {| Tweet.id := Tweet.id tweet;
               Tweet.user_id := Tweet.user_id tweet;
               Tweet.content := Tweet.content tweet;
               Tweet.likes_count := TweetRow.likes_count payload;
               Tweet.comments_count := TweetRow.comments_count payload;
               Tweet.created_at := Tweet.created_at tweet;
               Tweet.profiles := Tweet.profiles tweet;
               Tweet.user_liked := Tweet.user_liked tweet |}
  /\ CommentsPage.comments thread' = CommentsPage.comments thread.
Proof.
  intros Hi Hid Htweet _ s' thread'.
  assert (Hs' : s' = after backend (Dashboard.onTweetUpdate payload) s) by reflexivity.
  rewrite dashboard_onTweetUpdate_after in Hs'.
  split; [|split; [|split; [|split; [|split]]]].
  - rewrite Hs'. cbn. rewrite list_lookup_fmap, Hi. cbn. f_equal.
    rewrite patch_hit by exact Hid. reflexivity.
  - intros j t' Hj Hne. rewrite Hs'. cbn. rewrite list_lookup_fmap, Hj. cbn. f_equal.
    apply patch_miss, Hne.
  - rewrite Hs'. cbn. apply length_fmap.
  - rewrite Hs'. reflexivity.
  - subst thread'. cbn. rewrite Htweet. reflexivity.
  - reflexivity.
Qed.

(** The sample post, liked by the user with 5 likes and 2 comments, receives
    an UPDATE carrying 9 and 4, on the feed and on its thread page. *)
Lemma update_notification_witness :
  Dashboard.tweets
    (final (run backend_down (Dashboard.onTweetUpdate (sample_row "p1" 9 4))
                (sample_feed true))) !! 0%nat
  = Some (spread_counts (sample_tweet true) 9 4)
  /\ CommentsPage.tweet
       (final (run backend_down (CommentsPage.onTweetUpdate (sample_row "p1" 9 4))
                   (sample_thread true)))
     = Some (spread_counts (sample_tweet true) 9 4).
Proof.
  destruct (update_notification_replaces_only_counters backend_down (sample_row "p1" 9 4)
              (sample_feed true) 0%nat (sample_tweet true)
              (sample_thread true) (sample_tweet true))
    as (Hfeed & _ & _ & _ & Hthread & _);
    [reflexivity | reflexivity | reflexivity | reflexivity |].
  split; [exact Hfeed | exact Hthread].
Defined.

Lemma dashboard_onTweetInsert_after backend payload s :
  after backend (Dashboard.onTweetInsert payload) s
  = Dashboard.setTweets (fun prev => pushed_tweet backend payload :: prev) s.
Proof.
  unfold after, Dashboard.onTweetInsert, pushed_tweet. cbn.
  destruct (backend (Profiles_select_single (TweetRow.user_id payload))); reflexivity.
Qed.

Lemma deliver_tweet_inserts backend (ns : list TweetRow.t) s :
  deliver backend Dashboard.onTweetInsert s ns
  = Dashboard.setTweets (fun prev => (rev (pushed_tweet backend <$> ns) ++ prev)%list) s.
Proof.
  revert s. induction ns as [|n ns IH]; intros s.
  - destruct s; reflexivity.
  - change (deliver backend Dashboard.onTweetInsert s (n :: ns))
      with (deliver backend Dashboard.onTweetInsert
              (after backend (Dashboard.onTweetInsert n) s) ns).
    rewrite IH, dashboard_onTweetInsert_after. destruct s as [tws nt].
    unfold Dashboard.setTweets. cbn. f_equal.
    rewrite <- app_assoc. reflexivity.
Qed.

(** C4.  Each INSERT notification puts its post at the front of the feed
    and leaves the entries already there as they were, in their order: one
    notification turns the feed [l] into [P :: l], a sequence of them
    delivered in order stacks the posts newest first on top of the old feed,
    and from the empty feed an INSERT for P1 gives [P1] and a following
    INSERT for P2 gives [P2; P1].  The composer text is not touched. *)
Theorem insert_notifications_prepend
    (backend : Backend) (s : Dashboard.State) (p : TweetRow.t)
    (ns : list TweetRow.t) (p1 p2 : TweetRow.t) (newTweet : JsString) :
  Dashboard.tweets (after backend (Dashboard.onTweetInsert p) s)
    = pushed_tweet backend p :: Dashboard.tweets s
  /\ Tweet.id (pushed_tweet backend p) = TweetRow.id p
  /\ Dashboard.tweets (deliver backend Dashboard.onTweetInsert s ns)
     = (rev (pushed_tweet backend <$> ns) ++ Dashboard.tweets s)%list
  /\ Dashboard.newTweet (deliver backend Dashboard.onTweetInsert s ns)
     = Dashboard.newTweet s
  /\ Dashboard.tweets
       (deliver backend Dashboard.onTweetInsert
          {| Dashboard.tweets := []; Dashboard.newTweet := newTweet |} [p1])
     = [pushed_tweet backend p1]
  /\ Dashboard.tweets
       (deliver backend Dashboard.onTweetInsert
          {| Dashboard.tweets := []; Dashboard.newTweet := newTweet |} [p1; p2])
     = [pushed_tweet backend p2; pushed_tweet backend p1].
Proof.
  split; [|split; [|split; [|split; [|split]]]].
  - rewrite dashboard_onTweetInsert_after. reflexivity.
  - reflexivity.
  - rewrite deliver_tweet_inserts. reflexivity.
  - rewrite deliver_tweet_inserts. reflexivity.
  - rewrite deliver_tweet_inserts. reflexivity.
  - rewrite deliver_tweet_inserts. reflexivity.
Qed.

Lemma occurrences_cons tweetId t l :
  occurrences tweetId (t :: l)
  = ((if bool_decide (Tweet.id t = tweetId) then 1 else 0) + occurrences tweetId l)%nat.
Proof. unfold occurrences. cbn. destruct (bool_decide _); reflexivity. Qed.

Lemma occurrences_absent tweetId l :
  (forall t, In t l -> Tweet.id t <> tweetId) -> occurrences tweetId l = 0%nat.
Proof.
  induction l as [|a l IH]; intros H; [reflexivity|].
  rewrite occurrences_cons, bool_decide_eq_false_2 by (apply H; left; reflexivity).
  apply IH. intros t Ht. apply H. right; exact Ht.
Qed.

(** C5.  When the profile fetch that follows an INSERT notification fails,
    the post is still put in the feed, once: the feed afterwards is the new
    post, built from the payload with a null author and not liked, in front
    of the feed before.  The feed is one entry longer, the number of entries
    with the post's id has grown by exactly one, and it is exactly one when
    the feed did not hold that id. *)
Theorem insert_with_failed_profile_fetch_adds_post_once
    (backend : Backend) (s : Dashboard.State) (p : TweetRow.t) (e : Err) :
  backend (Profiles_select_single (TweetRow.user_id p)) = Failure e ->
  let s' := final (run backend (Dashboard.onTweetInsert p) s) in
  Dashboard.tweets s'
    = {| Tweet.id := TweetRow.id p;
         Tweet.user_id := TweetRow.user_id p;
         Tweet.content := TweetRow.content p;
         Tweet.likes_count := TweetRow.likes_count p;
         Tweet.comments_count := TweetRow.comments_count p;
         Tweet.created_at := TweetRow.created_at p;
         Tweet.profiles := None;
         Tweet.user_liked := Some false |} :: Dashboard.tweets s
  /\ length (Dashboard.tweets s') = S (length (Dashboard.tweets s))
  /\ occurrences (TweetRow.id p) (Dashboard.tweets s')
     = S (occurrences (TweetRow.id p) (Dashboard.tweets s))
  /\ ((forall t, In t (Dashboard.tweets s) -> Tweet.id t <> TweetRow.id p) ->
      occurrences (TweetRow.id p) (Dashboard.tweets s') = 1%nat).
Proof.
  intros Hfail s'.
  assert (Hs' : Dashboard.tweets s'
                = Dashboard.newTweetWithProfile p None :: Dashboard.tweets s).
  { subst s'. fold (after backend (Dashboard.onTweetInsert p) s).
    rewrite dashboard_onTweetInsert_after. unfold pushed_tweet. rewrite Hfail. reflexivity. }
  assert (Hocc : occurrences (TweetRow.id p) (Dashboard.tweets s')
                 = S (occurrences (TweetRow.id p) (Dashboard.tweets s))).
  { rewrite Hs', occurrences_cons. cbn.
    rewrite bool_decide_eq_true_2 by reflexivity. reflexivity. }
  split; [|split; [|split]].
  - exact Hs'.
  - rewrite Hs'. reflexivity.
  - exact Hocc.
  - intros Habsent. rewrite Hocc, occurrences_absent by exact Habsent. reflexivity.
Qed.

(** The post "p2" arrives while the backend is down: it is put in front of
    the sample feed, without an author, and occurs once. *)
Lemma insert_with_failed_profile_fetch_witness :
  Dashboard.tweets
    (final (run backend_down (Dashboard.onTweetInsert (sample_row "p2" 0 0))
                (sample_feed false)))
  = Dashboard.newTweetWithProfile (sample_row "p2" 0 0) None
    :: Dashboard.tweets (sample_feed false)
  /\ occurrences "p2"
       (Dashboard.tweets
          (final (run backend_down (Dashboard.onTweetInsert (sample_row "p2" 0 0))
                      (sample_feed false)))) = 1%nat.
Proof.
  destruct (insert_with_failed_profile_fetch_adds_post_once backend_down
              (sample_feed false) (sample_row "p2" 0 0) (new_Error "Failed to fetch"))
    as (Hfeed & _ & _ & Honce); [reflexivity|].
  split; [exact Hfeed | apply Honce].
  intros t [<-|[<-|[]]]; discriminate.
Defined.

(** ** Realtime patches of a thread *)

Lemma comments_onCommentInsert_after backend payload_new_id thread :
  after backend (CommentsPage.onCommentInsert payload_new_id) thread
  = match fetched_comment backend payload_new_id with
    | Some c =>
        {| CommentsPage.tweet :=
             (fun t => spread_comments t (Tweet.comments_count t + 1))
               <$> CommentsPage.tweet thread;
           CommentsPage.comments := (CommentsPage.comments thread ++ [c])%list |}
    | None => thread
    end.
Proof.
  unfold after, CommentsPage.onCommentInsert, fetched_comment. cbn.
  destruct (backend (Comments_select_single payload_new_id)) as [row|e]; cbn.
  - destruct thread as [[t|] cs]; reflexivity.
  - reflexivity.
Qed.

Lemma deliver_comment_inserts backend (ids : list string) thread :
  CommentsPage.comments (deliver backend CommentsPage.onCommentInsert thread ids)
  = (CommentsPage.comments thread ++ omap (fetched_comment backend) ids)%list.
Proof.
  revert thread. induction ids as [|i ids IH]; intros thread.
  - cbn. rewrite app_nil_r. reflexivity.
  - change (deliver backend CommentsPage.onCommentInsert thread (i :: ids))
      with (deliver backend CommentsPage.onCommentInsert
              (after backend (CommentsPage.onCommentInsert i) thread) ids).
    rewrite IH, comments_onCommentInsert_after. cbn.
    destruct (fetched_comment backend i); cbn; [|reflexivity].
    rewrite <- app_assoc. reflexivity.
Qed.

(** C9.  A comment INSERT notification whose follow-up fetch returns the
    comment row: the comment, with the profile the backend returned for its
    author, is appended at the end of the comments list, and the displayed
    tweet's comments_count is increased by exactly one, its other fields
    kept.  Notifications delivered in order are appended in that order.  The
    increment is made on whatever counter is displayed: an UPDATE
    notification arriving later replaces it by the value K it carries, and
    one that arrived before is counted on top of (K + 1). *)
Theorem comment_insert_appends_and_increments
    (backend : Backend) (thread : CommentsPage.State) (tweet : Tweet.t)
    (payload_new_id : string) (row : CommentRow.t)
    (ids : list string) (update : TweetRow.t) :
  backend (Comments_select_single payload_new_id) = Success row ->
  CommentsPage.tweet thread = Some tweet ->
  let thread' := final (run backend (CommentsPage.onCommentInsert payload_new_id) thread) in
  CommentsPage.comments thread'
    = (CommentsPage.comments thread
       ++ [{| Comment.id := CommentRow.id row;
              Comment.user_id := CommentRow.user_id row;
              Comment.content := CommentRow.content row;
              Comment.created_at := CommentRow.created_at row;
              Comment.profiles :=
                data (backend (Profiles_select_single (CommentRow.user_id row))) |}])%list
  /\ CommentsPage.tweet thread'
     = Some {| Tweet.id := Tweet.id tweet;
               Tweet.user_id := Tweet.user_id tweet;
               Tweet.content := Tweet.content tweet;
               Tweet.likes_count := Tweet.likes_count tweet;
               Tweet.comments_count := Tweet.comments_count tweet + 1;
               Tweet.created_at := Tweet.created_at tweet;
               Tweet.profiles := Tweet.profiles tweet;
               Tweet.user_liked := Tweet.user_liked tweet |}
  /\ CommentsPage.comments (deliver backend CommentsPage.onCommentInsert thread ids)
     = (CommentsPage.comments thread ++ omap (fetched_comment backend) ids)%list
  /\ Tweet.comments_count
       <$> CommentsPage.tweet (after backend (CommentsPage.onTweetUpdate update) thread')
     = Some (TweetRow.comments_count update)
  /\ Tweet.comments_count
       <$> CommentsPage.tweet
             (after backend (CommentsPage.onCommentInsert payload_new_id)
                (after backend (CommentsPage.onTweetUpdate update) thread))
     = Some (TweetRow.comments_count update + 1).
Proof.
  intros Hrow Htweet thread'.
  assert (Hfetched : fetched_comment backend payload_new_id
                     = Some (CommentsPage.commentWithProfile row
                               (data (backend (Profiles_select_single
                                                 (CommentRow.user_id row))))))
    by (unfold fetched_comment; rewrite Hrow; reflexivity).
  assert (Hthread' : thread' = after backend (CommentsPage.onCommentInsert payload_new_id) thread)
    by reflexivity.
  rewrite comments_onCommentInsert_after, Hfetched in Hthread'.
  split; [|split; [|split; [|split]]].
  - rewrite Hthread'. reflexivity.
  - rewrite Hthread'. cbn. rewrite Htweet. reflexivity.
  - apply deliver_comment_inserts.
  - rewrite Hthread'. cbn. rewrite Htweet. reflexivity.
  - rewrite comments_onCommentInsert_after, Hfetched. cbn. rewrite Htweet. reflexivity.
Qed.

(** The comment "c1" arrives on the sample thread (2 comments counted, none
    listed): it is listed and 3 comments are counted. *)
Lemma comment_insert_witness :
  CommentsPage.comments
    (final (run backend_comment (CommentsPage.onCommentInsert "c1") (sample_thread false)))
  = [CommentsPage.commentWithProfile sample_comment None]
  /\ CommentsPage.tweet
       (final (run backend_comment (CommentsPage.onCommentInsert "c1") (sample_thread false)))
     = Some (spread_comments (sample_tweet false) 3).
Proof.
  destruct (comment_insert_appends_and_increments backend_comment (sample_thread false)
              (sample_tweet false) "c1" sample_comment [] (sample_row "p1" 5 2))
    as (Hcomments & Htweet & _); [reflexivity | reflexivity |].
  split; [exact Hcomments | exact Htweet].
Defined.

(** ** The signup allowlist gate *)

(** The three ways [signup] can go, by the answer of the allowlist call. *)
Lemma signup_run {St} backend email password name (s : St) :
  run backend (AuthContext.signup email password name) s
  = match backend (Rpc_is_email_allowed email) with
    | Failure _ =>
        {| final := s;
           trace := [ECall (Rpc_is_email_allowed email);
                     EConsoleError "Allowlist check error:"];
           result := inr (new_Error
             "Unable to verify email authorization. Please try again.") |}
    | Success false =>
        {| final := s;
           trace := [ECall (Rpc_is_email_allowed email)];
           result := inr (new_Error
             "This email is not authorized for registration. Please contact an administrator.") |}
    | Success true =>
        {| final := s;
           trace := [ECall (Rpc_is_email_allowed email);
                     ECall (Auth_signUp email password name)];
           result := match error (backend (Auth_signUp email password name)) with
                     | Some e => inr e
                     | None => inl tt
                     end |}
    end.
Proof.
  unfold AuthContext.signup. cbn.
  destruct (backend (Rpc_is_email_allowed email)) as [[|]|e]; cbn; try reflexivity.
  destruct (backend (Auth_signUp email password name)); reflexivity.
Qed.

(** C6.  [signup] asks the allowlist predicate first, before anything else.
    When the predicate answers false, signup fails by throwing the error
    whose message says that the email is not authorized for registration, the
    allowlist call is the only request sent (no sign-up call), and no state
    changes.  A sign-up call occurs in the trace only when the predicate
    answered true, and then it comes after the allowlist call. *)
Theorem signup_gated_by_allowlist {St : Type}
    (backend : Backend) (email password name : JsString) (s : St) :
  let o := run backend (AuthContext.signup (St := St) email password name) s in
  (exists rest, trace o = ECall (Rpc_is_email_allowed email) :: rest)
  /\ (backend (Rpc_is_email_allowed email) = Success false ->
      result o = inr (new_Error
        "This email is not authorized for registration. Please contact an administrator.")
      /\ trace o = [ECall (Rpc_is_email_allowed email)]
      /\ final o = s)
  /\ (forall e p n, In (ECall (Auth_signUp e p n)) (trace o) ->
      backend (Rpc_is_email_allowed email) = Success true
      /\ trace o = [ECall (Rpc_is_email_allowed email); ECall (Auth_signUp e p n)]).
Proof.
  intros o. subst o. rewrite signup_run.
  destruct (backend (Rpc_is_email_allowed email)) as [[|]|e] eqn:Hallow; cbn.
  - split; [eexists; reflexivity|]. split; [discriminate|].
    intros e p n [H|[H|[]]]; [discriminate H|]. injection H as <- <- <-. auto.
  - split; [eexists; reflexivity|]. split; [auto|].
    intros e p n [H|[]]. discriminate H.
  - split; [eexists; reflexivity|]. split; [discriminate|].
    intros e' p n [H|[H|[]]]; discriminate H.
Qed.

(** An email the allowlist rejects: the error names the reason and the only
    request is the allowlist call. *)
Lemma signup_gated_by_allowlist_witness :
  result (run (backend_ok false)
              (AuthContext.signup (St := unit) (js "eve@example.com") (js "secret1") (js "Eve")) tt)
  = inr (new_Error
      "This email is not authorized for registration. Please contact an administrator.")
  /\ trace (run (backend_ok false)
                (AuthContext.signup (St := unit) (js "eve@example.com") (js "secret1") (js "Eve")) tt)
     = [ECall (Rpc_is_email_allowed (js "eve@example.com"))].
Proof.
  destruct (signup_gated_by_allowlist (St := unit) (backend_ok false)
              (js "eve@example.com") (js "secret1") (js "Eve") tt)
    as (_ & Hdenied & _).
  destruct (Hdenied eq_refl) as (Hresult & Htrace & _).
  split; [exact Hresult | exact Htrace].
Defined.

(** The signup form, with passwords that pass the form's checks and an email
    the allowlist rejects: the reason is shown in the toast and the only
    request is the allowlist call. *)
Lemma handleSignup_rejected_email (backend : Backend) (view : LoginPage.State) :
  LoginPage.password (LoginPage.formData view)
    = LoginPage.confirmPassword (LoginPage.formData view) ->
  6 <= js_length (LoginPage.password (LoginPage.formData view)) ->
  backend (Rpc_is_email_allowed (LoginPage.email (LoginPage.formData view))) = Success false ->
  run backend (LoginPage.handleSignup view) view
  = {| final := LoginPage.setIsLoading false view;
       trace := [EPreventDefault;
                 ECall (Rpc_is_email_allowed (LoginPage.email (LoginPage.formData view)));
                 EConsoleError "Signup error:";
                 EToast (destructive "Signup failed"
                   "This email is not authorized for registration. Please contact an administrator.")];
       result := inl tt |}.
Proof.
  intros Hsame Hlen Hdenied. unfold LoginPage.handleSignup.
  rewrite bool_decide_eq_false_2 by (intros H; apply H, Hsame).
  replace (js_length _ <? 6) with false by (symmetry; apply Z.ltb_ge, Hlen).
  cbn. rewrite Hdenied. reflexivity.
Qed.

(** ** Form validation *)

Lemma password_check_fails (password confirm : JsString) :
  password <> confirm \/ js_length password < 6 ->
  bool_decide (password <> confirm) = true
  \/ (bool_decide (password <> confirm) = false /\ (js_length password <? 6) = true).
Proof.
  intros H. destruct (bool_decide (password <> confirm)) eqn:E; [left; reflexivity|].
  right. split; [reflexivity|]. apply Z.ltb_lt.
  destruct H as [H|H]; [|exact H]. apply bool_decide_eq_false_1 in E. contradiction.
Qed.

(** C7.  On the signup form, the change-password form and the reset-password
    form, a submission whose two passwords differ or whose password has fewer
    than 6 characters ([.length < 6]) is stopped by the handler: the state is
    left as it is, no request is sent, and apart from [preventDefault] the
    only effect is one destructive toast; the handler returns normally. *)
Theorem invalid_passwords_stop_before_any_request
    (backend : Backend)
    (login : LoginPage.State) (change : ChangePasswordForm.State)
    (reset : ResetPasswordPage.State) :
  LoginPage.password (LoginPage.formData login)
    <> LoginPage.confirmPassword (LoginPage.formData login)
  \/ js_length (LoginPage.password (LoginPage.formData login)) < 6 ->
  ChangePasswordForm.newPassword (ChangePasswordForm.formData change)
    <> ChangePasswordForm.confirmPassword (ChangePasswordForm.formData change)
  \/ js_length (ChangePasswordForm.newPassword (ChangePasswordForm.formData change)) < 6 ->
  ResetPasswordPage.password (ResetPasswordPage.formData reset)
    <> ResetPasswordPage.confirmPassword (ResetPasswordPage.formData reset)
  \/ js_length (ResetPasswordPage.password (ResetPasswordPage.formData reset)) < 6 ->
  (exists t, variant t = Destructive
     /\ run backend (LoginPage.handleSignup login) login
        = {| final := login; trace := [EPreventDefault; EToast t]; result := inl tt |})
  /\ calls (run backend (LoginPage.handleSignup login) login) = []
  /\ (exists t, variant t = Destructive
        /\ run backend (ChangePasswordForm.handleChangePassword change) change
           = {| final := change; trace := [EPreventDefault; EToast t]; result := inl tt |})
  /\ calls (run backend (ChangePasswordForm.handleChangePassword change) change) = []
  /\ (exists t, variant t = Destructive
        /\ run backend (ResetPasswordPage.handleResetPassword reset) reset
           = {| final := reset; trace := [EPreventDefault; EToast t]; result := inl tt |})
  /\ calls (run backend (ResetPasswordPage.handleResetPassword reset) reset) = [].
Proof.
  intros Hlogin Hchange Hreset.
  apply password_check_fails in Hlogin, Hchange, Hreset.
  split; [|split; [|split; [|split; [|split]]]].
  - unfold LoginPage.handleSignup.
    destruct Hlogin as [->|[-> ->]]; eexists; (split; [|reflexivity]); reflexivity.
  - unfold LoginPage.handleSignup.
    destruct Hlogin as [->|[-> ->]]; reflexivity.
  - unfold ChangePasswordForm.handleChangePassword.
    destruct Hchange as [->|[-> ->]]; eexists; (split; [|reflexivity]); reflexivity.
  - unfold ChangePasswordForm.handleChangePassword.
    destruct Hchange as [->|[-> ->]]; reflexivity.
  - unfold ResetPasswordPage.handleResetPassword.
    destruct Hreset as [->|[-> ->]]; eexists; (split; [|reflexivity]); reflexivity.
  - unfold ResetPasswordPage.handleResetPassword.
    destruct Hreset as [->|[-> ->]]; reflexivity.
Qed.

(** Three rejected submissions, the backend being down: no request is sent. *)
Lemma invalid_passwords_witness :
  calls (run backend_down (LoginPage.handleSignup short_signup) short_signup) = []
  /\ calls (run backend_down (ChangePasswordForm.handleChangePassword mismatched_change)
                mismatched_change) = []
  /\ calls (run backend_down (ResetPasswordPage.handleResetPassword empty_reset)
                empty_reset) = [].
Proof.
  destruct (invalid_passwords_stop_before_any_request backend_down
              short_signup mismatched_change empty_reset)
    as (_ & Hlogin & _ & Hchange & _ & Hreset);
    [right; reflexivity | left; discriminate | right; reflexivity |].
  split; [exact Hlogin | split; [exact Hchange | exact Hreset]].
Defined.

(** ** The composers *)

Lemma js_not_true (s : JsString) : js_not s = true <-> s = [].
Proof. destruct s; cbn; split; intros H; congruence. Qed.

(** What [Dashboard.handleSendTweet] does when it gets past its guard. *)
Lemma handleSendTweet_run backend user (view s : Dashboard.State) :
  run backend (Dashboard.handleSendTweet user view) s
  = match user with
    | None => {| final := s; trace := [EPreventDefault]; result := inl tt |}
    | Some u =>
      if js_not (trim (Dashboard.newTweet view)) || (280 <? js_length (Dashboard.newTweet view))
      then {| final := s; trace := [EPreventDefault]; result := inl tt |}
      else
        match error (backend (Tweets_insert (User.id u) (trim (Dashboard.newTweet view)))) with
        | Some _ =>
            {| final := s;
               trace := [EPreventDefault;
                         ECall (Tweets_insert (User.id u) (trim (Dashboard.newTweet view)));
                         EToast (destructive "Error" "Failed to send tweet")];
               result := inl tt |}
        | None =>
            {| final := Dashboard.setNewTweet [] s;
               trace := [EPreventDefault;
                         ECall (Tweets_insert (User.id u) (trim (Dashboard.newTweet view)));
                         EToast (plain "Success" "Tweet posted successfully!");
                         ESetTimeout FetchTweets 500];
               result := inl tt |}
        end
    end.
Proof.
  unfold Dashboard.handleSendTweet. destruct user as [u|]; [|reflexivity]. cbn.
  destruct (js_not _ || _); [reflexivity|]. cbn.
  destruct (backend (Tweets_insert _ _)); reflexivity.
Qed.

(** What [TweetComposer.handleSubmit] does when it gets past its guard. *)
Lemma handleSubmit_run backend user (view s : TweetComposer.State) :
  run backend (TweetComposer.handleSubmit user view) s
  = match user with
    | None => {| final := s; trace := [EPreventDefault]; result := inl tt |}
    | Some u =>
      if js_not (trim (TweetComposer.content view)) || TweetComposer.isSubmitting view
      then {| final := s; trace := [EPreventDefault]; result := inl tt |}
      else
        match error (backend (Tweets_insert (User.id u) (trim (TweetComposer.content view)))) with
        | Some _ =>
            {| final := TweetComposer.setIsSubmitting false s;
               trace := [EPreventDefault;
                         ECall (Tweets_insert (User.id u) (trim (TweetComposer.content view)));
                         EToast (destructive "Error" "Failed to post tweet")];
               result := inl tt |}
        | None =>
            {| final := TweetComposer.setIsSubmitting false (TweetComposer.setContent [] s);
               trace := [EPreventDefault;
                         ECall (Tweets_insert (User.id u) (trim (TweetComposer.content view)));
                         EOnOpenChange false;
                         EToast (plain "Success" "Tweet posted successfully!");
                         EDispatch "tweetPosted"];
               result := inl tt |}
        end
    end.
Proof.
  unfold TweetComposer.handleSubmit. destruct user as [u|]; [|reflexivity]. cbn.
  destruct (js_not _ || _); [reflexivity|]. cbn.
  destruct (backend (Tweets_insert _ _)); reflexivity.
Qed.

Lemma guard_passed (text : JsString) (busy : bool) :
  js_not (trim text) || busy = false -> trim text <> [].
Proof.
  intros H. apply orb_false_iff in H as [H _]. intros Hnil.
  apply js_not_true in Hnil. congruence.
Qed.


(** * Further properties of the handlers *)

(** ** The feed under notifications *)

Lemma dashboard_onTweetDelete_after backend payload_old_id s :
  after backend (Dashboard.onTweetDelete payload_old_id) s
  = Dashboard.setTweets
      (List.filter (fun tweet => negb (bool_decide (Tweet.id tweet = payload_old_id)))) s.
Proof. reflexivity. Qed.

Lemma filter_keeps_all {A} (f : A -> bool) (l : list A) :
  (forall x, In x l -> f x = true) -> List.filter f l = l.
Proof.
  induction l as [|a l IH]; intros H; cbn; [reflexivity|].
  rewrite H by (left; reflexivity). f_equal. apply IH. intros x Hx. apply H. right; exact Hx.
Qed.

Lemma other_id_kept (tweetId : string) (l : list Tweet.t) :
  (forall t, In t l -> Tweet.id t <> tweetId) ->
  List.filter (fun tweet => negb (bool_decide (Tweet.id tweet = tweetId))) l = l.
Proof.
  intros H. apply filter_keeps_all. intros t Ht.
  rewrite bool_decide_eq_false_2 by (apply H, Ht). reflexivity.
Qed.

Lemma patch_absent (tweetId : string) f (l : list Tweet.t) :
  (forall t, In t l -> Tweet.id t <> tweetId) -> patch tweetId f <$> l = l.
Proof. intros H. apply fmap_fixed. intros t Ht. apply patch_miss, H, Ht. Qed.

Lemma deleted_id_absent (tweetId : string) (l : list Tweet.t) t :
  In t (List.filter (fun tweet => negb (bool_decide (Tweet.id tweet = tweetId))) l) ->
  Tweet.id t <> tweetId.
Proof.
  intros H. apply filter_In in H as [_ H]. apply negb_true_iff in H.
  apply bool_decide_eq_false_1 in H. exact H.
Qed.

(** X1.  A post that arrives by an INSERT notification and leaves by a DELETE
    notification for its id leaves the feed as it was before, provided the
    feed did not already hold that id. *)
Theorem insert_then_delete_restores_feed
    (backend : Backend) (s : Dashboard.State) (p : TweetRow.t) :
  (forall t, In t (Dashboard.tweets s) -> Tweet.id t <> TweetRow.id p) ->
  after backend (Dashboard.onTweetDelete (TweetRow.id p))
    (after backend (Dashboard.onTweetInsert p) s) = s.
Proof.
  intros Hfresh.
  rewrite dashboard_onTweetInsert_after, dashboard_onTweetDelete_after.
  destruct s as [tws nt]. unfold Dashboard.setTweets. cbn in *. f_equal.
  rewrite bool_decide_eq_true_2 by reflexivity. cbn.
  apply other_id_kept, Hfresh.
Qed.

(** The post "p2" arrives on the sample feed and is deleted again. *)
Lemma insert_then_delete_witness :
  after backend_down (Dashboard.onTweetDelete "p2")
    (after backend_down (Dashboard.onTweetInsert (sample_row "p2" 0 0)) (sample_feed true))
  = sample_feed true.
Proof.
  apply (insert_then_delete_restores_feed backend_down (sample_feed true) (sample_row "p2" 0 0)).
  intros t [<-|[<-|[]]]; discriminate.
Defined.

(** X2.  After a DELETE notification no entry of the feed has the deleted id,
    and exactly the entries with another id remain.  The post cannot come
    back by a late event: an UPDATE notification for the deleted id leaves
    the state as it is, and a like toggle for it returns without a request. *)
Theorem deleted_post_stays_deleted
    (backend : Backend) (user : option User.t) (s : Dashboard.State)
    (payload_old_id : string) (update : TweetRow.t) (isLiked : bool) :
  TweetRow.id update = payload_old_id ->
  let s' := after backend (Dashboard.onTweetDelete payload_old_id) s in
  occurrences payload_old_id (Dashboard.tweets s') = 0%nat
  /\ (forall t, In t (Dashboard.tweets s')
                <-> In t (Dashboard.tweets s) /\ Tweet.id t <> payload_old_id)
  /\ after backend (Dashboard.onTweetUpdate update) s' = s'
  /\ run backend (Dashboard.handleLike user s' payload_old_id isLiked) s'
     = {| final := s'; trace := []; result := inl tt |}.
Proof.
  intros Hid s'.
  assert (Habsent : forall t, In t (Dashboard.tweets s') -> Tweet.id t <> payload_old_id)
    by (intros t Ht; exact (deleted_id_absent _ _ _ Ht)).
  split; [|split; [|split]].
  - apply occurrences_absent, Habsent.
  - intros t. subst s'. cbn. rewrite filter_In, negb_true_iff. split.
    + intros [Hin Hne]. split; [exact Hin|].
      apply bool_decide_eq_false_1 in Hne. exact Hne.
    + intros [Hin Hne]. split; [exact Hin|].
      apply bool_decide_eq_false_2. exact Hne.
  - rewrite dashboard_onTweetUpdate_after, Hid.
    destruct s' as [tws nt] eqn:Hs'. unfold Dashboard.setTweets. cbn in *. f_equal.
    apply patch_absent, Habsent.
  - unfold Dashboard.handleLike. destruct user as [u|]; [|reflexivity].
    rewrite (find_by_id_absent _ _ Habsent). reflexivity.
Qed.

(** The sample post is deleted; an UPDATE for it arrives afterwards. *)
Lemma deleted_post_witness :
  after backend_down (Dashboard.onTweetUpdate (sample_row "p1" 9 4))
    (after backend_down (Dashboard.onTweetDelete "p1") (sample_feed true))
  = {| Dashboard.tweets := [other_tweet]; Dashboard.newTweet := [] |}.
Proof.
  destruct (deleted_post_stays_deleted backend_down (Some alice) (sample_feed true)
              "p1" (sample_row "p1" 9 4) true eq_refl) as (_ & _ & Hupdate & _).
  exact Hupdate.
Defined.

(** X3.  UPDATE notifications compose by last writer wins: of two
    notifications for the same post the later one alone determines the state,
    whatever the earlier one carried; notifications for different posts
    commute. *)
Theorem update_notifications_last_writer_wins
    (backend : Backend) (s : Dashboard.State) (p1 p2 : TweetRow.t) :
  (TweetRow.id p1 = TweetRow.id p2 ->
   after backend (Dashboard.onTweetUpdate p2) (after backend (Dashboard.onTweetUpdate p1) s)
   = after backend (Dashboard.onTweetUpdate p2) s)
  /\ (TweetRow.id p1 <> TweetRow.id p2 ->
      after backend (Dashboard.onTweetUpdate p2) (after backend (Dashboard.onTweetUpdate p1) s)
      = after backend (Dashboard.onTweetUpdate p1) (after backend (Dashboard.onTweetUpdate p2) s)).
Proof.
  rewrite !dashboard_onTweetUpdate_after.
  destruct s as [tws nt]. unfold Dashboard.setTweets. cbn.
  split; intros Hid; f_equal; rewrite <- !list_fmap_compose;
    apply list_fmap_ext; intros i t _; cbn; unfold patch.
  - rewrite Hid. destruct (bool_decide (Tweet.id t = TweetRow.id p2)) eqn:E; cbn;
      rewrite E; reflexivity.
  - destruct (bool_decide (Tweet.id t = TweetRow.id p1)) eqn:E1;
      destruct (bool_decide (Tweet.id t = TweetRow.id p2)) eqn:E2; cbn;
      rewrite ?E1, ?E2; try reflexivity.
    apply bool_decide_eq_true_1 in E1, E2. congruence.
Qed.

(** Two UPDATEs for the sample post: the second one's counters are shown. *)
Lemma update_notifications_witness :
  after backend_down (Dashboard.onTweetUpdate (sample_row "p1" 9 4))
    (after backend_down (Dashboard.onTweetUpdate (sample_row "p1" 7 3)) (sample_feed true))
  = after backend_down (Dashboard.onTweetUpdate (sample_row "p1" 9 4)) (sample_feed true).
Proof.
  destruct (update_notifications_last_writer_wins backend_down (sample_feed true)
              (sample_row "p1" 7 3) (sample_row "p1" 9 4)) as [Hsame _].
  exact (Hsame eq_refl).
Defined.

(** ** Invariants of the feed *)

Lemma flags_known_patch_like tweetId likes liked (l : list Tweet.t) :
  flags_known l ->
  flags_known (patch tweetId (fun t => spread_like t likes liked) <$> l).
Proof.
  unfold flags_known. intros H. apply Forall_fmap. eapply Forall_impl; [exact H|].
  intros t Ht. cbn. unfold patch. destruct (bool_decide _); [eexists; reflexivity | exact Ht].
Qed.

Lemma feed_step_keeps_flags backend user s a :
  flags_known (Dashboard.tweets s) ->
  flags_known (Dashboard.tweets (feed_step backend user s a)).
Proof.
  intros H. destruct a as [p|p|i|i b]; cbn [feed_step].
  - rewrite dashboard_onTweetInsert_after. cbn. constructor; [eexists; reflexivity | exact H].
  - rewrite dashboard_onTweetUpdate_after. cbn. unfold flags_known in *.
    apply Forall_fmap. eapply Forall_impl; [exact H|].
    intros t Ht. cbn. unfold patch. destruct (bool_decide _); exact Ht.
  - rewrite dashboard_onTweetDelete_after. cbn. unfold flags_known in *.
    apply Forall_forall. intros t Ht. apply list_elem_of_In, filter_In in Ht as [Ht _].
    rewrite Forall_forall in H. apply H, list_elem_of_In, Ht.
  - destruct user as [u|]; [|exact H].
    destruct (List.find (fun t => bool_decide (Tweet.id t = i)) (Dashboard.tweets s))
      as [ct|] eqn:Hfind.
    + rewrite (dashboard_handleLike_after _ _ _ _ _ _ _ Hfind). cbn.
      destruct (error _); apply flags_known_patch_like, H.
    + unfold after, Dashboard.handleLike. rewrite Hfind. exact H.
Qed.

(** X4.  Every post of the feed carries a defined like flag, and no sequence
    of INSERT, UPDATE and DELETE notifications and of like toggles, with any
    arguments and whether or not their requests fail, ever leaves a post
    without one: the property holds of every state reached from a feed that
    has it, the empty feed among them. *)
Theorem feed_flags_stay_known
    (backend : Backend) (user : option User.t) (s : Dashboard.State)
    (actions : list FeedAction) :
  flags_known (Dashboard.tweets s) ->
  flags_known (Dashboard.tweets (foldl (feed_step backend user) s actions)).
Proof.
  revert s. induction actions as [|a actions IH]; intros s H; cbn; [exact H|].
  apply IH, feed_step_keeps_flags, H.
Qed.

(** From the empty feed: a post arrives, is liked (the write fails), is
    updated, and another arrives. *)
Lemma feed_flags_witness :
  flags_known
    (Dashboard.tweets
       (foldl (feed_step backend_down (Some alice))
          {| Dashboard.tweets := []; Dashboard.newTweet := [] |}
          [Inserted (sample_row "p1" 0 0); Toggled "p1" false;
           Updated (sample_row "p1" 3 1); Inserted (sample_row "p2" 0 0)])).
Proof.
  apply (feed_flags_stay_known backend_down (Some alice)
           {| Dashboard.tweets := []; Dashboard.newTweet := [] |}).
  constructor.
Defined.

(** ** More on the like toggle *)

(** X5.  A like toggle on a post of the feed sends exactly one request and
    never a second one, whether the write succeeds or fails: the delete of
    the like row when called with [isLiked], its insert otherwise, for the
    signed-in user.  A failure adds one destructive toast; without a
    signed-in user nothing is sent and nothing changes. *)
Theorem like_toggle_sends_one_request
    (backend : Backend) (u : User.t) (view s : Dashboard.State)
    (tweetId : string) (isLiked : bool) (currentTweet : Tweet.t) :
  List.find (fun t => bool_decide (Tweet.id t = tweetId)) (Dashboard.tweets view)
    = Some currentTweet ->
  let o := run backend (Dashboard.handleLike (Some u) view tweetId isLiked) s in
  calls o = [ECall (if isLiked then Likes_delete tweetId (User.id u)
                    else Likes_insert tweetId (User.id u))]
  /\ result o = inl tt
  /\ (error (backend (like_write isLiked tweetId (User.id u))) = None ->
      trace o = calls o)
  /\ (error (backend (like_write isLiked tweetId (User.id u))) <> None ->
      exists t, variant t = Destructive
        /\ List.filter (fun e => match e with EToast _ => true | _ => false end) (trace o)
           = [EToast t])
  /\ run backend (Dashboard.handleLike None view tweetId isLiked) s
     = {| final := s; trace := []; result := inl tt |}.
Proof.
  intros Hfind o. subst o. unfold Dashboard.handleLike. rewrite Hfind.
  destruct isLiked; cbn.
  - destruct (backend (Likes_delete tweetId (User.id u))) as [d|e]; cbn.
    + repeat (split; [reflexivity|]). split; [intros H; congruence | reflexivity].
    + repeat (split; [reflexivity|]). split; [intros H; discriminate H|].
      split; [|reflexivity]. intros _. eexists. split; [|reflexivity]. reflexivity.
  - destruct (backend (Likes_insert tweetId (User.id u))) as [d|e]; cbn.
    + repeat (split; [reflexivity|]). split; [intros H; congruence | reflexivity].
    + repeat (split; [reflexivity|]). split; [intros H; discriminate H|].
      split; [|reflexivity]. intros _. eexists. split; [|reflexivity]. reflexivity.
Qed.

(** An unlike on the sample feed, the backend being down: one delete. *)
Lemma like_toggle_one_request_witness :
  calls (run backend_down (Dashboard.handleLike (Some alice) (sample_feed true) "p1" true)
             (sample_feed true))
  = [ECall (Likes_delete "p1" "u1")].
Proof.
  destruct (like_toggle_sends_one_request backend_down alice (sample_feed true)
              (sample_feed true) "p1" true (sample_tweet true) eq_refl) as (Hcalls & _).
  exact Hcalls.
Defined.

(** X6.  Toggling a post twice, each toggle called with the flag the post
    then has and neither write failing, brings every entry that held the
    snapshot back to it: a like followed by an unlike, or an unlike followed
    by a like, is the identity on the post, and with unique ids on the whole
    state. *)
Theorem toggle_twice_restores_post
    (backend : Backend) (u : User.t) (s0 : Dashboard.State)
    (tweetId : string) (currentTweet : Tweet.t) (flag : bool) :
  List.find (fun t => bool_decide (Tweet.id t = tweetId)) (Dashboard.tweets s0)
    = Some currentTweet ->
  Tweet.user_liked currentTweet = Some flag ->
  error (backend (Likes_insert tweetId (User.id u))) = None ->
  error (backend (Likes_delete tweetId (User.id u))) = None ->
  let s1 := after backend (Dashboard.handleLike (Some u) s0 tweetId flag) s0 in
  let s2 := after backend (Dashboard.handleLike (Some u) s1 tweetId (negb flag)) s1 in
  (forall i, Dashboard.tweets s0 !! i = Some currentTweet ->
             Dashboard.tweets s2 !! i = Some currentTweet)
  /\ (NoDup (Tweet.id <$> Dashboard.tweets s0) -> s2 = s0).
Proof.
  intros Hfind Hflag Hins Hdel s1 s2.
  destruct (find_by_id_In _ _ _ Hfind) as [_ Hid].
  assert (Hok : forall b, error (backend (like_write b tweetId (User.id u))) = None)
    by (intros []; assumption).
  assert (Hs1 : s1 = Dashboard.setTweets (fun prev =>
            patch tweetId (fun t =>
              spread_like t (if flag then Tweet.likes_count currentTweet - 1
                             else Tweet.likes_count currentTweet + 1) (negb flag)) <$> prev) s0).
  { subst s1. rewrite (dashboard_handleLike_after _ _ _ _ _ _ _ Hfind), Hok. reflexivity. }
  set (c1 := if flag then Tweet.likes_count currentTweet - 1
             else Tweet.likes_count currentTweet + 1) in Hs1.
  assert (Hfind1 : List.find (fun t => bool_decide (Tweet.id t = tweetId)) (Dashboard.tweets s1)
                   = Some (spread_like currentTweet c1 (negb flag))).
  { rewrite Hs1. cbn. rewrite find_by_id_fmap.
    - rewrite Hfind. cbn. f_equal. apply patch_hit, Hid.
    - intros t. unfold patch. destruct (bool_decide _); reflexivity. }
  assert (Hs2 : s2 = Dashboard.setTweets (fun prev =>
            patch tweetId (fun t => spread_like t (Tweet.likes_count currentTweet) flag)
            <$> prev) s0).
  { subst s2. rewrite (dashboard_handleLike_after _ _ _ _ _ _ _ Hfind1), Hok.
    rewrite Hs1. destruct s0 as [tws nt]. unfold Dashboard.setTweets. cbn. f_equal.
    rewrite <- list_fmap_compose. apply list_fmap_ext. intros i t _. cbn.
    unfold patch. destruct (bool_decide (Tweet.id t = tweetId)) eqn:E; cbn; rewrite E;
      [|reflexivity].
    unfold spread_like. cbn. rewrite negb_involutive. f_equal.
    subst c1. destruct flag; cbn; lia. }
  assert (Hct : patch tweetId (fun t => spread_like t (Tweet.likes_count currentTweet) flag)
                      currentTweet = currentTweet).
  { rewrite patch_hit by exact Hid. apply spread_like_snapshot, Hflag. }
  split.
  - intros i Hi. rewrite Hs2. cbn. rewrite list_lookup_fmap, Hi. cbn. f_equal. exact Hct.
  - intros Hnd. rewrite Hs2. destruct s0 as [tws nt]. unfold Dashboard.setTweets. cbn in *.
    f_equal. apply fmap_fixed. intros t Ht.
    destruct (decide (Tweet.id t = tweetId)) as [Heq|Hne].
    + rewrite (unique_id_is_found _ _ _ _ Hnd Hfind Ht Heq). exact Hct.
    + apply patch_miss, Hne.
Qed.

(** Unlike, then like again, on the sample feed. *)
Lemma toggle_twice_witness :
  after (backend_ok true) (Dashboard.handleLike (Some alice)
      (after (backend_ok true) (Dashboard.handleLike (Some alice) (sample_feed true) "p1" true)
         (sample_feed true)) "p1" false)
    (after (backend_ok true) (Dashboard.handleLike (Some alice) (sample_feed true) "p1" true)
       (sample_feed true))
  = sample_feed true.
Proof.
  destruct (toggle_twice_restores_post (backend_ok true) alice (sample_feed true) "p1"
              (sample_tweet true) true eq_refl eq_refl eq_refl eq_refl) as [_ Hwhole].
  apply Hwhole. apply (bool_decide_unpack _). vm_compute. exact I.
Defined.

(** ** What the composers send *)

Lemma trimStart_head (s : JsString) c rest :
  trimStart s = c :: rest -> is_white_space c = false.
Proof.
  induction s as [|a s IH]; cbn; [discriminate|].
  destruct (is_white_space a) eqn:Ha; [exact IH|].
  intros H. injection H as <- _. exact Ha.
Qed.

Lemma trimStart_length (s : JsString) : (length (trimStart s) <= length s)%nat.
Proof.
  induction s as [|a s IH]; cbn; [lia|].
  destruct (is_white_space a); cbn; lia.
Qed.

Lemma trimStart_snoc (s : JsString) c :
  is_white_space c = false -> trimStart (s ++ [c])%list = (trimStart s ++ [c])%list.
Proof.
  intros Hc. induction s as [|a s IH]; cbn.
  - rewrite Hc. reflexivity.
  - destruct (is_white_space a); [exact IH | reflexivity].
Qed.

Lemma trimEnd_length (s : JsString) : (length (trimEnd s) <= length s)%nat.
Proof.
  unfold trimEnd. rewrite length_rev.
  etransitivity; [apply trimStart_length|]. rewrite length_rev. lia.
Qed.

Lemma trimEnd_last (s : JsString) c :
  last (trimEnd s) = Some c -> is_white_space c = false.
Proof.
  unfold trimEnd. destruct (trimStart (rev s)) as [|a r] eqn:E; cbn [rev].
  - discriminate.
  - rewrite last_snoc. intros H. injection H as <-. exact (trimStart_head _ _ _ E).
Qed.

Lemma trimEnd_head (c : N) (rest : JsString) :
  is_white_space c = false -> head (trimEnd (c :: rest)) = Some c.
Proof.
  intros Hc. unfold trimEnd. cbn [rev].
  rewrite trimStart_snoc by exact Hc. rewrite rev_app_distr. reflexivity.
Qed.

(** A trimmed text neither starts nor ends with white space, and is no
    longer than the text. *)
Lemma trim_shape (s : JsString) :
  (forall c, head (trim s) = Some c -> is_white_space c = false)
  /\ (forall c, last (trim s) = Some c -> is_white_space c = false)
  /\ js_length (trim s) <= js_length s.
Proof.
  unfold trim. split; [|split].
  - intros c. destruct (trimStart s) as [|a r] eqn:E; [cbn; discriminate|].
    rewrite (trimEnd_head a r (trimStart_head _ _ _ E)). intros H. injection H as <-.
    exact (trimStart_head _ _ _ E).
  - apply trimEnd_last.
  - unfold js_length. pose proof (trimEnd_length (trimStart s)).
    pose proof (trimStart_length s). lia.
Qed.

(** X7.  Whatever either composer's handler inserts is a trimmed post.  The
    content of every [tweets] insert sent by [Dashboard.handleSendTweet] is
    the trimmed draft, has between 1 and 280 code units, neither begins nor
    ends with a white-space character, and is sent under the signed-in
    user's id.  The content of every insert sent by
    [TweetComposer.handleSubmit] is the trimmed text of the dialog, has at
    least 1 code unit and no more than the text, neither begins nor ends
    with a white-space character, and is sent under the signed-in user's
    id. *)
Theorem inserted_posts_are_trimmed
    (backend : Backend) (user : option User.t)
    (view s : Dashboard.State) (dialog ds : TweetComposer.State)
    (user_id : string) (content : JsString) :
  (In (ECall (Tweets_insert user_id content))
      (trace (run backend (Dashboard.handleSendTweet user view) s)) ->
   content = trim (Dashboard.newTweet view)
   /\ 1 <= js_length content <= 280
   /\ (forall c, head content = Some c -> is_white_space c = false)
   /\ (forall c, last content = Some c -> is_white_space c = false)
   /\ User.id <$> user = Some user_id)
  /\ (In (ECall (Tweets_insert user_id content))
         (trace (run backend (TweetComposer.handleSubmit user dialog) ds)) ->
      content = trim (TweetComposer.content dialog)
      /\ 1 <= js_length content <= js_length (TweetComposer.content dialog)
      /\ (forall c, head content = Some c -> is_white_space c = false)
      /\ (forall c, last content = Some c -> is_white_space c = false)
      /\ User.id <$> user = Some user_id).
Proof.
  assert (Hshape : forall text : JsString,
             trim text <> [] ->
             1 <= js_length (trim text) <= js_length text
             /\ (forall c, head (trim text) = Some c -> is_white_space c = false)
             /\ (forall c, last (trim text) = Some c -> is_white_space c = false)).
  { intros text Hne. destruct (trim_shape text) as (Hh & Hl & Hle).
    split; [|split; assumption]. split; [|lia].
    unfold js_length. destruct (trim text); [congruence | cbn; lia]. }
  split; intros Hin.
  - rewrite handleSendTweet_run in Hin. destruct user as [u|]; [|destruct Hin as [H|[]]; discriminate H].
    destruct (js_not _ || _) eqn:Hguard; [destruct Hin as [H|[]]; discriminate H|].
    assert (Hne := guard_passed _ _ Hguard).
    apply orb_false_iff in Hguard as [_ Hlen]. apply Z.ltb_ge in Hlen.
    assert (Hcontent : content = trim (Dashboard.newTweet view) /\ user_id = User.id u).
    { destruct (error _); cbn in Hin.
      - destruct Hin as [H|[H|[H|[]]]]; try discriminate H. injection H as <- <-. auto.
      - destruct Hin as [H|[H|[H|[H|[]]]]]; try discriminate H. injection H as <- <-. auto. }
    destruct Hcontent as [-> ->]. destruct (Hshape _ Hne) as (H1 & H2 & H3).
    split; [reflexivity|]. split; [lia|]. split; [exact H2|]. split; [exact H3|reflexivity].
  - rewrite handleSubmit_run in Hin.
    destruct user as [u|]; [|destruct Hin as [H|[]]; discriminate H].
    destruct (js_not _ || _) eqn:Hguard; [destruct Hin as [H|[]]; discriminate H|].
    assert (Hne := guard_passed _ _ Hguard).
    assert (Hcontent : content = trim (TweetComposer.content dialog) /\ user_id = User.id u).
    { destruct (error _); cbn in Hin.
      - destruct Hin as [H|[H|[H|[]]]]; try discriminate H. injection H as <- <-. auto.
      - destruct Hin as [H|[H|[H|[H|[H|[]]]]]]; try discriminate H. injection H as <- <-. auto. }
    destruct Hcontent as [-> ->]. destruct (Hshape _ Hne) as (H1 & H2 & H3).
    split; [reflexivity|]. split; [exact H1|]. split; [exact H2|]. split; [exact H3|reflexivity].
Qed.

(** Either composer holds "  hi " and the backend accepts the post: what is
    inserted is "hi". *)
Lemma inserted_posts_witness :
  (1 <= js_length (js "hi") <= 280
   /\ User.id <$> Some alice = Some "u1")
  /\ (js "hi" = trim (js "  hi ")
      /\ 1 <= js_length (js "hi") <= js_length (js "  hi ")).
Proof.
  destruct (inserted_posts_are_trimmed (backend_ok true) (Some alice)
              {| Dashboard.tweets := []; Dashboard.newTweet := js "  hi " |}
              {| Dashboard.tweets := []; Dashboard.newTweet := js "  hi " |}
              {| TweetComposer.content := js "  hi "; TweetComposer.isSubmitting := false |}
              {| TweetComposer.content := js "  hi "; TweetComposer.isSubmitting := false |}
              "u1" (js "hi")) as [Hinline Hdialog].
  split.
  - destruct Hinline as (_ & Hlen & _ & _ & Hid).
    + vm_compute. right. left. reflexivity.
    + split; assumption.
  - destruct Hdialog as (Htrim & Hlen & _).
    + vm_compute. right. left. reflexivity.
    + split; assumption.
Defined.

(** X8.  What a send from the inline composer leaves behind, the text being
    sendable (not empty after trimming, at most 280 code units) and a user
    signed in.  If the insert fails the whole state is as before, the draft
    included, and a destructive toast is the only other effect: no refresh is
    scheduled.  If it succeeds the draft is emptied, the feed itself is not
    touched (the post reaches it by the notification or the refresh), a
    refresh of the feed is scheduled after 500 ms, and the toast is not
    destructive. *)
Theorem send_tweet_outcomes
    (backend : Backend) (u : User.t) (view s : Dashboard.State) :
  trim (Dashboard.newTweet view) <> [] ->
  js_length (Dashboard.newTweet view) <= 280 ->
  let request := Tweets_insert (User.id u) (trim (Dashboard.newTweet view)) in
  let o := run backend (Dashboard.handleSendTweet (Some u) view) s in
  (error (backend request) <> None ->
   final o = s
   /\ trace o = [EPreventDefault; ECall request;
                 EToast (destructive "Error" "Failed to send tweet")])
  /\ (error (backend request) = None ->
      Dashboard.newTweet (final o) = []
      /\ Dashboard.tweets (final o) = Dashboard.tweets s
      /\ trace o = [EPreventDefault; ECall request;
                    EToast (plain "Success" "Tweet posted successfully!");
                    ESetTimeout FetchTweets 500]).
Proof.
  intros Hne Hlen request o. subst o request. rewrite handleSendTweet_run.
  replace (js_not _ || _) with false.
  - destruct (error _); split; intros H; try congruence; repeat split; reflexivity.
  - symmetry. apply orb_false_iff. split.
    + destruct (js_not _) eqn:E; [apply js_not_true in E; congruence | reflexivity].
    + apply Z.ltb_ge, Hlen.
Qed.

(** The draft "hello" is sent while the backend is down: it is still there. *)
Lemma send_tweet_outcomes_witness :
  final (run backend_down
           (Dashboard.handleSendTweet (Some alice)
              {| Dashboard.tweets := [other_tweet]; Dashboard.newTweet := js "hello" |})
           {| Dashboard.tweets := [other_tweet]; Dashboard.newTweet := js "hello" |})
  = {| Dashboard.tweets := [other_tweet]; Dashboard.newTweet := js "hello" |}.
Proof.
  destruct (send_tweet_outcomes backend_down alice
              {| Dashboard.tweets := [other_tweet]; Dashboard.newTweet := js "hello" |}
              {| Dashboard.tweets := [other_tweet]; Dashboard.newTweet := js "hello" |})
    as [Hfail _]; [discriminate | vm_compute; discriminate |].
  destruct Hfail as [Hfinal _]; [discriminate | exact Hfinal].
Defined.

(** X9.  The dialog composer's handler guards against a double submission:
    called while a submission is in flight ([isSubmitting]) it sends nothing
    and changes nothing.  When it does send, it ends with [isSubmitting]
    false whatever the outcome; after a failure the content is kept and the
    dialog is neither closed nor is [tweetPosted] dispatched; after a success
    the content is emptied, the dialog is closed and [tweetPosted] is
    dispatched. *)
Theorem dialog_submit_outcomes
    (backend : Backend) (u : User.t) (view s : TweetComposer.State) :
  let request := Tweets_insert (User.id u) (trim (TweetComposer.content view)) in
  let o := run backend (TweetComposer.handleSubmit (Some u) view) s in
  (TweetComposer.isSubmitting view = true ->
   o = {| final := s; trace := [EPreventDefault]; result := inl tt |})
  /\ (TweetComposer.isSubmitting view = false -> trim (TweetComposer.content view) <> [] ->
      TweetComposer.isSubmitting (final o) = false
      /\ calls o = [ECall request]
      /\ (error (backend request) <> None ->
          TweetComposer.content (final o) = TweetComposer.content s
          /\ ~ In (EOnOpenChange false) (trace o)
          /\ ~ In (EDispatch "tweetPosted") (trace o))
      /\ (error (backend request) = None ->
          TweetComposer.content (final o) = []
          /\ In (EOnOpenChange false) (trace o)
          /\ In (EDispatch "tweetPosted") (trace o))).
Proof.
  intros request o. subst o request. rewrite handleSubmit_run. split.
  - intros ->. rewrite orb_true_r. reflexivity.
  - intros -> Hne. rewrite orb_false_r.
    destruct (js_not _) eqn:E; [apply js_not_true in E; congruence|].
    destruct (error _); cbn.
    + split; [reflexivity|]. split; [reflexivity|]. split; [|intros H; congruence].
      intros _. split; [reflexivity|].
      split; intros [H|[H|[H|[]]]]; discriminate H.
    + split; [reflexivity|]. split; [reflexivity|]. split; [intros H; congruence|].
      intros _. split; [reflexivity|]. split; [right; right; left; reflexivity|].
      right; right; right; right; left; reflexivity.
Qed.

(** A second submit while the first is in flight. *)
Lemma dialog_submit_witness :
  run (backend_ok true)
      (TweetComposer.handleSubmit (Some alice)
         {| TweetComposer.content := js "hello"; TweetComposer.isSubmitting := true |})
      {| TweetComposer.content := js "hello"; TweetComposer.isSubmitting := true |}
  = {| final := {| TweetComposer.content := js "hello"; TweetComposer.isSubmitting := true |};
       trace := [EPreventDefault]; result := inl tt |}.
Proof.
  destruct (dialog_submit_outcomes (backend_ok true) alice
              {| TweetComposer.content := js "hello"; TweetComposer.isSubmitting := true |}
              {| TweetComposer.content := js "hello"; TweetComposer.isSubmitting := true |})
    as [Hbusy _].
  exact (Hbusy eq_refl).
Defined.

(** ** The thread page under notifications *)

Lemma deliver_comment_inserts_tweet backend (ids : list string) thread tweet :
  CommentsPage.tweet thread = Some tweet ->
  CommentsPage.tweet (deliver backend CommentsPage.onCommentInsert thread ids)
  = Some (spread_comments tweet
            (Tweet.comments_count tweet
             + Z.of_nat (length (omap (fetched_comment backend) ids)))).
Proof.
  revert thread tweet. induction ids as [|i ids IH]; intros thread tweet Htweet.
  - cbn. rewrite Htweet. destruct tweet; unfold spread_comments; cbn. do 2 f_equal. lia.
  - change (deliver backend CommentsPage.onCommentInsert thread (i :: ids))
      with (deliver backend CommentsPage.onCommentInsert
              (after backend (CommentsPage.onCommentInsert i) thread) ids).
    rewrite comments_onCommentInsert_after.
    destruct (fetched_comment backend i) as [c|] eqn:Hc.
    + replace (omap (fetched_comment backend) (i :: ids))
        with (c :: omap (fetched_comment backend) ids) by (cbn; rewrite Hc; reflexivity).
      rewrite (IH _ (spread_comments tweet (Tweet.comments_count tweet + 1)))
        by (cbn; rewrite Htweet; reflexivity).
      unfold spread_comments.
      cbn [Tweet.id Tweet.user_id Tweet.content Tweet.likes_count Tweet.comments_count
           Tweet.created_at Tweet.profiles Tweet.user_liked length].
      rewrite Nat2Z.inj_succ. do 2 f_equal; lia.
    + replace (omap (fetched_comment backend) (i :: ids))
        with (omap (fetched_comment backend) ids) by (cbn; rewrite Hc; reflexivity).
      apply IH, Htweet.
Qed.

(** X10.  A comment INSERT notification whose follow-up fetch of the row
    fails changes nothing: no comment is listed and the counter is not
    touched.  Over any sequence of notifications, delivered in order and
    whichever of their fetches fail, the displayed counter and the list grow
    together: the counter rises by exactly the number of comments appended,
    so the difference between the displayed count and the number of listed
    comments stays what it was, and the tweet's other fields are kept. *)
Theorem comment_counter_grows_with_list
    (backend : Backend) (thread : CommentsPage.State) (tweet : Tweet.t)
    (ids : list string) (payload_new_id : string) :
  CommentsPage.tweet thread = Some tweet ->
  let thread' := deliver backend CommentsPage.onCommentInsert thread ids in
  (error (backend (Comments_select_single payload_new_id)) <> None ->
   after backend (CommentsPage.onCommentInsert payload_new_id) thread = thread)
  /\ (exists tweet',
        CommentsPage.tweet thread' = Some tweet'
        /\ Tweet.comments_count tweet' - Z.of_nat (length (CommentsPage.comments thread'))
           = Tweet.comments_count tweet - Z.of_nat (length (CommentsPage.comments thread))
        /\ spread_comments tweet' (Tweet.comments_count tweet) = tweet).
Proof.
  intros Htweet thread'. split.
  - intros Hfail. rewrite comments_onCommentInsert_after. unfold fetched_comment.
    destruct (backend (Comments_select_single payload_new_id)); [cbn in Hfail; congruence|].
    reflexivity.
  - subst thread'. eexists. split; [apply deliver_comment_inserts_tweet, Htweet|].
    rewrite deliver_comment_inserts, length_app. cbn. split; [lia|].
    destruct tweet; reflexivity.
Qed.

(** Two notifications on the sample thread, the second one's row not found:
    one comment is listed and 3 are counted, as 2 were counted with none
    listed. *)
Lemma comment_counter_witness :
  exists tweet',
    CommentsPage.tweet
      (deliver backend_comment CommentsPage.onCommentInsert (sample_thread false) ["c1"])
    = Some tweet'
    /\ Tweet.comments_count tweet'
       - Z.of_nat (length (CommentsPage.comments
           (deliver backend_comment CommentsPage.onCommentInsert (sample_thread false) ["c1"])))
       = 2 - 0.
Proof.
  destruct (comment_counter_grows_with_list backend_comment (sample_thread false)
              (sample_tweet false) ["c1"] "c1" eq_refl) as [_ (tweet' & Htweet & Hdiff & _)].
  exists tweet'. split; [exact Htweet | exact Hdiff].
Defined.

(** ** The account forms *)

Lemma passwords_accepted (password confirm : JsString) :
  password = confirm -> 6 <= js_length password ->
  bool_decide (password <> confirm) = false /\ (js_length password <? 6) = false.
Proof.
  intros Hsame Hlen. split.
  - apply bool_decide_eq_false_2. intros H. apply H, Hsame.
  - apply Z.ltb_ge, Hlen.
Qed.

(** [handleSignup] once the two checks of the form have passed. *)
Lemma handleSignup_run (backend : Backend) (view s : LoginPage.State) :
  LoginPage.password (LoginPage.formData view)
    = LoginPage.confirmPassword (LoginPage.formData view) ->
  6 <= js_length (LoginPage.password (LoginPage.formData view)) ->
  let form := LoginPage.formData view in
  let allow := Rpc_is_email_allowed (LoginPage.email form) in
  let signUp := Auth_signUp (LoginPage.email form) (LoginPage.password form)
                            (LoginPage.name form) in
  let failed calls (e : Err) :=
    {| final := LoginPage.setIsLoading false s;
       trace := (EPreventDefault :: calls
                 ++ [EConsoleError "Signup error:";
                     EToast (destructive "Signup failed"
                       (message_or e "Failed to create account. Please try again."))])%list;
       result := inl tt |} in
  run backend (LoginPage.handleSignup view) s
  = match backend allow with
    | Failure _ =>
        failed [ECall allow; EConsoleError "Allowlist check error:"]
          (new_Error "Unable to verify email authorization. Please try again.")
    | Success false =>
        failed [ECall allow]
          (new_Error
             "This email is not authorized for registration. Please contact an administrator.")
    | Success true =>
        match backend signUp with
        | Failure e => failed [ECall allow; ECall signUp] e
        | Success _ =>
            {| final := {| LoginPage.formData :=
                             {| LoginPage.email := []; LoginPage.password := [];
                                LoginPage.name := []; LoginPage.confirmPassword := [] |};
                           LoginPage.isLoading := false |};
               trace := [EPreventDefault; ECall allow; ECall signUp;
                         EToast (plain "Account created successfully!"
                                       "Welcome to EI Found. You can now sign in.")];
               result := inl tt |}
        end
    end.
Proof.
  intros Hsame Hlen form allow signUp failed. subst form allow signUp failed.
  unfold LoginPage.handleSignup.
  destruct (passwords_accepted _ _ Hsame Hlen) as [-> ->]. cbn.
  destruct (backend (Rpc_is_email_allowed _)) as [[|]|e]; cbn; try reflexivity.
  destruct (backend (Auth_signUp _ _ _)) as [d|e]; reflexivity.
Qed.

(** X11.  [handleSignup] never rejects: every error, of the allowlist call or
    of the sign-up call, is caught and shown in a destructive toast titled
    "Signup failed", and the handler returns.  Once the form's checks have
    passed it always ends with [isLoading] false.  The form is emptied only
    when the account was created (allowlist true and sign-up without error);
    after any failure the entered data are kept.  It sends at most the
    allowlist call and the sign-up call, in that order. *)
Theorem signup_form_outcomes
    (backend : Backend) (view s : LoginPage.State) :
  let form := LoginPage.formData view in
  let allow := Rpc_is_email_allowed (LoginPage.email form) in
  let signUp := Auth_signUp (LoginPage.email form) (LoginPage.password form)
                            (LoginPage.name form) in
  let o := run backend (LoginPage.handleSignup view) s in
  result o = inl tt
  /\ (LoginPage.password form = LoginPage.confirmPassword form ->
      6 <= js_length (LoginPage.password form) ->
      LoginPage.isLoading (final o) = false
      /\ (calls o = [ECall allow] \/ calls o = [ECall allow; ECall signUp])
      /\ (backend allow = Success true /\ error (backend signUp) = None ->
          LoginPage.formData (final o)
          = {| LoginPage.email := []; LoginPage.password := [];
               LoginPage.name := []; LoginPage.confirmPassword := [] |})
      /\ (backend allow <> Success true \/ error (backend signUp) <> None ->
          LoginPage.formData (final o) = LoginPage.formData s
          /\ exists d, In (EToast (destructive "Signup failed" d)) (trace o))).
Proof.
  intros form allow signUp o. split.
  - subst o. unfold LoginPage.handleSignup.
    destruct (bool_decide _); [reflexivity|]. destruct (_ <? 6); [reflexivity|]. cbn.
    subst form. destruct (backend (Rpc_is_email_allowed _)) as [[|]|e]; cbn; try reflexivity.
    destruct (backend (Auth_signUp _ _ _)) as [d|e]; reflexivity.
  - intros Hsame Hlen. subst o. rewrite (handleSignup_run backend view s Hsame Hlen).
    fold form. fold allow. fold signUp.
    destruct (backend allow) as [[|]|e] eqn:Hallow; cbn.
    + destruct (backend signUp) as [d|e] eqn:Hup; cbn.
      * split; [reflexivity|]. split; [right; reflexivity|].
        split; [reflexivity|]. intros [H|H]; congruence.
      * split; [reflexivity|]. split; [right; reflexivity|].
        split; [intros [_ H]; discriminate H|]. intros _. split; [reflexivity|].
        eexists. right; right; right; right; left. reflexivity.
    + split; [reflexivity|]. split; [left; reflexivity|].
      split; [intros [H _]; discriminate H|]. intros _. split; [reflexivity|].
      eexists. right; right; right; left. reflexivity.
    + split; [reflexivity|]. split; [left; reflexivity|].
      split; [intros [H _]; discriminate H|]. intros _. split; [reflexivity|].
      eexists. right; right; right; right; left. reflexivity.
Qed.

(** A signup with an allowlisted email whose sign-up call fails: the entered
    data are still in the form. *)
Lemma signup_form_witness :
  LoginPage.formData
    (final (run backend_down
              (LoginPage.handleSignup
                 {| LoginPage.formData :=
                      {| LoginPage.email := js "a@b.c"; LoginPage.password := js "secret";
                         LoginPage.name := js "A"; LoginPage.confirmPassword := js "secret" |};
                    LoginPage.isLoading := false |})
              {| LoginPage.formData :=
                   {| LoginPage.email := js "a@b.c"; LoginPage.password := js "secret";
                      LoginPage.name := js "A"; LoginPage.confirmPassword := js "secret" |};
                 LoginPage.isLoading := false |}))
  = {| LoginPage.email := js "a@b.c"; LoginPage.password := js "secret";
       LoginPage.name := js "A"; LoginPage.confirmPassword := js "secret" |}.
Proof.
  destruct (signup_form_outcomes backend_down
              {| LoginPage.formData :=
                   {| LoginPage.email := js "a@b.c"; LoginPage.password := js "secret";
                      LoginPage.name := js "A"; LoginPage.confirmPassword := js "secret" |};
                 LoginPage.isLoading := false |}
              {| LoginPage.formData :=
                   {| LoginPage.email := js "a@b.c"; LoginPage.password := js "secret";
                      LoginPage.name := js "A"; LoginPage.confirmPassword := js "secret" |};
                 LoginPage.isLoading := false |}) as [_ Hvalid].
  destruct Hvalid as (_ & _ & _ & Hfailed); [reflexivity | vm_compute; discriminate |].
  destruct Hfailed as [Hform _]; [left; discriminate | exact Hform].
Defined.

(** [handleChangePassword] once the two checks of the form have passed. *)
Lemma handleChangePassword_run (backend : Backend) (view s : ChangePasswordForm.State) :
  ChangePasswordForm.newPassword (ChangePasswordForm.formData view)
    = ChangePasswordForm.confirmPassword (ChangePasswordForm.formData view) ->
  6 <= js_length (ChangePasswordForm.newPassword (ChangePasswordForm.formData view)) ->
  let request := Auth_updateUser (ChangePasswordForm.newPassword
                                    (ChangePasswordForm.formData view)) in
  run backend (ChangePasswordForm.handleChangePassword view) s
  = match backend request with
    | Success _ =>
        {| final := {| ChangePasswordForm.isLoading := false;
                       ChangePasswordForm.formData :=
                         {| ChangePasswordForm.currentPassword := [];
                            ChangePasswordForm.newPassword := [];
                            ChangePasswordForm.confirmPassword := [] |} |};
           trace := [EPreventDefault; ECall request;
                     EToast (plain "Password changed"
                                   "Your password has been successfully updated.")];
           result := inl tt |}
    | Failure e =>
        {| final := ChangePasswordForm.setIsLoading false s;
           trace := [EPreventDefault; ECall request;
                     EConsoleError "Password change error:";
                     EToast (destructive "Change failed"
                       (message_or e "Failed to change password. Please try again."))];
           result := inl tt |}
    end.
Proof.
  intros Hsame Hlen request. subst request. unfold ChangePasswordForm.handleChangePassword.
  destruct (passwords_accepted _ _ Hsame Hlen) as [-> ->]. cbn.
  destruct (backend (Auth_updateUser _)) as [d|e]; reflexivity.
Qed.

(** X12.  The change-password form never looks at the current password:
    whatever is entered there, the handler runs the same.  Once the checks on
    the new password have passed it sends exactly one request, the update of
    the password to the new one, ends with [isLoading] false and never
    rejects; after a failure the entries are kept and the error's message is
    shown under "Change failed", after a success all three entries are
    emptied. *)
Theorem change_password_outcomes
    (backend : Backend) (view s : ChangePasswordForm.State) (current : JsString) :
  let form := ChangePasswordForm.formData view in
  let request := Auth_updateUser (ChangePasswordForm.newPassword form) in
  let o := run backend (ChangePasswordForm.handleChangePassword view) s in
  run backend
    (ChangePasswordForm.handleChangePassword
       {| ChangePasswordForm.isLoading := ChangePasswordForm.isLoading view;
          ChangePasswordForm.formData :=
            {| ChangePasswordForm.currentPassword := current;
               ChangePasswordForm.newPassword := ChangePasswordForm.newPassword form;
               ChangePasswordForm.confirmPassword :=
                 ChangePasswordForm.confirmPassword form |} |}) s = o
  /\ (ChangePasswordForm.newPassword form = ChangePasswordForm.confirmPassword form ->
      6 <= js_length (ChangePasswordForm.newPassword form) ->
      calls o = [ECall request]
      /\ result o = inl tt
      /\ ChangePasswordForm.isLoading (final o) = false
      /\ (forall e, backend request = Failure e ->
          ChangePasswordForm.formData (final o) = ChangePasswordForm.formData s
          /\ In (EToast (destructive "Change failed"
                   (message_or e "Failed to change password. Please try again.")))
                (trace o))
      /\ (error (backend request) = None ->
          ChangePasswordForm.formData (final o)
          = {| ChangePasswordForm.currentPassword := [];
               ChangePasswordForm.newPassword := [];
               ChangePasswordForm.confirmPassword := [] |})).
Proof.
  intros form request o. split; [reflexivity|].
  intros Hsame Hlen. subst o. rewrite (handleChangePassword_run backend view s Hsame Hlen).
  fold form. fold request. destruct (backend request) as [d|e]; cbn.
  - repeat (split; [reflexivity|]). split; [intros e H; discriminate H | reflexivity].
  - repeat (split; [reflexivity|]). split; [|intros H; discriminate H].
    intros e' H. injection H as <-. split; [reflexivity|].
    right; right; right; left. reflexivity.
Qed.

(** A new password of eight characters, the backend being down: the entries
    stay in the form. *)
Lemma change_password_witness :
  ChangePasswordForm.formData
    (final (run backend_down
              (ChangePasswordForm.handleChangePassword
                 {| ChangePasswordForm.isLoading := false;
                    ChangePasswordForm.formData :=
                      {| ChangePasswordForm.currentPassword := js "old";
                         ChangePasswordForm.newPassword := js "secret12";
                         ChangePasswordForm.confirmPassword := js "secret12" |} |})
              {| ChangePasswordForm.isLoading := false;
                 ChangePasswordForm.formData :=
                   {| ChangePasswordForm.currentPassword := js "old";
                      ChangePasswordForm.newPassword := js "secret12";
                      ChangePasswordForm.confirmPassword := js "secret12" |} |}))
  = {| ChangePasswordForm.currentPassword := js "old";
       ChangePasswordForm.newPassword := js "secret12";
       ChangePasswordForm.confirmPassword := js "secret12" |}.
Proof.
  destruct (change_password_outcomes backend_down
              {| ChangePasswordForm.isLoading := false;
                 ChangePasswordForm.formData :=
                   {| ChangePasswordForm.currentPassword := js "old";
                      ChangePasswordForm.newPassword := js "secret12";
                      ChangePasswordForm.confirmPassword := js "secret12" |} |}
              {| ChangePasswordForm.isLoading := false;
                 ChangePasswordForm.formData :=
                   {| ChangePasswordForm.currentPassword := js "old";
                      ChangePasswordForm.newPassword := js "secret12";
                      ChangePasswordForm.confirmPassword := js "secret12" |} |} [])
    as [_ Hvalid].
  destruct Hvalid as (_ & _ & _ & Hfailed & _); [reflexivity | vm_compute; discriminate |].
  destruct (Hfailed (new_Error "Failed to fetch") eq_refl) as [Hform _]. exact Hform.
Defined.

(** [handleResetPassword] once the two checks of the form have passed. *)
Lemma handleResetPassword_run (backend : Backend) (view s : ResetPasswordPage.State) :
  ResetPasswordPage.password (ResetPasswordPage.formData view)
    = ResetPasswordPage.confirmPassword (ResetPasswordPage.formData view) ->
  6 <= js_length (ResetPasswordPage.password (ResetPasswordPage.formData view)) ->
  let request := Auth_updateUser (ResetPasswordPage.password
                                    (ResetPasswordPage.formData view)) in
  run backend (ResetPasswordPage.handleResetPassword view) s
  = match backend request with
    | Success _ =>
        {| final := ResetPasswordPage.setIsLoading false s;
           trace := [EPreventDefault; ECall request;
                     EToast (plain "Password updated"
                                   "Your password has been successfully updated.");
                     ENavigate "/dashboard"];
           result := inl tt |}
    | Failure e =>
        {| final := ResetPasswordPage.setIsLoading false s;
           trace := [EPreventDefault; ECall request;
                     EConsoleError "Password update error:";
                     EToast (destructive "Update failed"
                       (message_or e "Failed to update password. Please try again."))];
           result := inl tt |}
    end.
Proof.
  intros Hsame Hlen request. subst request. unfold ResetPasswordPage.handleResetPassword.
  destruct (passwords_accepted _ _ Hsame Hlen) as [-> ->]. cbn.
  destruct (backend (Auth_updateUser _)) as [d|e]; reflexivity.
Qed.

(** X13.  [handleResetPassword] leaves for the dashboard exactly when the
    password was updated: whatever the form holds and whatever the backend
    answers, [navigate('/dashboard')] is among the handler's effects if and
    only if the two passwords agree, have at least 6 code units and the
    update call returned no error.  The handler navigates nowhere else,
    never rejects, and keeps the entered passwords in every case.  (The
    page's mount effect, which sends a visitor without a session to /login,
    is not part of the handler.) *)
Theorem reset_password_navigates_on_success_only
    (backend : Backend) (view s : ResetPasswordPage.State) (path : string) :
  let form := ResetPasswordPage.formData view in
  let o := run backend (ResetPasswordPage.handleResetPassword view) s in
  (In (ENavigate path) (trace o) <->
   path = "/dashboard"
   /\ ResetPasswordPage.password form = ResetPasswordPage.confirmPassword form
   /\ 6 <= js_length (ResetPasswordPage.password form)
   /\ error (backend (Auth_updateUser (ResetPasswordPage.password form))) = None)
  /\ result o = inl tt
  /\ ResetPasswordPage.formData (final o) = ResetPasswordPage.formData s.
Proof.
  intros form o.
  destruct (decide (ResetPasswordPage.password form = ResetPasswordPage.confirmPassword form))
    as [Hsame|Hdiff].
  - destruct (Z.lt_ge_cases (js_length (ResetPasswordPage.password form)) 6) as [Hshort|Hlen].
    + subst o. unfold ResetPasswordPage.handleResetPassword. fold form.
      rewrite bool_decide_eq_false_2 by (intros H; apply H, Hsame).
      replace (_ <? 6) with true by (symmetry; apply Z.ltb_lt, Hshort). cbn.
      split; [|split; reflexivity]. split.
      * intros [H|[H|[]]]; discriminate H.
      * intros (_ & _ & H & _). lia.
    + subst o. rewrite (handleResetPassword_run backend view s Hsame Hlen). fold form.
      destruct (backend (Auth_updateUser (ResetPasswordPage.password form))) as [d|e]; cbn.
      * split; [|split; reflexivity]. split.
        -- intros [H|[H|[H|[H|[]]]]]; try discriminate H. injection H as <-. auto.
        -- intros (-> & _). right; right; right; left. reflexivity.
      * split; [|split; reflexivity]. split.
        -- intros [H|[H|[H|[H|[]]]]]; discriminate H.
        -- intros (_ & _ & _ & H). discriminate H.
  - subst o. unfold ResetPasswordPage.handleResetPassword. fold form.
    rewrite bool_decide_eq_true_2 by exact Hdiff. cbn.
    split; [|split; reflexivity]. split.
    + intros [H|[H|[]]]; discriminate H.
    + intros (_ & H & _). contradiction.
Qed.

(** Passwords that agree and are long enough, the update succeeding. *)
Lemma reset_password_witness :
  In (ENavigate "/dashboard")
     (trace (run (backend_ok true)
               (ResetPasswordPage.handleResetPassword
                  {| ResetPasswordPage.isLoading := false;
                     ResetPasswordPage.formData :=
                       {| ResetPasswordPage.password := js "secret12";
                          ResetPasswordPage.confirmPassword := js "secret12" |} |})
               {| ResetPasswordPage.isLoading := false;
                  ResetPasswordPage.formData :=
                    {| ResetPasswordPage.password := js "secret12";
                       ResetPasswordPage.confirmPassword := js "secret12" |} |})).
Proof.
  destruct (reset_password_navigates_on_success_only (backend_ok true)
              {| ResetPasswordPage.isLoading := false;
                 ResetPasswordPage.formData :=
                   {| ResetPasswordPage.password := js "secret12";
                      ResetPasswordPage.confirmPassword := js "secret12" |} |}
              {| ResetPasswordPage.isLoading := false;
                 ResetPasswordPage.formData :=
                   {| ResetPasswordPage.password := js "secret12";
                      ResetPasswordPage.confirmPassword := js "secret12" |} |}
              "/dashboard") as [[_ Hnav] _].
  apply Hnav. repeat split. vm_compute. discriminate.
Defined.

(** ** The theme switch *)

Lemma toggleTheme_agrees env :
  let env' := Navbar.toggleTheme env in
  Navbar.darkClass env' = Navbar.isDark env'
  /\ Navbar.theme env' = Some (if Navbar.isDark env' then "dark" else "light")
  /\ Navbar.isDark env' = negb (Navbar.isDark env).
Proof. unfold Navbar.toggleTheme. destruct (Navbar.isDark env); cbn; auto. Qed.

(** X14.  The theme chosen with the switch survives a reload: when the page
    is mounted again after a toggle, the theme is the one the toggle chose,
    whatever the system preference and whatever was stored before; and then
    state, [dark] class and stored item agree.  Without a stored theme (or
    with an empty one) the system preference decides. *)
Theorem theme_survives_reload (env : Navbar.Env) (systemPrefersDark isDark : bool) :
  let chosen := Navbar.toggleTheme env in
  let reloaded :=
    Navbar.onMount systemPrefersDark
      {| Navbar.isDark := isDark; Navbar.darkClass := Navbar.darkClass chosen;
         Navbar.theme := Navbar.theme chosen |} in
  Navbar.isDark reloaded = Navbar.isDark chosen
  /\ Navbar.darkClass reloaded = Navbar.isDark reloaded
  /\ Navbar.theme reloaded = Some (if Navbar.isDark reloaded then "dark" else "light")
  /\ (Navbar.no_theme (Navbar.theme env) = true ->
      Navbar.isDark (Navbar.onMount systemPrefersDark env) = systemPrefersDark).
Proof.
  intros chosen reloaded. split; [|split; [|split]].
  - subst reloaded chosen. unfold Navbar.toggleTheme, Navbar.onMount.
    destruct (Navbar.isDark env); reflexivity.
  - subst reloaded chosen. unfold Navbar.toggleTheme, Navbar.onMount.
    destruct (Navbar.isDark env); reflexivity.
  - subst reloaded chosen. unfold Navbar.toggleTheme, Navbar.onMount.
    destruct (Navbar.isDark env); reflexivity.
  - intros Hno. unfold Navbar.onMount. destruct (Navbar.theme env) as [t|]; cbn in *.
    + apply bool_decide_eq_true_1 in Hno. subst t. destruct systemPrefersDark; reflexivity.
    + destruct systemPrefersDark; reflexivity.
Qed.

(** A reload after switching to dark on a system that prefers light. *)
Lemma theme_survives_reload_witness :
  Navbar.isDark
    (Navbar.onMount false
       {| Navbar.isDark := false; Navbar.darkClass := true; Navbar.theme := Some "dark" |})
  = true.
Proof.
  destruct (theme_survives_reload
              {| Navbar.isDark := false; Navbar.darkClass := false; Navbar.theme := None |}
              false false) as [Hkept _].
  exact Hkept.
Defined.

(** X15.  From the mount on, the [isDark] state and the [dark] class of the
    document agree after every number of toggles, and after at least one
    toggle the stored theme names the theme shown; an even number of toggles
    brings the theme shown back, an odd number flips it. *)
Theorem theme_state_class_and_storage_agree
    (env : Navbar.Env) (systemPrefersDark : bool) (n : nat) :
  let mounted := Navbar.onMount systemPrefersDark env in
  let now := Navbar.toggles n mounted in
  Navbar.darkClass now = Navbar.isDark now
  /\ (0 < n -> Navbar.theme now = Some (if Navbar.isDark now then "dark" else "light"))%nat
  /\ Navbar.isDark now = (if Nat.even n then Navbar.isDark mounted
                          else negb (Navbar.isDark mounted)).
Proof.
  intros mounted now. subst now. induction n as [|n IH].
  - cbn. split; [|split; [lia | reflexivity]].
    subst mounted. unfold Navbar.onMount. destruct (_ || _); reflexivity.
  - change (Navbar.toggles (S n) mounted) with (Navbar.toggleTheme (Navbar.toggles n mounted)).
    destruct (toggleTheme_agrees (Navbar.toggles n mounted)) as (Hclass & Htheme & Hflip).
    split; [exact Hclass|]. split; [intros _; exact Htheme|].
    rewrite Hflip. destruct IH as (_ & _ & ->). rewrite Nat.even_succ, <- Nat.negb_even.
    destruct (Nat.even n); cbn; [reflexivity | apply negb_involutive].
Qed.

(** Three toggles after a mount with a stored light theme. *)
Lemma theme_agree_witness :
  Navbar.theme
    (Navbar.toggles 3
       (Navbar.onMount true
          {| Navbar.isDark := false; Navbar.darkClass := false;
             Navbar.theme := Some "light" |}))
  = Some "dark".
Proof.
  destruct (theme_state_class_and_storage_agree
              {| Navbar.isDark := false; Navbar.darkClass := false;
                 Navbar.theme := Some "light" |} true 3) as (_ & Htheme & _).
  apply Htheme. lia.
Defined.

(** ** The allowlist of the admin page *)

Lemma admin_step_keeps_NoDup toLowerCase s a :
  NoDup (AdminPage.allowlist s) ->
  NoDup (AdminPage.allowlist (AdminPage.step toLowerCase s a)).
Proof.
  intros Hnd. destruct a as [typed|email];
    unfold AdminPage.step, AdminPage.handleAddEmail, AdminPage.handleRemoveEmail;
    cbn [fst AdminPage.allowlist AdminPage.newEmail].
  - destruct (js_not (trim typed)); [exact Hnd|].
    destruct (bool_decide _) eqn:E; cbn [fst AdminPage.allowlist]; [exact Hnd|].
    apply bool_decide_eq_false_1 in E.
    apply NoDup_app. split; [exact Hnd|]. split; [|apply NoDup_singleton].
    intros x Hx Hx'. apply list_elem_of_singleton in Hx'. subst x. contradiction.
  - apply NoDup_ListNoDup, List.NoDup_filter, NoDup_ListNoDup, Hnd.
Qed.

(** X16.  The allowlist of the admin page never holds an address twice:
    starting from the initial list, after any sequence of additions and
    removals, with any texts typed, the list has no duplicates.  (An address
    is compared after trimming and lower-casing, for any lower-casing
    function.) *)
Theorem admin_allowlist_has_no_duplicates
    (toLowerCase : JsString -> JsString) (newEmail : JsString)
    (actions : list AdminPage.Action) :
  NoDup (AdminPage.allowlist
           (foldl (AdminPage.step toLowerCase)
              {| AdminPage.allowlist := AdminPage.INITIAL_ALLOWLIST;
                 AdminPage.newEmail := newEmail |} actions)).
Proof.
  set (s0 := {| AdminPage.allowlist := AdminPage.INITIAL_ALLOWLIST;
                AdminPage.newEmail := newEmail |}).
  assert (H0 : NoDup (AdminPage.allowlist s0))
    by (apply (bool_decide_unpack _); vm_compute; exact I).
  revert H0. generalize s0. clear s0.
  induction actions as [|a actions IH]; intros s H; cbn [foldl]; [exact H|].
  apply IH, admin_step_keeps_NoDup, H.
Qed.

Lemma filter_out_appended (email : JsString) (l : list JsString) :
  email ∉ l ->
  List.filter (fun e => bool_decide (e <> email)) (l ++ [email])%list = l.
Proof.
  intros Hnotin. rewrite List.filter_app. cbn.
  rewrite (bool_decide_eq_false_2 (email <> email)) by (intros H; apply H; reflexivity).
  rewrite app_nil_r. apply filter_keeps_all. intros x Hx.
  apply bool_decide_eq_true_2. intros ->. apply Hnotin, list_elem_of_In, Hx.
Qed.

(** X17.  Adding an address and removing it again.  A submitted text that is
    not empty after trimming is stored trimmed and lower-cased, at the end of
    the list, unless that address is already listed: then the list is left
    as it is and the notice is destructive.  Removing the address just added
    gives back the list as it was before the addition. *)
Theorem admin_add_then_remove
    (toLowerCase : JsString -> JsString) (s : AdminPage.State) :
  trim (AdminPage.newEmail s) <> [] ->
  let email := toLowerCase (trim (AdminPage.newEmail s)) in
  let added := AdminPage.handleAddEmail toLowerCase s s in
  (email ∈ AdminPage.allowlist s ->
   fst added = s /\ AdminPage.variant <$> snd added = Some Destructive)
  /\ (email ∉ AdminPage.allowlist s ->
      AdminPage.allowlist (fst added) = (AdminPage.allowlist s ++ [email])%list
      /\ AdminPage.newEmail (fst added) = []
      /\ AdminPage.allowlist (fst (AdminPage.handleRemoveEmail email (fst added)))
         = AdminPage.allowlist s).
Proof.
  intros Hne email added. subst added. unfold AdminPage.handleAddEmail. fold email.
  destruct (js_not _) eqn:E; [apply js_not_true in E; congruence|].
  split; intros Hin.
  - rewrite bool_decide_eq_true_2 by exact Hin. split; reflexivity.
  - rewrite bool_decide_eq_false_2 by exact Hin. cbn [fst AdminPage.allowlist AdminPage.newEmail].
    split; [reflexivity|]. split; [reflexivity|].
    unfold AdminPage.handleRemoveEmail. cbn [fst AdminPage.allowlist].
    apply filter_out_appended, Hin.
Qed.

(** " new@example.com " is added to the initial list and removed again, the
    lower-casing left abstract as the identity. *)
Lemma admin_add_then_remove_witness :
  AdminPage.allowlist
    (fst (AdminPage.handleRemoveEmail (js "new@example.com")
            (fst (AdminPage.handleAddEmail (fun x => x)
                    {| AdminPage.allowlist := AdminPage.INITIAL_ALLOWLIST;
                       AdminPage.newEmail := js " new@example.com " |}
                    {| AdminPage.allowlist := AdminPage.INITIAL_ALLOWLIST;
                       AdminPage.newEmail := js " new@example.com " |}))))
  = AdminPage.INITIAL_ALLOWLIST.
Proof.
  destruct (admin_add_then_remove (fun x => x)
              {| AdminPage.allowlist := AdminPage.INITIAL_ALLOWLIST;
                 AdminPage.newEmail := js " new@example.com " |}) as [_ Hnew];
    [vm_compute; discriminate|].
  destruct Hnew as (_ & _ & Hback); [|exact Hback].
  apply (bool_decide_unpack _). vm_compute. exact I.
Defined.

(** ** Deleting a tweet *)

(** X18.  Deleting a tweet is not optimistic: [handleDeleteTweet] sends one
    delete, for the given id and the signed-in user's id, and touches the
    feed only when the backend reported no error.  After a failure the state
    is as before and the toast is destructive.  After a success no entry with
    that id is left, the other entries are kept, and the DELETE notification
    that follows changes nothing more.  Without a signed-in user nothing is
    sent. *)
Theorem delete_tweet_waits_for_the_backend
    (service : Flow.Service) (backend : Backend) (u : User.t)
    (s : Dashboard.State) (tweetId : string) :
  let request := Tweets_delete tweetId (User.id u) in
  let o := Flow.run service (DashboardMore.handleDeleteTweet (Some u) tweetId) s in
  Flow.sent o = [Sent request]
  /\ (error (service request) <> None ->
      Flow.final o = s
      /\ Flow.trace o = [Sent request;
                         Did (EToast (destructive "Error" "Failed to delete tweet"))])
  /\ (error (service request) = None ->
      occurrences tweetId (Dashboard.tweets (Flow.final o)) = 0%nat
      /\ (forall t, In t (Dashboard.tweets (Flow.final o))
                    <-> In t (Dashboard.tweets s) /\ Tweet.id t <> tweetId)
      /\ Dashboard.newTweet (Flow.final o) = Dashboard.newTweet s
      /\ after backend (Dashboard.onTweetDelete tweetId) (Flow.final o) = Flow.final o)
  /\ Flow.run service (DashboardMore.handleDeleteTweet None tweetId) s
     = {| Flow.final := s; Flow.trace := []; Flow.result := inl tt |}.
Proof.
  intros request o. subst o request. unfold DashboardMore.handleDeleteTweet. cbn.
  destruct (service (Tweets_delete tweetId (User.id u))) as [d|e]; cbn.
  - split; [reflexivity|]. split; [intros H; congruence|]. split; [|reflexivity].
    intros _.
    assert (Habsent : forall t,
               In t (List.filter (fun tweet => negb (bool_decide (Tweet.id tweet = tweetId)))
                       (Dashboard.tweets s)) -> Tweet.id t <> tweetId)
      by (intros t Ht; exact (deleted_id_absent _ _ _ Ht)).
    split; [apply occurrences_absent, Habsent|]. split; [|split; [reflexivity|]].
    + intros t. rewrite filter_In, negb_true_iff. split.
      * intros [Hin Hne]. split; [exact Hin|]. apply bool_decide_eq_false_1 in Hne. exact Hne.
      * intros [Hin Hne]. split; [exact Hin|]. apply bool_decide_eq_false_2. exact Hne.
    + destruct s as [tws nt]. unfold after, Dashboard.setTweets. cbn in *. f_equal.
      apply other_id_kept, Habsent.
  - split; [reflexivity|]. split; [|split; [intros H; discriminate H | reflexivity]].
    intros _. split; reflexivity.
Qed.

(** The sample post is deleted while the service is down: the feed is as it
    was. *)
Lemma delete_tweet_witness :
  Flow.final (Flow.run service_down (DashboardMore.handleDeleteTweet (Some alice) "p1")
                (sample_feed true))
  = sample_feed true.
Proof.
  destruct (delete_tweet_waits_for_the_backend service_down backend_down alice
              (sample_feed true) "p1") as (_ & Hfail & _).
  destruct Hfail as [Hfinal _]; [discriminate | exact Hfinal].
Defined.

(** ** Sending a comment *)

(** X19.  A comment is sent as it was typed.  [handleSendComment] refuses a
    text that is empty after trimming (nothing is sent, nothing changes), but
    the insert it sends carries the untrimmed text, and no length is checked.
    After a failure the text is still in the box and the toast is
    destructive; after a success the box is emptied and a reload of the
    thread is deferred by 500 ms. *)
Theorem comment_is_sent_as_typed
    (service : Flow.Service) (u : User.t) (tweetId : string)
    (view s : CommentsPageMore.State) :
  tweetId <> "" ->
  let text := CommentsPageMore.newComment view in
  let request := Comments_insert (User.id u) tweetId text in
  let o := Flow.run service
             (CommentsPageMore.handleSendComment (Some u) (Some tweetId) view) s in
  (trim text = [] ->
   o = {| Flow.final := s; Flow.trace := [Did EPreventDefault]; Flow.result := inl tt |})
  /\ (trim text <> [] ->
      Flow.sent o = [Sent request]
      /\ (error (service request) <> None ->
          Flow.final o = s
          /\ In (Did (EToast (destructive "Error" "Failed to send comment"))) (Flow.trace o))
      /\ (error (service request) = None ->
          CommentsPageMore.newComment (Flow.final o) = []
          /\ In (Deferred_call "fetchTweetAndComments" 500) (Flow.trace o))).
Proof.
  intros Hid text request o. subst o request. unfold CommentsPageMore.handleSendComment.
  fold text. rewrite (bool_decide_eq_false_2 _ Hid), orb_false_r. split.
  - intros Hnil. apply js_not_true in Hnil. rewrite Hnil. reflexivity.
  - intros Hne. destruct (js_not (trim text)) eqn:E; [apply js_not_true in E; congruence|].
    cbn. destruct (service (Comments_insert (User.id u) tweetId text)) as [d|e]; cbn.
    + split; [reflexivity|]. split; [intros H; congruence|]. intros _.
      split; [reflexivity|]. right; right; right; left. reflexivity.
    + split; [reflexivity|]. split; [|intros H; discriminate H]. intros _.
      split; [reflexivity|]. right; right; right; left. reflexivity.
Qed.

(** The comment " ok " on the tweet "p1": the insert carries the spaces. *)
Lemma comment_as_typed_witness :
  Flow.sent (Flow.run service_ok
               (CommentsPageMore.handleSendComment (Some alice) (Some "p1")
                  {| CommentsPageMore.newComment := js " ok " |})
               {| CommentsPageMore.newComment := js " ok " |})
  = [Sent (Comments_insert "u1" "p1" (js " ok "))].
Proof.
  destruct (comment_is_sent_as_typed service_ok alice "p1"
              {| CommentsPageMore.newComment := js " ok " |}
              {| CommentsPageMore.newComment := js " ok " |}) as [_ Hsend];
    [discriminate|].
  destruct Hsend as [Hsent _]; [vm_compute; discriminate | exact Hsent].
Defined.

(** ** Signing in and asking for a reset e-mail *)

(** X20.  [handleLogin] checks nothing on the client: for every content of
    the form, empty fields included, it sends exactly one sign-in request
    with the e-mail and password as entered.  It never rejects, ends with
    [isLoading] false and leaves the form's data as they are; the welcome
    toast is shown exactly when the request returned no error, and otherwise
    the error's message is shown under "Login failed". *)
Theorem login_outcomes (service : Flow.Service) (view s : LoginPage.State) :
  let form := LoginPage.formData view in
  let request := Auth_signInWithPassword (LoginPage.email form) (LoginPage.password form) in
  let o := Flow.run service (LoginPageMore.handleLogin view) s in
  Flow.sent o = [Sent request]
  /\ Flow.result o = inl tt
  /\ Flow.final o = LoginPage.setIsLoading false s
  /\ (In (Did (EToast (plain "Welcome back!" "You've successfully logged in.")))
         (Flow.trace o)
      <-> error (service request) = None)
  /\ (forall e, service request = Failure e ->
      In (Did (EToast (destructive "Login failed"
                 (message_or e "Invalid credentials. Please check your email and password."))))
         (Flow.trace o)).
Proof.
  intros form request o. subst o request form. unfold LoginPageMore.handleLogin. cbn.
  destruct (service (Auth_signInWithPassword _ _)) as [d|e]; cbn.
  - repeat (split; [reflexivity|]). split.
    + split; [reflexivity|]. intros _. right; right; left. reflexivity.
    + intros e H. discriminate H.
  - repeat (split; [reflexivity|]). split.
    + split; [|intros H; discriminate H].
      intros [H|[H|[H|[H|[]]]]]; discriminate H.
    + intros e' H. injection H as <-. right; right; right; left. reflexivity.
Qed.

(** X21.  [handleForgotPassword] asks for a reset e-mail only for a non-empty
    address: with an empty e-mail field nothing is sent, nothing changes and
    a destructive toast asks for the address.  Otherwise exactly one request
    is sent and the handler ends with [isLoading] false; the reset view is
    switched off exactly when the request returned no error.  It never
    rejects. *)
Theorem forgot_password_outcomes (service : Flow.Service) (view s : LoginPage.State) :
  let email := LoginPage.email (LoginPage.formData view) in
  let request := Auth_resetPasswordForEmail email in
  let o := Flow.run service (LoginPageMore.handleForgotPassword view) s in
  Flow.result o = inl tt
  /\ (email = [] ->
      Flow.final o = s
      /\ Flow.trace o = [Did EPreventDefault;
                         Did (EToast (destructive "Email required"
                                        "Please enter your email address."))])
  /\ (email <> [] ->
      Flow.sent o = [Sent request]
      /\ Flow.final o = LoginPage.setIsLoading false s
      /\ (In (SetShowForgotPassword false) (Flow.trace o)
          <-> error (service request) = None)).
Proof.
  intros email request o. subst o request. unfold LoginPageMore.handleForgotPassword.
  fold email. destruct email as [|c rest] eqn:Hemail; cbn.
  - split; [reflexivity|]. split; [intros _; split; reflexivity|]. intros H. congruence.
  - destruct (service (Auth_resetPasswordForEmail (c :: rest))) as [d|e]; cbn.
    + split; [reflexivity|]. split; [intros H; discriminate H|]. intros _.
      split; [reflexivity|]. split; [reflexivity|]. split; [reflexivity|].
      intros _. right; right; right; left. reflexivity.
    + split; [reflexivity|]. split; [intros H; discriminate H|]. intros _.
      split; [reflexivity|]. split; [reflexivity|]. split; [|intros H; discriminate H].
      intros [H|[H|[H|[H|[]]]]]; discriminate H.
Qed.

(** An empty e-mail field. *)
Lemma forgot_password_witness :
  Flow.sent (Flow.run service_ok
               (LoginPageMore.handleForgotPassword
                  {| LoginPage.formData :=
                       {| LoginPage.email := []; LoginPage.password := [];
                          LoginPage.name := []; LoginPage.confirmPassword := [] |};
                     LoginPage.isLoading := false |})
               {| LoginPage.formData :=
                    {| LoginPage.email := []; LoginPage.password := [];
                       LoginPage.name := []; LoginPage.confirmPassword := [] |};
                  LoginPage.isLoading := false |}) = [].
Proof.
  destruct (forgot_password_outcomes service_ok
              {| LoginPage.formData :=
                   {| LoginPage.email := []; LoginPage.password := [];
                      LoginPage.name := []; LoginPage.confirmPassword := [] |};
                 LoginPage.isLoading := false |}
              {| LoginPage.formData :=
                   {| LoginPage.email := []; LoginPage.password := [];
                      LoginPage.name := []; LoginPage.confirmPassword := [] |};
                 LoginPage.isLoading := false |}) as (_ & Hempty & _).
  destruct (Hempty eq_refl) as [_ Htrace]. unfold Flow.sent. rewrite Htrace. reflexivity.
Defined.

(** A sign-in with both fields empty, the service being down. *)
Lemma login_witness :
  In (Did (EToast (destructive "Login failed" "Failed to fetch")))
     (Flow.trace (Flow.run service_down
        (LoginPageMore.handleLogin
           {| LoginPage.formData :=
                {| LoginPage.email := []; LoginPage.password := [];
                   LoginPage.name := []; LoginPage.confirmPassword := [] |};
              LoginPage.isLoading := false |})
        {| LoginPage.formData :=
             {| LoginPage.email := []; LoginPage.password := [];
                LoginPage.name := []; LoginPage.confirmPassword := [] |};
           LoginPage.isLoading := false |})).
Proof.
  destruct (login_outcomes service_down
              {| LoginPage.formData :=
                   {| LoginPage.email := []; LoginPage.password := [];
                      LoginPage.name := []; LoginPage.confirmPassword := [] |};
                 LoginPage.isLoading := false |}
              {| LoginPage.formData :=
                   {| LoginPage.email := []; LoginPage.password := [];
                      LoginPage.name := []; LoginPage.confirmPassword := [] |};
                 LoginPage.isLoading := false |}) as (_ & _ & _ & _ & Hfailed).
  exact (Hfailed (new_Error "Failed to fetch") eq_refl).
Defined.

(** ** The signed-in user and the route guard *)

Lemma or_undefined_not_empty (x : option JsString) :
  AuthContextMore.or_undefined x <> Some [].
Proof. destruct x as [[|c rest]|]; cbn; discriminate. Qed.

Lemma or_undefined_missing (x : option JsString) :
  AuthContextMore.or_undefined x = None <-> App.missing x = true.
Proof. destruct x as [[|c rest]|]; cbn; split; intros H; congruence. Qed.

Lemma missing_or_undefined (x : option JsString) :
  App.missing (AuthContextMore.or_undefined x) = App.missing x.
Proof. destruct x as [[|c rest]|]; reflexivity. Qed.

(** X22.  The user built from the auth user and the profile row always has a
    name: whatever the display name and the e-mail address are (null, empty,
    an address that starts with [@]), the name is never the empty string, and
    with neither a display name nor an e-mail address it is "User".  No
    optional text field of the
    result is ever the empty string (an empty column counts as absent), and a
    profile fetch that fails gives the same user as one that finds no row. *)
Theorem mapped_user_is_well_formed
    (service : Flow.Service) (supabaseUser : SupabaseUser.t)
    (profile : option FullProfile.t) (St : Type) (s : St) :
  let user := AuthContextMore.toUser supabaseUser profile in
  AuthUser.name user <> []
  /\ (profile ≫= FullProfile.display_name = None ->
      SupabaseUser.email supabaseUser = None ->
      AuthUser.name user = js "User")
  /\ Forall (fun field => field <> Some [])
       [AuthUser.avatar user; AuthUser.bio user; AuthUser.program user;
        AuthUser.section user; AuthUser.batch user; AuthUser.hobby user;
        AuthUser.website user; AuthUser.instagram user; AuthUser.linkedin user;
        AuthUser.twitter user; AuthUser.about user]
  /\ (forall e,
        service (Profiles_select_maybeSingle (SupabaseUser.id supabaseUser)) = Failure e ->
        Flow.result (Flow.run service (AuthContextMore.mapSupabaseUserToUser supabaseUser) s)
        = inl (AuthContextMore.toUser supabaseUser None))
  /\ (service (Profiles_select_maybeSingle (SupabaseUser.id supabaseUser)) = Success profile ->
      Flow.result (Flow.run service (AuthContextMore.mapSupabaseUserToUser supabaseUser) s)
      = inl user).
Proof.
  intros user. subst user. split; [|split; [|split; [|split]]].
  - unfold AuthContextMore.toUser. cbn.
    destruct (AuthContextMore.or_undefined (profile ≫= FullProfile.display_name))
      as [[|c r]|] eqn:E1.
    + exfalso. exact (or_undefined_not_empty _ E1).
    + discriminate.
    + destruct (AuthContextMore.or_undefined
                  (AuthContextMore.before_at <$> SupabaseUser.email supabaseUser))
        as [[|c r]|] eqn:E2.
      * exfalso. exact (or_undefined_not_empty _ E2).
      * discriminate.
      * vm_compute. discriminate.
  - intros Hname Hemail. unfold AuthContextMore.toUser. cbn. rewrite Hname, Hemail. reflexivity.
  - unfold AuthContextMore.toUser. cbn.
    repeat (constructor; [apply or_undefined_not_empty|]). constructor.
  - intros e He. unfold AuthContextMore.mapSupabaseUserToUser. cbn. rewrite He. reflexivity.
  - intros Hp. unfold AuthContextMore.mapSupabaseUserToUser. cbn. rewrite Hp. reflexivity.
Qed.

(** An auth user "bob@example.com" without a profile row is named "bob". *)
Lemma mapped_user_witness :
  Flow.result (Flow.run service_ok
                 (AuthContextMore.mapSupabaseUserToUser
                    {| SupabaseUser.id := "u2";
                       SupabaseUser.email := Some (js "bob@example.com") |}) tt)
  = inl (AuthContextMore.toUser
           {| SupabaseUser.id := "u2"; SupabaseUser.email := Some (js "bob@example.com") |}
           None)
  /\ AuthUser.name (AuthContextMore.toUser
                      {| SupabaseUser.id := "u2";
                         SupabaseUser.email := Some (js "bob@example.com") |} None)
     = js "bob".
Proof.
  destruct (mapped_user_is_well_formed service_ok
              {| SupabaseUser.id := "u2"; SupabaseUser.email := Some (js "bob@example.com") |}
              None unit tt) as (_ & _ & _ & _ & Hfound).
  split; [exact (Hfound eq_refl) | reflexivity].
Defined.

(** X23.  The route guard, applied to the user as the auth context builds
    it.  While loading it shows the spinner; a visitor who is not signed in
    is sent to /login; a signed-in user whose profile row is missing or lacks
    a program, a section or a batch (null or empty) is sent to
    /profile-setup, with replace, from every path other than /profile-setup
    itself; the protected page is rendered only for a signed-in user who has
    all three or is on /profile-setup. *)
Theorem protected_route_requires_complete_profile
    (supabaseUser : SupabaseUser.t) (profile : option FullProfile.t)
    (loading : bool) (pathname : string) :
  let user := AuthContextMore.toUser supabaseUser profile in
  let incomplete :=
    App.missing (profile ≫= FullProfile.program)
    || App.missing (profile ≫= FullProfile.section)
    || App.missing (profile ≫= FullProfile.batch) in
  App.ProtectedRoute None false pathname = App.Navigate "/login" false
  /\ (forall u, App.ProtectedRoute u true pathname = App.Spinner)
  /\ (incomplete = true -> pathname <> "/profile-setup" ->
      App.ProtectedRoute (Some user) false pathname = App.Navigate "/profile-setup" true)
  /\ (App.ProtectedRoute (Some user) loading pathname = App.Children <->
      loading = false /\ (incomplete = false \/ pathname = "/profile-setup")).
Proof.
  intros user incomplete.
  assert (Hinc : App.missing (AuthUser.program user) || App.missing (AuthUser.section user)
                 || App.missing (AuthUser.batch user) = incomplete).
  { subst user incomplete. unfold AuthContextMore.toUser. cbn.
    rewrite !missing_or_undefined. reflexivity. }
  split; [reflexivity|]. split; [reflexivity|]. split.
  - intros Htrue Hpath. unfold App.ProtectedRoute. cbn zeta. rewrite Hinc, Htrue.
    rewrite (bool_decide_eq_false_2 _ Hpath). reflexivity.
  - unfold App.ProtectedRoute. cbn zeta. rewrite Hinc.
    destruct loading; [split; [discriminate | intros [H _]; discriminate H]|].
    destruct incomplete; cbn.
    + destruct (bool_decide (pathname = "/profile-setup")) eqn:E; cbn.
      * apply bool_decide_eq_true_1 in E. split; auto.
      * apply bool_decide_eq_false_1 in E. split; [discriminate|].
        intros [_ [H|H]]; [discriminate H | contradiction].
    + split; auto.
Qed.

(** A user without a profile row asks for /dashboard. *)
Lemma protected_route_witness :
  App.ProtectedRoute
    (Some (AuthContextMore.toUser
             {| SupabaseUser.id := "u2"; SupabaseUser.email := Some (js "bob@example.com") |}
             None)) false "/dashboard"
  = App.Navigate "/profile-setup" true.
Proof.
  destruct (protected_route_requires_complete_profile
              {| SupabaseUser.id := "u2"; SupabaseUser.email := Some (js "bob@example.com") |}
              None false "/dashboard") as (_ & _ & Hsetup & _).
  apply Hsetup; [reflexivity | discriminate].
Defined.

(** ** The initial load of the feed *)

Lemma distinct_from (seen xs : list string) :
  let result :=
    foldl (fun seen x => if bool_decide (x ∈ seen) then seen else (seen ++ [x])%list)
          seen xs in
  (NoDup seen -> NoDup result) /\ (forall x, x ∈ result <-> x ∈ seen \/ x ∈ xs).
Proof.
  revert seen. induction xs as [|a xs IH]; intros seen; cbn.
  - split; [auto|]. intros x. rewrite elem_of_nil. tauto.
  - destruct (IH (if bool_decide (a ∈ seen) then seen else (seen ++ [a])%list)) as [IHnd IHin].
    split.
    + intros Hnd. apply IHnd. destruct (bool_decide (a ∈ seen)) eqn:E; [exact Hnd|].
      apply bool_decide_eq_false_1 in E. apply NoDup_app. split; [exact Hnd|].
      split; [|apply NoDup_singleton].
      intros x Hx Hx'. apply list_elem_of_singleton in Hx'. subst x. contradiction.
    + intros x. rewrite IHin, elem_of_cons.
      destruct (bool_decide (a ∈ seen)) eqn:E.
      * apply bool_decide_eq_true_1 in E. split; [tauto|].
        intros [H|[->|H]]; tauto.
      * rewrite elem_of_app, list_elem_of_singleton. tauto.
Qed.

Lemma distinct_spec (xs : list string) :
  NoDup (DashboardMore.distinct xs) /\ (forall x, x ∈ DashboardMore.distinct xs <-> x ∈ xs).
Proof.
  destruct (distinct_from [] xs) as [Hnd Hin]. split.
  - apply Hnd. constructor.
  - intros x. unfold DashboardMore.distinct. rewrite Hin, elem_of_nil. tauto.
Qed.

(** What [fetchTweets] does for a signed-in user. *)
Lemma fetchTweets_run (service : Flow.Service) (u : User.t) (startTime endTime : Z)
    (s : DashboardMore.State) :
  Flow.run service (DashboardMore.fetchTweets (Some u) startTime endTime) s
  = match service Tweets_select_all with
    | Failure _ =>
        {| Flow.final := DashboardMore.setTweetsLoading false s;
           Flow.trace := [Sent Tweets_select_all; Did (EConsoleError "Error fetching tweets:")];
           Flow.result := inl tt |}
    | Success rows =>
        let userIds := DashboardMore.distinct (TweetRow.user_id <$> rows) in
        let profiles := service (Profiles_select_in userIds) in
        let likes := service (Likes_select_by_user (User.id u)) in
        {| Flow.final :=
             {| DashboardMore.page :=
                  {| Dashboard.tweets :=
                       DashboardMore.tweetsWithProfiles (Some rows) (data profiles) (data likes);
                     Dashboard.newTweet := Dashboard.newTweet (DashboardMore.page s) |};
                DashboardMore.tweetsLoading := false;
                DashboardMore.fastLoad := endTime - startTime <? 200 |};
           Flow.trace :=
             ([Sent Tweets_select_all; Sent (Profiles_select_in userIds);
               Sent (Likes_select_by_user (User.id u))]
              ++ match error profiles with
                 | Some _ => [Did (EConsoleError "Error fetching profiles:")]
                 | None => []
                 end
              ++ match error likes with
                 | Some _ => [Did (EConsoleError "Error fetching user likes:")]
                 | None => []
                 end)%list;
           Flow.result := inl tt |}
    end.
Proof.
  unfold DashboardMore.fetchTweets. cbn.
  destruct (service Tweets_select_all) as [rows|e]; cbn; [|reflexivity].
  destruct (service (Profiles_select_in _)) as [ps|e1]; cbn;
    destruct (service (Likes_select_by_user _)) as [ls|e2]; reflexivity.
Qed.

Lemma profilesMap_get_spec (profilesData : option (list ProfileRow.t)) (user_id : string) :
  match DashboardMore.profilesMap_get profilesData user_id with
  | Some p => In p (default [] profilesData) /\ ProfileRow.user_id p = user_id
  | None => forall p, In p (default [] profilesData) -> ProfileRow.user_id p <> user_id
  end.
Proof.
  unfold DashboardMore.profilesMap_get.
  destruct (List.find _ _) as [p|] eqn:E.
  - apply find_some in E as [Hin Hid]. apply in_rev in Hin.
    apply bool_decide_eq_true_1 in Hid. auto.
  - intros p Hp Hid. apply in_rev in Hp.
    pose proof (find_none _ _ E p Hp) as Hfalse.
    apply bool_decide_eq_false_1 in Hfalse. contradiction.
Qed.

(** X24.  What the initial load puts in the feed when the select of the
    tweets succeeds.  The feed is replaced, whatever it held: it has one post
    per returned row, in the order of the rows, with the row's id, author id,
    content, counters and date.  A post is flagged liked exactly when its id
    is among the user's likes; if the select of the likes failed every post
    is shown not liked.  A post's author is taken from a profile row with the
    post's [user_id] and is null only when no row has it; if the select of
    the profiles failed every author is null.  So every post carries a
    defined like flag.  The composer's draft is kept and loading ends. *)
Theorem initial_load_builds_the_feed
    (service : Flow.Service) (u : User.t) (startTime endTime : Z)
    (s : DashboardMore.State) (rows : list TweetRow.t) :
  service Tweets_select_all = Success rows ->
  let profiles :=
    data (service (Profiles_select_in
                     (DashboardMore.distinct (TweetRow.user_id <$> rows)))) in
  let likes := data (service (Likes_select_by_user (User.id u))) in
  let s' := Flow.final (Flow.run service
                          (DashboardMore.fetchTweets (Some u) startTime endTime) s) in
  let feed := Dashboard.tweets (DashboardMore.page s') in
  length feed = length rows
  /\ (forall i row, rows !! i = Some row ->
      exists t, feed !! i = Some t
        /\ Tweet.id t = TweetRow.id row
        /\ Tweet.user_id t = TweetRow.user_id row
        /\ Tweet.content t = TweetRow.content row
        /\ Tweet.likes_count t = TweetRow.likes_count row
        /\ Tweet.comments_count t = TweetRow.comments_count row
        /\ Tweet.created_at t = TweetRow.created_at row
        /\ Tweet.user_liked t = Some (bool_decide (TweetRow.id row ∈ default [] likes))
        /\ match Tweet.profiles t with
           | Some a => exists p, In p (default [] profiles)
                         /\ ProfileRow.user_id p = TweetRow.user_id row
                         /\ a = {| Author.display_name := ProfileRow.display_name p;
                                   Author.avatar_url := ProfileRow.avatar_url p |}
           | None => forall p, In p (default [] profiles) ->
                       ProfileRow.user_id p <> TweetRow.user_id row
           end)
  /\ flags_known feed
  /\ (likes = None -> Forall (fun t => Tweet.user_liked t = Some false) feed)
  /\ (profiles = None -> Forall (fun t => Tweet.profiles t = None) feed)
  /\ Dashboard.newTweet (DashboardMore.page s') = Dashboard.newTweet (DashboardMore.page s)
  /\ DashboardMore.tweetsLoading s' = false.
Proof.
  intros Hrows profiles likes s' feed.
  assert (Hfeed : feed = DashboardMore.tweetsWithProfiles (Some rows) profiles likes).
  { subst feed s'. rewrite fetchTweets_run, Hrows. reflexivity. }
  assert (Hrest : Dashboard.newTweet (DashboardMore.page s')
                  = Dashboard.newTweet (DashboardMore.page s)
                  /\ DashboardMore.tweetsLoading s' = false).
  { subst s'. rewrite fetchTweets_run, Hrows. split; reflexivity. }
  clearbody feed. subst feed. unfold DashboardMore.tweetsWithProfiles.
  change (default [] (Some rows)) with rows.
  split; [apply length_fmap|]. split; [|split; [|split; [|split; [|exact Hrest]]]].
  - intros i row Hi. eexists. split; [rewrite list_lookup_fmap, Hi; reflexivity|].
    cbn. repeat (split; [reflexivity|]).
    pose proof (profilesMap_get_spec profiles (TweetRow.user_id row)) as Hget.
    destruct (DashboardMore.profilesMap_get profiles (TweetRow.user_id row)) as [p|].
    + exists p. destruct Hget as [Hin Hid]. auto.
    + exact Hget.
  - unfold flags_known. apply Forall_fmap, Forall_forall. intros row _. cbn. eexists. reflexivity.
  - intros ->. apply Forall_fmap, Forall_forall. intros row _. cbn.
    rewrite bool_decide_eq_false_2 by apply not_elem_of_nil. reflexivity.
  - intros ->. apply Forall_fmap, Forall_forall. intros row _. reflexivity.
Qed.

(** X25.  The requests of the initial load.  It never rejects.  Without a
    signed-in user it does nothing.  If the select of the tweets fails it
    sends nothing more, leaves the feed as it is and ends loading.  Otherwise
    it sends, after that select, one select of profiles that names each
    author of the returned tweets exactly once, and one select of the
    signed-in user's likes. *)
Theorem initial_load_requests
    (service : Flow.Service) (user : option User.t) (startTime endTime : Z)
    (s : DashboardMore.State) :
  let o := Flow.run service (DashboardMore.fetchTweets user startTime endTime) s in
  Flow.result o = inl tt
  /\ (user = None -> o = {| Flow.final := s; Flow.trace := []; Flow.result := inl tt |})
  /\ (forall u e, user = Some u -> service Tweets_select_all = Failure e ->
      Flow.sent o = [Sent Tweets_select_all]
      /\ DashboardMore.page (Flow.final o) = DashboardMore.page s
      /\ DashboardMore.tweetsLoading (Flow.final o) = false)
  /\ (forall u rows, user = Some u -> service Tweets_select_all = Success rows ->
      exists userIds,
        Flow.sent o = [Sent Tweets_select_all; Sent (Profiles_select_in userIds);
                       Sent (Likes_select_by_user (User.id u))]
        /\ NoDup userIds
        /\ (forall x, x ∈ userIds <-> exists row, row ∈ rows /\ TweetRow.user_id row = x)).
Proof.
  intros o. split; [|split; [|split]].
  - subst o. destruct user as [u|]; [|reflexivity]. rewrite fetchTweets_run.
    destruct (service Tweets_select_all); reflexivity.
  - intros ->. reflexivity.
  - intros u e -> He. subst o. rewrite fetchTweets_run, He. repeat split.
  - intros u rows -> Hrows. subst o. rewrite fetchTweets_run, Hrows.
    exists (DashboardMore.distinct (TweetRow.user_id <$> rows)).
    destruct (distinct_spec (TweetRow.user_id <$> rows)) as [Hnd Hin].
    split; [|split; [exact Hnd|]].
    + unfold Flow.sent. cbn.
      destruct (service (Profiles_select_in
                           (DashboardMore.distinct (TweetRow.user_id <$> rows))));
        destruct (service (Likes_select_by_user (User.id u))); reflexivity.
    + intros x. rewrite Hin, list_elem_of_fmap. split.
      * intros (row & -> & Hrow). eauto.
      * intros (row & Hrow & <-). eauto.
Qed.

(** Two tweets by the same author are returned; the profiles request names
    the author once. *)
Lemma initial_load_witness :
  exists userIds,
    Flow.sent
      (Flow.run service_two_tweets (DashboardMore.fetchTweets (Some alice) 0 150)
         {| DashboardMore.page := sample_feed true; DashboardMore.tweetsLoading := true;
            DashboardMore.fastLoad := false |})
    = [Sent Tweets_select_all; Sent (Profiles_select_in userIds);
       Sent (Likes_select_by_user "u1")]
    /\ NoDup userIds.
Proof.
  destruct (initial_load_requests service_two_tweets (Some alice) 0 150
              {| DashboardMore.page := sample_feed true; DashboardMore.tweetsLoading := true;
                 DashboardMore.fastLoad := false |}) as (_ & _ & _ & Hok).
  destruct (Hok alice [sample_row "p2" 1 0; sample_row "p1" 5 2] eq_refl eq_refl)
    as (userIds & Hsent & Hnd & _).
  exists userIds. split; [exact Hsent | exact Hnd].
Defined.

(** The feed built from those two tweets: both are listed, in the order
    returned. *)
Lemma initial_load_feed_witness :
  length (Dashboard.tweets (DashboardMore.page
            (Flow.final
               (Flow.run service_two_tweets (DashboardMore.fetchTweets (Some alice) 0 150)
                  {| DashboardMore.page := sample_feed true;
                     DashboardMore.tweetsLoading := true;
                     DashboardMore.fastLoad := false |}))))
  = 2%nat.
Proof.
  destruct (initial_load_builds_the_feed service_two_tweets alice 0 150
              {| DashboardMore.page := sample_feed true; DashboardMore.tweetsLoading := true;
                 DashboardMore.fastLoad := false |}
              [sample_row "p2" 1 0; sample_row "p1" 5 2] eq_refl) as (Hlen & _).
  exact Hlen.
Defined.

(** ** The members list *)

Lemma startsWith_spec (sub s : JsString) :
  Members.startsWith s sub = true <-> exists post, s = (sub ++ post)%list.
Proof.
  revert s. induction sub as [|c sub IH]; intros s.
  - destruct s; cbn; split; eauto.
  - destruct s as [|d s]; cbn.
    + split; [discriminate | intros [post H]; discriminate H].
    + rewrite andb_true_iff, N.eqb_eq, IH. split.
      * intros [-> [post ->]]. eauto.
      * intros [post H]. injection H as -> ->. eauto.
Qed.

(** [includes] finds exactly the texts that have [sub] somewhere inside. *)
Lemma includes_spec (sub s : JsString) :
  Members.includes s sub = true <-> exists pre post, s = (pre ++ sub ++ post)%list.
Proof.
  induction s as [|a s IH].
  - cbn [Members.includes]. rewrite orb_false_r, startsWith_spec. split.
    + intros [post H]. exists [], post. exact H.
    + intros (pre & post & H). symmetry in H.
      apply app_eq_nil in H as [-> H]. exists post. symmetry. exact H.
  - cbn [Members.includes]. rewrite orb_true_iff, startsWith_spec, IH. split.
    + intros [[post H]|(pre & post & H)].
      * exists [], post. exact H.
      * exists (a :: pre), post. rewrite H. reflexivity.
    + intros (pre & post & H). destruct pre as [|b pre].
      * left. exists post. exact H.
      * right. injection H as _ H. eauto.
Qed.

Lemma matches_spec (toLowerCase : JsString -> JsString)
    (x : option JsString) (term : JsString) :
  Members.matches toLowerCase x term = true
  <-> exists text pre post,
        x = Some text /\ toLowerCase text = (pre ++ term ++ post)%list.
Proof.
  destruct x as [text|]; cbn.
  - rewrite includes_spec. split.
    + intros (pre & post & H). eauto 6.
    + intros (text' & pre & post & Heq & H). injection Heq as <-. eauto.
  - split; [discriminate|]. intros (text & pre & post & Heq & _). discriminate Heq.
Qed.

(** Who is listed by [otherProfiles]. *)
Lemma otherProfiles_In (user : option User.t) (profiles : list Member.t) (p : Member.t) :
  In p (Members.otherProfiles user profiles)
  <-> In p profiles
      /\ Some (Member.user_id p) <> User.id <$> user
      /\ (exists c rest, Member.display_name p = Some (c :: rest))
      /\ Member.user_id p <> "".
Proof.
  unfold Members.otherProfiles. rewrite filter_In, !andb_true_iff, !negb_true_iff.
  split.
  - intros (Hp & (Hself & Hname) & Hid).
    apply bool_decide_eq_false_1 in Hself. apply bool_decide_eq_false_1 in Hid.
    split; [exact Hp|]. split; [exact Hself|]. split; [|exact Hid].
    destruct (Member.display_name p) as [[|c rest]|]; cbn in Hname; try discriminate.
    eauto.
  - intros (Hp & Hself & (c & rest & Hname) & Hid).
    split; [exact Hp|]. split; [split|].
    + apply bool_decide_eq_false_2. exact Hself.
    + rewrite Hname. reflexivity.
    + apply bool_decide_eq_false_2. exact Hid.
Qed.

(** X26.  The members list of the sidebar, for any search term.  A profile is
    shown exactly when it is in the list of profiles, belongs to another user
    than the one signed in, has a non-empty display name and a user id, and
    the lower-cased search term occurs somewhere inside its lower-cased
    display name, e-mail address or bio.  The members shown keep the order
    of the profiles.  When the lower-cased search term is empty, every
    profile of another user with a display name and a user id is shown. *)
Theorem members_list_properties
    (toLowerCase : JsString -> JsString) (user : option User.t)
    (profiles : list Member.t) (searchTerm : JsString) :
  let shown := Members.filteredUsers toLowerCase user profiles searchTerm in
  (forall p, In p shown <->
     In p profiles
     /\ Some (Member.user_id p) <> User.id <$> user
     /\ (exists c rest, Member.display_name p = Some (c :: rest))
     /\ Member.user_id p <> ""
     /\ exists text pre post,
          In (Some text) [Member.display_name p; Some (Member.email p); Member.bio p]
          /\ toLowerCase text = (pre ++ toLowerCase searchTerm ++ post)%list)
  /\ sublist shown profiles
  /\ (toLowerCase searchTerm = [] ->
      forall p, In p profiles ->
        Some (Member.user_id p) <> User.id <$> user ->
        (exists c rest, Member.display_name p = Some (c :: rest)) ->
        Member.user_id p <> "" ->
        In p shown).
Proof.
  intros shown.
  assert (Hshown : forall p, In p shown <->
            In p (Members.otherProfiles user profiles)
            /\ exists text pre post,
                 In (Some text) [Member.display_name p; Some (Member.email p); Member.bio p]
                 /\ toLowerCase text = (pre ++ toLowerCase searchTerm ++ post)%list).
  { intros p. subst shown. unfold Members.filteredUsers.
    rewrite filter_In, !orb_true_iff, !matches_spec. split.
    - intros [Hp Hmatch]. split; [exact Hp|].
      destruct Hmatch as [[Hm|Hm]|Hm]; destruct Hm as (text & pre & post & Heq & H);
        exists text, pre, post; rewrite <- Heq; cbn; auto.
    - intros [Hp (text & pre & post & Hin & H)]. split; [exact Hp|].
      destruct Hin as [Heq|[Heq|[Heq|[]]]]; [left; left | left; right | right];
        exists text, pre, post; auto. }
  split; [|split].
  - intros p. rewrite Hshown, otherProfiles_In. tauto.
  - assert (Hsub : forall (f : Member.t -> bool) l, sublist (List.filter f l) l).
    { intros f l. induction l as [|a l IH]; cbn; [constructor|].
      destruct (f a); [apply sublist_skip | apply sublist_cons]; exact IH. }
    subst shown. unfold Members.filteredUsers.
    etransitivity; [apply Hsub|]. unfold Members.otherProfiles. apply Hsub.
  - intros Hempty p Hp Hself Hname Hid. apply Hshown. split.
    + apply otherProfiles_In. auto.
    + destruct Hname as (c & rest & Hname).
      exists (c :: rest), [], (toLowerCase (c :: rest)).
      split; [left; exact Hname|]. rewrite Hempty. reflexivity.
Qed.

(** With an empty search term Alice sees Bob, the second of the sample
    members. *)
Lemma members_list_witness :
  In {| Member.id := "m2"; Member.user_id := "u2"; Member.display_name := Some (js "Bob");
        Member.avatar_url := None; Member.bio := Some (js "hi"); Member.is_admin := false;
        Member.email := js "bob@example.com" |}
     (Members.filteredUsers (fun x => x) (Some alice) sample_members []).
Proof.
  destruct (members_list_properties (fun x => x) (Some alice) sample_members [])
    as (_ & _ & Hall).
  apply (Hall eq_refl).
  - right. left. reflexivity.
  - discriminate.
  - eexists _, _. reflexivity.
  - discriminate.
Defined.

(** ** The remembered route *)

